(** * Order / seat / selection workflow of the [orders] app

    A shallow embedding of [orders/views.py], [orders/forms.py],
    [orders/decorators.py] and the part of [orders/models.py] they use,
    followed by the properties of the workflow.

    Conventions of the embedding:
    - Python [int] is [Z]; Python [str] is [string].  [isdigit], [strip]
      and [int] are those of Python on ASCII text; a statement that
      depends on them for a label, a note or a request value asks that
      this text is plain ([Py.plain]), and a statement about a key that is
      looked up and not found asks that it fits a 64-bit column.
    - The relational store is a record of tables (lists of rows) with
      auto-increment counters; a view is a function from the store to a
      new store and either a reply or the exception that escaped it.
    - The store runs in autocommit mode: a write stays unless it happens
      inside [atomic] and the block raises.
    - The admin actions of [orders/admin.py] ([mark_as_closed] on orders,
      [import_csv] on the menu) and the seat formset of [orders/forms.py]
      are embedded after the views; the menu import has a store of its
      own, the courses and the items with their course. *)

From Stdlib Require Import ZArith String Ascii List Bool Lia.
From Stdlib Require Import DecimalString DecimalZ Decimal.
From stdpp Require Import base decidable option list gmap sets sorting strings.

Local Open Scope string_scope.
Local Open Scope list_scope.
Local Open Scope Z_scope.

(** ** Python built-ins used by the views *)

Module Py.

(** [c in "0123456789"] *)
Definition is_digit (c : ascii) : bool :=
  let n := nat_of_ascii c in (48 <=? n)%nat && (n <=? 57)%nat.

Fixpoint all_digits (s : string) : bool :=
  match s with
  | EmptyString => true
  | String c s' => is_digit c && all_digits s'
  end.

(** [s.isdigit()] on ASCII text: at least one character and all of them
    digits. *)
Definition isdigit (s : string) : bool :=
  match s with
  | EmptyString => false
  | _ => all_digits s
  end.

(** [str(i)] for an [int]. *)
Definition str (i : Z) : string := NilZero.string_of_int (Z.to_int i).

(** [c.isspace()] on ASCII. *)
Definition is_space (c : ascii) : bool :=
  let n := nat_of_ascii c in
  ((9 <=? n)%nat && (n <=? 13)%nat) || ((28 <=? n)%nat && (n <=? 32)%nat).

Fixpoint lstrip (s : string) : string :=
  match s with
  | EmptyString => EmptyString
  | String c s' => if is_space c then lstrip s' else s
  end.

Fixpoint rstrip (s : string) : string :=
  match s with
  | EmptyString => EmptyString
  | String c s' =>
      match rstrip s' with
      | EmptyString => if is_space c then EmptyString else String c EmptyString
      | r => String c r
      end
  end.

(** [s.strip()] *)
Definition strip (s : string) : string := rstrip (lstrip s).

(** The digits of a literal without the underscores that group them: an
    underscore is allowed between two digits only ([None] otherwise);
    [after_digit] tells whether the character before is a digit. *)
Fixpoint ungroup (after_digit : bool) (s : string) : option string :=
  match s with
  | EmptyString => Some EmptyString
  | String c s' =>
      if Ascii.eqb c "_" then
        if after_digit
           && match s' with String d _ => is_digit d | EmptyString => false end
        then ungroup false s'
        else None
      else option_map (String c) (ungroup (is_digit c) s')
  end.

(** At least one digit, with single underscores between digits. *)
Definition unsigned (s : string) : option Z :=
  match ungroup false s with
  | Some digits => option_map Z.of_uint (NilZero.uint_of_string digits)
  | None => None
  end.

(** The white space [int] skips around an ASCII literal: blank, tab, line
    feed, vertical tab, form feed and carriage return, and not the
    separators 28 to 31 that [strip] removes. *)
Definition is_blank (c : ascii) : bool :=
  let n := nat_of_ascii c in
  ((9 <=? n)%nat && (n <=? 13)%nat) || (n =? 32)%nat.

Fixpoint skip_blanks (s : string) : string :=
  match s with
  | EmptyString => EmptyString
  | String c s' => if is_blank c then skip_blanks s' else s
  end.

Fixpoint drop_blanks (s : string) : string :=
  match s with
  | EmptyString => EmptyString
  | String c s' =>
      match drop_blanks s' with
      | EmptyString => if is_blank c then EmptyString else String c EmptyString
      | r => String c r
      end
  end.

(** [int(s)]: surrounding blanks, an optional sign, decimal digits
    with optional underscores between them; [None] stands for
    [ValueError]. *)
Definition int (s : string) : option Z :=
  match drop_blanks (skip_blanks s) with
  | String "+" s' => unsigned s'
  | String "-" s' => option_map Z.opp (unsigned s')
  | t => unsigned t
  end.

(** Text of ASCII characters other than NUL, at most 4000 of them: the
    text on which [isdigit], [strip], [int] and [str] above are the ones
    of Python (beyond ASCII there are further digits and white space, and
    [int] and [str] refuse a number of more than 4300 digits). *)
Definition is_ascii (c : ascii) : bool :=
  let n := nat_of_ascii c in (1 <=? n)%nat && (n <? 128)%nat.

Fixpoint all_ascii (s : string) : bool :=
  match s with
  | EmptyString => true
  | String c s' => is_ascii c && all_ascii s'
  end.

Definition plain (s : string) : bool :=
  all_ascii s && (String.length s <=? 4000)%nat.

(** Truth value of a string: [bool(s)]. *)
Definition truthy (s : string) : bool :=
  match s with EmptyString => false | _ => true end.

(** [sep.join(parts)] *)
Fixpoint join (sep : string) (parts : list string) : string :=
  match parts with
  | [] => ""
  | [p] => p
  | p :: rest => p +:+ sep +:+ join sep rest
  end.

(** [range(a, b)] as a list. *)
Definition range (a b : Z) : list Z := seqZ a (b - a).

End Py.


(** ** The relational store ([orders/models.py]) *)

Record Table := {
  table_pk : Z;
  table_number : Z;
  table_room : Z;
  table_party : option Z }.

Record StaffMember := {
  staff_pk : Z;
  staff_name : string }.

Record MenuItem := {
  item_pk : Z;
  item_name : string }.

Record Order := {
  order_pk : Z;
  order_table : Z;
  order_party : option Z;
  opened_by_staff : option Z;
  opened_at : Z;
  printed : bool }.

Record Seat := {
  seat_pk : Z;
  seat_order : Z;
  label : string;
  assigned_to : option Z }.

Record SeatSelection := {
  sel_pk : Z;
  sel_seat : Z;
  sel_item : Z;
  notes : string;
  modifiers : gset Z;
  temperatures : gset Z;
  created_at : Z }.

Record StaffLog := {
  log_staff : Z;
  action : string;
  timestamp : Z }.

(** [strict_varchar] tells whether the storage backend rejects a string
    longer than the [max_length] of its column. *)
Record DB := {
  strict_varchar : bool;
  tables : list Table;
  staff : list StaffMember;
  menu_items : list MenuItem;
  modifier_pks : gset Z;
  temperature_pks : gset Z;
  orders : list Order;
  seats : list Seat;
  selections : list SeatSelection;
  staff_log : list StaffLog;
  next_order_pk : Z;
  next_seat_pk : Z;
  next_selection_pk : Z }.

Definition set_orders (f : list Order -> list Order) (db : DB) : DB :=
  {| strict_varchar := strict_varchar db; tables := tables db;
     staff := staff db; menu_items := menu_items db;
     modifier_pks := modifier_pks db; temperature_pks := temperature_pks db;
     orders := f (orders db); seats := seats db;
     selections := selections db; staff_log := staff_log db;
     next_order_pk := next_order_pk db; next_seat_pk := next_seat_pk db;
     next_selection_pk := next_selection_pk db |}.

Definition set_seats (f : list Seat -> list Seat) (db : DB) : DB :=
  {| strict_varchar := strict_varchar db; tables := tables db;
     staff := staff db; menu_items := menu_items db;
     modifier_pks := modifier_pks db; temperature_pks := temperature_pks db;
     orders := orders db; seats := f (seats db);
     selections := selections db; staff_log := staff_log db;
     next_order_pk := next_order_pk db; next_seat_pk := next_seat_pk db;
     next_selection_pk := next_selection_pk db |}.

Definition set_selections (f : list SeatSelection -> list SeatSelection)
    (db : DB) : DB :=
  {| strict_varchar := strict_varchar db; tables := tables db;
     staff := staff db; menu_items := menu_items db;
     modifier_pks := modifier_pks db; temperature_pks := temperature_pks db;
     orders := orders db; seats := seats db;
     selections := f (selections db); staff_log := staff_log db;
     next_order_pk := next_order_pk db; next_seat_pk := next_seat_pk db;
     next_selection_pk := next_selection_pk db |}.

Definition set_staff_log (f : list StaffLog -> list StaffLog) (db : DB) : DB :=
  {| strict_varchar := strict_varchar db; tables := tables db;
     staff := staff db; menu_items := menu_items db;
     modifier_pks := modifier_pks db; temperature_pks := temperature_pks db;
     orders := orders db; seats := seats db;
     selections := selections db; staff_log := f (staff_log db);
     next_order_pk := next_order_pk db; next_seat_pk := next_seat_pk db;
     next_selection_pk := next_selection_pk db |}.

Definition bump_order_pk (db : DB) : DB :=
  {| strict_varchar := strict_varchar db; tables := tables db;
     staff := staff db; menu_items := menu_items db;
     modifier_pks := modifier_pks db; temperature_pks := temperature_pks db;
     orders := orders db; seats := seats db;
     selections := selections db; staff_log := staff_log db;
     next_order_pk := next_order_pk db + 1; next_seat_pk := next_seat_pk db;
     next_selection_pk := next_selection_pk db |}.

Definition bump_seat_pk (db : DB) : DB :=
  {| strict_varchar := strict_varchar db; tables := tables db;
     staff := staff db; menu_items := menu_items db;
     modifier_pks := modifier_pks db; temperature_pks := temperature_pks db;
     orders := orders db; seats := seats db;
     selections := selections db; staff_log := staff_log db;
     next_order_pk := next_order_pk db; next_seat_pk := next_seat_pk db + 1;
     next_selection_pk := next_selection_pk db |}.

Definition bump_selection_pk (db : DB) : DB :=
  {| strict_varchar := strict_varchar db; tables := tables db;
     staff := staff db; menu_items := menu_items db;
     modifier_pks := modifier_pks db; temperature_pks := temperature_pks db;
     orders := orders db; seats := seats db;
     selections := selections db; staff_log := staff_log db;
     next_order_pk := next_order_pk db; next_seat_pk := next_seat_pk db;
     next_selection_pk := next_selection_pk db + 1 |}.

(** ** Exceptions and the view monad *)

Inductive Exn :=
| Http404
| ValueError
| DoesNotExist
| MultipleObjectsReturned
| IntegrityError
| DataError
| NameError.

(** A computation over the store: the store after it and either the
    exception it raised or its value. *)
Definition M (A : Type) : Type := DB -> DB * (Exn + A).

Definition ret {A} (a : A) : M A := fun db => (db, inr a).
Definition raise {A} (e : Exn) : M A := fun db => (db, inl e).
Definition bind {A B} (m : M A) (k : A -> M B) : M B :=
  fun db =>
    match m db with
    | (db', inl e) => (db', inl e)
    | (db', inr a) => k a db'
    end.
Definition get_db : M DB := fun db => (db, inr db).
Definition modify (f : DB -> DB) : M unit := fun db => (f db, inr tt).

Notation "x <- m ;; k" := (bind m (fun x => k))
  (at level 100, m at next level, right associativity).
Notation "m ;;; k" := (bind m (fun _ => k))
  (at level 100, right associativity).

(** [with transaction.atomic(): body]: when the body raises, every write
    of the body is undone and the exception goes on. *)
Definition atomic {A} (body : M A) : M A :=
  fun db =>
    match body db with
    | (_, inl e) => (db, inl e)
    | (db', inr a) => (db', inr a)
    end.

Fixpoint mapM {A B} (f : A -> M B) (l : list A) : M (list B) :=
  match l with
  | [] => ret []
  | x :: l' => y <- f x ;; ys <- mapM f l' ;; ret (y :: ys)
  end.

(** [None] raises [e]. *)
Definition or_raise {A} (e : Exn) (o : option A) : M A :=
  match o with Some a => ret a | None => raise e end.

(** ** Object-relational primitives *)

Module ORM.

(** A [CharField(max_length=n)] value is accepted by the storage. *)
Definition varchar_ok (db : DB) (max_length : nat) (s : string) : bool :=
  negb (strict_varchar db) || (String.length s <=? max_length)%nat.

Definition find_table (pk : Z) (db : DB) : option Table :=
  List.find (fun t => table_pk t =? pk) (tables db).
Definition find_staff (pk : Z) (db : DB) : option StaffMember :=
  List.find (fun m => staff_pk m =? pk) (staff db).
Definition find_item (pk : Z) (db : DB) : option MenuItem :=
  List.find (fun i => item_pk i =? pk) (menu_items db).
Definition find_order (pk : Z) (db : DB) : option Order :=
  List.find (fun o => order_pk o =? pk) (orders db).
Definition find_seat (pk : Z) (db : DB) : option Seat :=
  List.find (fun s => seat_pk s =? pk) (seats db).
Definition find_selection (pk : Z) (db : DB) : option SeatSelection :=
  List.find (fun s => sel_pk s =? pk) (selections db).

(** [get_object_or_404(Model, pk=pk)] for a key taken from the URL. *)
Definition get_object_or_404 {A} (find : Z -> DB -> option A) (pk : Z) : M A :=
  fun db => or_raise Http404 (find pk db) db.

(** [get_object_or_404(Model, pk=raw)] for a key taken from the request
    body: a missing key finds nothing, a key that is no number raises
    [ValueError]. *)
Definition get_object_or_404_raw {A} (find : Z -> DB -> option A)
    (raw : option string) : M A :=
  match raw with
  | None => raise Http404
  | Some s => pk <- or_raise ValueError (Py.int s) ;; get_object_or_404 find pk
  end.

(** [Model.objects.get(pk=pk)] *)
Definition objects_get {A} (find : Z -> DB -> option A) (pk : Z) : M A :=
  fun db => or_raise DoesNotExist (find pk db) db.

(** [order.seats]: the seats of one order, in table order. *)
Definition order_seats (order : Order) (db : DB) : list Seat :=
  List.filter (fun s => seat_order s =? order_pk order) (seats db).

(** [Meta.ordering = ['-opened_at']]: the newer of two orders, the earlier
    row on a tie. *)
Definition newer (o1 o2 : Order) : Order :=
  if opened_at o1 <? opened_at o2 then o2 else o1.

(** [Order.objects.filter(table=table, printed=False).first()] *)
Definition first_open_order (table : Table) (db : DB) : option Order :=
  match List.filter (fun o => (order_table o =? table_pk table) && negb (printed o))
          (orders db) with
  | [] => None
  | o :: os => Some (fold_left newer os o)
  end.

(** [Order.objects.create(table=, party=, opened_by_staff=, opened_at=)] *)
Definition create_order (table : Table) (opened_by : StaffMember) (at_ : Z)
    : M Order :=
  fun db =>
    let o := {| order_pk := next_order_pk db; order_table := table_pk table;
                order_party := table_party table;
                opened_by_staff := Some (staff_pk opened_by);
                opened_at := at_; printed := false |} in
    (bump_order_pk (set_orders (fun l => l ++ [o]) db), inr o).

(** An unsaved [Seat(order=, label=, assigned_to=)]. *)
Record NewSeat := {
  ns_order : Z;
  ns_label : string;
  ns_assigned_to : option Z }.

(** [unique_together = ("order", "label")] *)
Definition label_taken (order : Z) (l : string) (db : DB) : bool :=
  existsb (fun s => (seat_order s =? order) && String.eqb (label s) l) (seats db).

(** One INSERT into the seat table: [label] is a [CharField(max_length=10)]
    and [(order, label)] is unique. *)
Definition insert_seat (s : NewSeat) : M Seat :=
  fun db =>
    if negb (varchar_ok db 10 (ns_label s)) then (db, inl DataError)
    else if label_taken (ns_order s) (ns_label s) db then (db, inl IntegrityError)
    else
      let row := {| seat_pk := next_seat_pk db; seat_order := ns_order s;
                    label := ns_label s; assigned_to := ns_assigned_to s |} in
      (bump_seat_pk (set_seats (fun l => l ++ [row]) db), inr row).

(** [Seat.objects.create(...)] *)
Definition create_seat (s : NewSeat) : M Seat := insert_seat s.

(** [Seat.objects.bulk_create(objs)]: all rows or none. *)
Definition bulk_create (objs : list NewSeat) : M (list Seat) :=
  atomic (mapM insert_seat objs).

(** [StaffLog.objects.create(staff_id=, action=)]: [staff] is a foreign
    key and [action] a [CharField(max_length=120)]. *)
Definition create_log (staff_id : Z) (act : string) (at_ : Z) : M unit :=
  fun db =>
    match find_staff staff_id db with
    | None => (db, inl IntegrityError)
    | Some _ =>
        if negb (varchar_ok db 120 act) then (db, inl DataError)
        else (set_staff_log
                (fun l => l ++ [{| log_staff := staff_id; action := act;
                                   timestamp := at_ |}]) db, inr tt)
    end.

(** [seat.delete()], with [on_delete=CASCADE] from selection to seat. *)
Definition delete_seat (seat : Seat) : M unit :=
  modify (fun db =>
    set_selections (List.filter (fun s => negb (sel_seat s =? seat_pk seat)))
      (set_seats (List.filter (fun s => negb (seat_pk s =? seat_pk seat))) db)).

(** [order.delete()], cascading to the seats of the order and to their
    selections. *)
Definition delete_order (order : Order) : M unit :=
  modify (fun db =>
    let gone := List.filter (fun s => seat_order s =? order_pk order) (seats db) in
    set_orders (List.filter (fun o => negb (order_pk o =? order_pk order)))
      (set_seats (List.filter (fun s => negb (seat_order s =? order_pk order)))
        (set_selections
           (List.filter (fun sel =>
              negb (existsb (fun s => seat_pk s =? sel_seat sel) gone))) db))).

(** [selection.delete()] *)
Definition delete_selection (sel : SeatSelection) : M unit :=
  modify (set_selections (List.filter (fun s => negb (sel_pk s =? sel_pk sel)))).

(** [selection.save()] of a fetched selection: the row with its key takes
    the object's column values; [notes] is a [CharField(max_length=200)].
    The many-to-many sets are no columns of the row and stay. *)
Definition save_selection (sel : SeatSelection) : M unit :=
  fun db =>
    if negb (varchar_ok db 200 (notes sel)) then (db, inl DataError)
    else
      (set_selections
         (List.map (fun row =>
            if sel_pk row =? sel_pk sel then
              {| sel_pk := sel_pk row; sel_seat := sel_seat sel;
                 sel_item := sel_item sel; notes := notes sel;
                 modifiers := modifiers row; temperatures := temperatures row;
                 created_at := created_at row |}
            else row)) db, inr tt).

(** [SeatSelection.objects.get_or_create(seat=, item=, defaults={"notes":})] *)
Definition get_or_create_selection (seat : Seat) (item : MenuItem)
    (default_notes : string) (at_ : Z) : M (SeatSelection * bool) :=
  fun db =>
    match List.filter (fun s => (sel_seat s =? seat_pk seat) &&
                                (sel_item s =? item_pk item)) (selections db) with
    | [] =>
        if negb (varchar_ok db 200 default_notes) then (db, inl DataError)
        else
          let row := {| sel_pk := next_selection_pk db; sel_seat := seat_pk seat;
                        sel_item := item_pk item; notes := default_notes;
                        modifiers := ∅; temperatures := ∅; created_at := at_ |} in
          (bump_selection_pk (set_selections (fun l => l ++ [row]) db),
           inr (row, true))
    | [s] => (db, inr (s, false))
    | _ => (db, inl MultipleObjectsReturned)
    end.

(** [Model.objects.filter(pk__in=raw_ids)]: the keys among [raw_ids] that
    exist; an id that is no number raises [ValueError].  A key beyond 64
    bits, at which the query itself can fail, is excluded by the
    statements. *)
Definition filter_pk_in (existing : gset Z) (raw_ids : list string)
    : M (gset Z) :=
  ids <- mapM (fun s => or_raise ValueError (Py.int s)) raw_ids ;;
  ret (existing ∩ list_to_set ids).

(** [selection.modifiers.add] of the fetched modifiers. *)
Definition modifiers_add (sel : SeatSelection) (mods : gset Z) : M unit :=
  modify (set_selections
    (List.map (fun row =>
       if sel_pk row =? sel_pk sel then
         {| sel_pk := sel_pk row; sel_seat := sel_seat row;
            sel_item := sel_item row; notes := notes row;
            modifiers := modifiers row ∪ mods; temperatures := temperatures row;
            created_at := created_at row |}
       else row))).

(** [selection.temperatures.add] of the fetched temperatures. *)
Definition temperatures_add (sel : SeatSelection) (temps : gset Z) : M unit :=
  modify (set_selections
    (List.map (fun row =>
       if sel_pk row =? sel_pk sel then
         {| sel_pk := sel_pk row; sel_seat := sel_seat row;
            sel_item := sel_item row; notes := notes row;
            modifiers := modifiers row; temperatures := temperatures row ∪ temps;
            created_at := created_at row |}
       else row))).

End ORM.

(** ** Requests and replies *)

Inductive Method := GET | POST.

(** A [QueryDict]: the submitted pairs, in order. *)
Definition QueryDict := list (string * string).

(** [qd.getlist(key)] *)
Definition qd_getlist (key : string) (qd : QueryDict) : list string :=
  List.map snd (List.filter (fun kv => String.eqb (fst kv) key) qd).

(** [qd.get(key)]: the last value submitted for [key]. *)
Definition qd_get (key : string) (qd : QueryDict) : option string :=
  last (qd_getlist key qd).

Record Request := {
  method : Method;
  session_staff_id : option Z;
  POST_data : QueryDict;
  GET_data : QueryDict;
  now : Z }.

(** Truth value of [request.session.get("staff_id")]. *)
Definition staff_id_truthy (request : Request) : bool :=
  match session_staff_id request with
  | Some pk => negb (pk =? 0)
  | None => false
  end.

Inductive Level := info | success | warning | error.

(** The flash messages of the views, with the values they interpolate. *)
Inductive Message :=
| PleaseEnterStaffCode
| StaffSessionLost
| InvalidSeatRange
| OrderStarted (table_number : Z) (seat_total : Z)
| NoOrderYet
| InvalidRange
| SeatsAlreadyExist (overlap_str : string)
| SeatsAddedRange (seat_total : Z) (my_start my_end : Z)
| SeatsAddedNoRange (seat_total : Z)
| OrderClosed
| SeatAdded (auto_label : string)
| SeatRemoved (seat_label : string)
| SelectionUpdated (item : string) (seat_label : string)
| SelectionRemoved.

Inductive Response :=
| RedirectStaffLogin
| RedirectTableDetail (table_id : Z) (query : string)
| RedirectStartOrder (table_id : Z)
| RedirectRoomTables (room_id : Z)
| JsonOk
| JsonError400
| HttpResponseNotAllowed.

Record Reply := {
  response : Response;
  flash : list (Level * Message) }.

Definition reply (r : Response) (l : Level) (m : Message) : M Reply :=
  ret {| response := r; flash := [(l, m)] |}.

(** ** [orders/decorators.py] *)

Definition staff_required (view_func : Request -> M Reply) : Request -> M Reply :=
  fun request =>
    if staff_id_truthy request then view_func request
    else reply RedirectStaffLogin warning PleaseEnterStaffCode.

(** [django.views.decorators.http.require_POST] *)
Definition require_POST (view_func : Request -> M Reply) : Request -> M Reply :=
  fun request =>
    match method request with
    | POST => view_func request
    | GET => ret {| response := HttpResponseNotAllowed; flash := [] |}
    end.

(** ** [orders/forms.py]: [StartOrderForm] *)

Module StartOrderForm.

Fixpoint all_space (s : string) : bool :=
  match s with
  | EmptyString => true
  | String c s' => Py.is_space c && all_space s'
  end.

(** What may follow the decimal point that [IntegerField.re_decimal],
    [\.0*\s*$], matches: zeros, then white space, to the end. *)
Fixpoint decimal_tail (s : string) : bool :=
  match s with
  | EmptyString => true
  | String c s' =>
      if Ascii.eqb c "0" then decimal_tail s'
      else Py.is_space c && all_space s'
  end.

(** [re_decimal.sub("", s)]: the text without its trailing decimal point
    and zeros. *)
Fixpoint re_decimal_sub (s : string) : string :=
  match s with
  | EmptyString => EmptyString
  | String c s' =>
      if Ascii.eqb c "." && decimal_tail s' then EmptyString
      else String c (re_decimal_sub s')
  end.

(** [IntegerField(min_value=, required=False).clean(raw)]: [None] is a
    field error, [Some None] an empty field. *)
Definition IntegerField_clean (min_value : Z) (raw : option string)
    : option (option Z) :=
  match raw with
  | None => Some None
  | Some "" => Some None
  | Some s =>
      match Py.int (re_decimal_sub s) with
      | None => None
      | Some v => if v <? min_value then None else Some (Some v)
      end
  end.

Record cleaned_data := {
  seat_count : option Z;
  my_seat_start : option Z;
  my_seat_end : option Z }.

(** [clean(self)]: [None] is the [ValidationError]. *)
Definition clean (cleaned : cleaned_data) : option cleaned_data :=
  let start := my_seat_start cleaned in
  let end_ := my_seat_end cleaned in
  let count := seat_count cleaned in
  if xorb (bool_decide (start <> None)) (bool_decide (end_ <> None)) then None
  else
    match start, end_ with
    | Some s, Some e =>
        if e <? s then None
        else
          match count with
          | Some c => if c <? e then None else Some cleaned
          | None => Some cleaned
          end
    | _, _ => Some cleaned
    end.

(** [form = StartOrderForm(data)]; [form.cleaned_data] when
    [form.is_valid()], [None] otherwise. *)
Definition is_valid (data : QueryDict) : option cleaned_data :=
  match IntegerField_clean 1 (qd_get "seat_count" data),
        IntegerField_clean 1 (qd_get "my_seat_start" data),
        IntegerField_clean 1 (qd_get "my_seat_end" data) with
  | Some count, Some start, Some end_ =>
      clean {| seat_count := count; my_seat_start := start; my_seat_end := end_ |}
  | _, _, _ => None
  end.

End StartOrderForm.

(** ** [orders/views.py] *)

Module Views.
Import ORM.

(** [int(lbl) for lbl in labels if lbl.isdigit()] *)
Fixpoint numeric_labels (labels : list string) : M (list Z) :=
  match labels with
  | [] => ret []
  | lbl :: rest =>
      if Py.isdigit lbl then
        n <- or_raise ValueError (Py.int lbl) ;;
        ns <- numeric_labels rest ;;
        ret (n :: ns)
      else numeric_labels rest
  end.

(** [existing_numeric_labels(order)]: [views.py] neither defines nor
    imports this name, so that evaluating it raises [NameError]. *)
Definition existing_numeric_labels (order : Order) : M (gset Z) :=
  raise NameError.

(** [Seat(order=order, label=str(i), assigned_to=who) for i in range(a, b + 1)] *)
Definition seats_in_range (order : Order) (who : option Z) (a b : Z)
    : list NewSeat :=
  List.map (fun i => {| ns_order := order_pk order; ns_label := Py.str i;
                        ns_assigned_to := who |})
    (Py.range a (b + 1)).

Definition len {A} (l : list A) : Z := Z.of_nat (length l).

Definition start_order_func (table_id : Z) (request : Request) : M Reply :=
  table <- get_object_or_404 find_table table_id ;;
  if negb (staff_id_truthy request) then
    reply RedirectStaffLogin error StaffSessionLost
  else
  staff_member <- objects_get find_staff (default 0 (session_staff_id request)) ;;
  let my_start := qd_get "my_start" (POST_data request) in
  let my_end := qd_get "my_end" (POST_data request) in
  seat_count <- match qd_get "seat_count" (POST_data request) with
                | None => ret 12
                | Some raw => or_raise ValueError (Py.int raw)
                end ;;
  let parsed :=
    match my_start, my_end with
    | Some s, Some e =>
        match Py.int s, Py.int e with
        | Some a, Some b => Some (Some (a, b))
        | _, _ => None
        end
    | _, _ => Some None
    end in
  match parsed with
  | None => reply (RedirectTableDetail (table_pk table) "") error InvalidSeatRange
  | Some range =>
      seats_to_create <- atomic (
        order <- create_order table staff_member (now request) ;;
        let seats_to_create :=
          match range with
          | Some (a, b) => seats_in_range order None a b
          | None => seats_in_range order None 1 seat_count
          end in
        bulk_create seats_to_create ;;;
        ret (order, seats_to_create)) ;;
      create_log (staff_pk staff_member)
        ("started order #" +:+ Py.str (order_pk (fst seats_to_create)) +:+
         " on table " +:+ Py.str (table_number table) +:+
         " with " +:+ Py.str (len (snd seats_to_create)) +:+ " seats")
        (now request) ;;;
      reply (RedirectTableDetail (table_pk table) "") success
        (OrderStarted (table_number table) (len (snd seats_to_create)))
  end.

Definition start_order (request : Request) (table_id : Z) : M Reply :=
  staff_required (start_order_func table_id) request.

(** [s for s in seats_to_create if int(s.label) not in existing] *)
Fixpoint not_in_existing (existing : gset Z) (l : list NewSeat)
    : M (list NewSeat) :=
  match l with
  | [] => ret []
  | s :: rest =>
      n <- or_raise ValueError (Py.int (ns_label s)) ;;
      kept <- not_in_existing existing rest ;;
      ret (if decide (n ∈ existing) then kept else s :: kept)
  end.

Definition range_query (my_start my_end : Z) : string :=
  "?my_start=" +:+ Py.str my_start +:+ "&my_end=" +:+ Py.str my_end.

Definition join_order_func (table_id : Z) (request : Request) : M Reply :=
  table <- get_object_or_404 find_table table_id ;;
  db <- get_db ;;
  match first_open_order table db with
  | None => reply (RedirectStartOrder (table_pk table)) info NoOrderYet
  | Some order =>
  match StartOrderForm.is_valid (POST_data request) with
  | None => reply (RedirectTableDetail (table_pk table) "") error InvalidRange
  | Some cleaned =>
  let my_start := StartOrderForm.my_seat_start cleaned in
  let my_end := StartOrderForm.my_seat_end cleaned in
  let seat_count :=
    match StartOrderForm.seat_count cleaned with
    | Some c => if c =? 0 then 12 else c
    | None => 12
    end in
  staff_member <-
    (if staff_id_truthy request then
       m <- objects_get find_staff (default 0 (session_staff_id request)) ;;
       ret (Some (staff_pk m))
     else ret None) ;;
  match my_start, my_end with
  | Some a, Some b =>
      occupied <- existing_numeric_labels order ;;
      let requested : gset Z := list_to_set (Py.range a (b + 1)) in
      let overlap := occupied ∩ requested in
      if negb (bool_decide (overlap = ∅)) then
        let overlap_str :=
          Py.join ", " (List.map Py.str (merge_sort Z.le (elements overlap))) in
        reply (RedirectTableDetail (table_pk table) (range_query a b))
          error (SeatsAlreadyExist overlap_str)
      else
        let seats_to_create := seats_in_range order staff_member a b in
        bulk_create seats_to_create ;;;
        reply (RedirectTableDetail (table_pk table) (range_query a b))
          success (SeatsAddedRange (len seats_to_create) a b)
  | _, _ =>
      let seats_to_create := seats_in_range order staff_member 1 seat_count in
      existing <- existing_numeric_labels order ;;
      seats_to_create <- not_in_existing existing seats_to_create ;;
      bulk_create seats_to_create ;;;
      reply (RedirectTableDetail (table_pk table) "")
        success (SeatsAddedNoRange (len seats_to_create))
  end
  end
  end.

Definition join_order (request : Request) (table_id : Z) : M Reply :=
  require_POST (join_order_func table_id) request.

(** [order.table] and [seat.order]: following a foreign key. *)
Definition table_of (order : Order) : M Table :=
  objects_get find_table (order_table order).
Definition order_of (seat : Seat) : M Order :=
  objects_get find_order (seat_order seat).
Definition seat_of (sel : SeatSelection) : M Seat :=
  objects_get find_seat (sel_seat sel).

Definition close_order_func (order_id : Z) (request : Request) : M Reply :=
  order <- get_object_or_404 find_order order_id ;;
  (if staff_id_truthy request then
     table <- table_of order ;;
     create_log (default 0 (session_staff_id request))
       ("closed order #" +:+ Py.str (order_pk order) +:+
        " on table " +:+ Py.str (table_number table))
       (now request)
   else ret tt) ;;;
  table <- table_of order ;;
  let room_id := table_room table in
  delete_order order ;;;
  reply (RedirectRoomTables room_id) info OrderClosed.

Definition close_order (request : Request) (order_id : Z) : M Reply :=
  require_POST (close_order_func order_id) request.

(** [max(numeric_labels, default=0)] *)
Definition max_default0 (l : list Z) : Z :=
  match l with
  | [] => 0
  | x :: rest => fold_left Z.max rest x
  end.

Definition add_seat_func (order_id : Z) (request : Request) : M Reply :=
  order <- get_object_or_404 find_order order_id ;;
  db <- get_db ;;
  let existing_labels := List.map label (order_seats order db) in
  numeric_labels <- numeric_labels existing_labels ;;
  let next_number := max_default0 numeric_labels + 1 in
  let auto_label := Py.str next_number in
  new_seat <- create_seat {| ns_order := order_pk order; ns_label := auto_label;
                             ns_assigned_to := None |} ;;
  table <- table_of order ;;
  reply (RedirectTableDetail (table_pk table)
           ("?new_seat=" +:+ Py.str (seat_pk new_seat)))
    success (SeatAdded auto_label).

Definition add_seat (request : Request) (order_id : Z) : M Reply :=
  require_POST (add_seat_func order_id) request.

Definition remove_seat_func (seat_id : Z) (request : Request) : M Reply :=
  seat <- get_object_or_404 find_seat seat_id ;;
  order <- order_of seat ;;
  table <- table_of order ;;
  let table_id := table_pk table in
  delete_seat seat ;;;
  reply (RedirectTableDetail table_id "") info (SeatRemoved (label seat)).

Definition remove_seat (request : Request) (seat_id : Z) : M Reply :=
  require_POST (remove_seat_func seat_id) request.

Definition add_selection_func (request : Request) : M Reply :=
  let seat_id := qd_get "seat_id" (POST_data request) in
  let item_id := qd_get "item_id" (POST_data request) in
  let notes_ := Py.strip (default "" (qd_get "notes" (POST_data request))) in
  let modifier_ids := qd_getlist "modifier_ids" (POST_data request) in
  let temperature_ids := qd_getlist "temperature_ids" (POST_data request) in
  seat <- get_object_or_404_raw find_seat seat_id ;;
  item <- get_object_or_404_raw find_item item_id ;;
  got <- get_or_create_selection seat item notes_ (now request) ;;
  let selection := fst got in
  let created := snd got in
  (if negb created && Py.truthy notes_ then
     save_selection
       {| sel_pk := sel_pk selection; sel_seat := sel_seat selection;
          sel_item := sel_item selection;
          notes := Py.strip (notes selection +:+ "
" +:+ notes_);
          modifiers := modifiers selection;
          temperatures := temperatures selection;
          created_at := created_at selection |}
   else ret tt) ;;;
  (match modifier_ids with
   | [] => ret tt
   | _ =>
       db <- get_db ;;
       mods <- filter_pk_in (modifier_pks db) modifier_ids ;;
       modifiers_add selection mods
   end) ;;;
  (match temperature_ids with
   | [] => ret tt
   | _ =>
       db <- get_db ;;
       temps <- filter_pk_in (temperature_pks db) temperature_ids ;;
       temperatures_add selection temps
   end) ;;;
  order <- order_of seat ;;
  table <- table_of order ;;
  reply (RedirectTableDetail (table_pk table)
           ("?active_seat=" +:+ Py.str (seat_pk seat)))
    success (SelectionUpdated (item_name item) (label seat)).

Definition add_selection (request : Request) : M Reply :=
  require_POST add_selection_func request.

Definition remove_selection_func (selection_id : Z) (request : Request)
    : M Reply :=
  selection <- get_object_or_404 find_selection selection_id ;;
  seat <- seat_of selection ;;
  order <- order_of seat ;;
  table <- table_of order ;;
  let table_id := table_pk table in
  delete_selection selection ;;;
  reply (RedirectTableDetail table_id "") info SelectionRemoved.

Definition remove_selection (request : Request) (selection_id : Z) : M Reply :=
  require_POST (remove_selection_func selection_id) request.

Definition move_selection_func (request : Request) : M Reply :=
  let sel_id := qd_get "selection_id" (POST_data request) in
  let target_seat_id := qd_get "target_seat_id" (POST_data request) in
  if negb (Py.truthy (default "" sel_id)) ||
     negb (Py.truthy (default "" target_seat_id)) then
    ret {| response := JsonError400; flash := [] |}
  else
  selection <- get_object_or_404_raw find_selection sel_id ;;
  target_seat <- get_object_or_404_raw find_seat target_seat_id ;;
  let selection :=
    {| sel_pk := sel_pk selection; sel_seat := seat_pk target_seat;
       sel_item := sel_item selection; notes := notes selection;
       modifiers := modifiers selection;
       temperatures := temperatures selection;
       created_at := created_at selection |} in
  save_selection selection ;;;
  (if staff_id_truthy request then
     item <- objects_get find_item (sel_item selection) ;;
     order <- order_of target_seat ;;
     table <- table_of order ;;
     create_log (default 0 (session_staff_id request))
       ("moved selection #" +:+ Py.str (sel_pk selection) +:+
        " (item " +:+ item_name item +:+ ") to seat #" +:+ label target_seat +:+
        " on table " +:+ Py.str (table_number table))
       (now request)
   else ret tt) ;;;
  ret {| response := JsonOk; flash := [] |}.

Definition move_selection (request : Request) : M Reply :=
  require_POST move_selection_func request.

End Views.

(** ** [_build_table_context]: the seats shown for a table *)

Module TableContext.
Import ORM.

(** [list.sort(key=...)] is a stable sort: insertion from the right, an
    element going before the first one whose key is not smaller. *)
Section StableSort.
Context {A : Type} (le : A -> A -> bool).

Fixpoint insert_sorted (x : A) (l : list A) : list A :=
  match l with
  | [] => [x]
  | y :: l' => if le x y then x :: y :: l' else y :: insert_sorted x l'
  end.

Definition stable_sort (l : list A) : list A :=
  fold_right insert_sorted [] l.

End StableSort.

(** [Seat.Meta.ordering = ["order", "label"]]: the rows of one order come
    back by label, compared character by character. *)
Definition by_label (s1 s2 : Seat) : bool := String.leb (label s1) (label s2).

(** [list(order.seats.prefetch_related(...))] *)
Definition all_seats (order : Order) (db : DB) : list Seat :=
  stable_sort by_label (order_seats order db).

(** The key [(0, int(seat.label))] or [(1, seat.label)].  On a string of
    ASCII digits [int] is defined; beyond plain text the source can raise
    [ValueError] here, which the statements exclude. *)
Inductive SortKey :=
| Numeric (n : Z)
| Text (s : string).

Definition _seat_sort_key (seat : Seat) : SortKey :=
  if Py.isdigit (label seat) then Numeric (default 0 (Py.int (label seat)))
  else Text (label seat).

(** Tuple comparison [k1 <= k2]. *)
Definition key_le (k1 k2 : SortKey) : bool :=
  match k1, k2 with
  | Numeric a, Numeric b => a <=? b
  | Numeric _, Text _ => true
  | Text _, Numeric _ => false
  | Text a, Text b => String.leb a b
  end.

(** The [my_start] / [my_end] pair after the sanity swap; [None] when the
    two query parameters are not both digit strings. *)
Definition query_range (request : Request) : option (Z * Z) :=
  match qd_get "my_start" (GET_data request), qd_get "my_end" (GET_data request) with
  | Some s, Some e =>
      if Py.truthy s && Py.truthy e && Py.isdigit s && Py.isdigit e then
        let my_start := default 0 (Py.int s) in
        let my_end := default 0 (Py.int e) in
        if my_end <? my_start then Some (my_end, my_start)
        else Some (my_start, my_end)
      else None
  | _, _ => None
  end.

(** The [seats] entry of the context. *)
Definition visible_seats (request : Request) (order : option Order) (db : DB)
    : list Seat :=
  match order with
  | Some order =>
      let all_seats := all_seats order db in
      let visible :=
        match query_range request with
        | Some (my_start, my_end) =>
            List.filter (fun s =>
              Py.isdigit (label s) &&
              (let n := default 0 (Py.int (label s)) in
               (my_start <=? n) && (n <=? my_end))) all_seats
        | None => all_seats
        end in
      stable_sort (fun s1 s2 => key_le (_seat_sort_key s1) (_seat_sort_key s2))
        visible
  | None => []
  end.

(** [int(v) if v and v.isdigit() else None] for the query parameter [key]. *)
Definition seat_id_param (key : string) (request : Request) : option Z :=
  match qd_get key (GET_data request) with
  | Some v =>
      if Py.truthy v && Py.isdigit v then Some (default 0 (Py.int v)) else None
  | None => None
  end.

Record table_context := {
  ctx_order : option Order;
  ctx_seats : list Seat;
  ctx_new_seat_id : option Z;
  ctx_active_seat_id : option Z;
  ctx_my_start : option Z;
  ctx_my_end : option Z }.

Definition _build_table_context (request : Request) (table : Table) (db : DB)
    : table_context :=
  let order := first_open_order table db in
  {| ctx_order := order;
     ctx_seats := visible_seats request order db;
     ctx_new_seat_id := seat_id_param "new_seat" request;
     ctx_active_seat_id := seat_id_param "active_seat" request;
     ctx_my_start := fst <$> query_range request;
     ctx_my_end := snd <$> query_range request |}.

End TableContext.


(** ** Vocabulary of the statements *)

Module Spec.
Import ORM.

(** The numeric values of the digit labels among [labels]. *)
Definition numeric_of (labels : list string) : list Z :=
  omap (fun l => if Py.isdigit l then Py.int l else None) labels.

(** The numeric seat labels of an order. *)
Definition numeric_seat_labels (order : Order) (db : DB) : list Z :=
  numeric_of (List.map label (order_seats order db)).

(** The rows that inserting [objs] one after the other adds to the seat
    table, the first of them under the key [pk]. *)
Fixpoint new_rows (pk : Z) (objs : list NewSeat) : list Seat :=
  match objs with
  | [] => []
  | s :: rest =>
      {| seat_pk := pk; seat_order := ns_order s; label := ns_label s;
         assigned_to := ns_assigned_to s |} :: new_rows (pk + 1) rest
  end.

(** The seats labelled [str(a)] .. [str(b)] of [order], assigned to [who],
    keyed from [pk] on. *)
Definition range_rows (pk : Z) (order : Z) (who : option Z) (a b : Z)
    : list Seat :=
  List.map (fun i => {| seat_pk := pk + (i - a); seat_order := order;
                        label := Py.str i; assigned_to := who |})
    (Py.range a (b + 1)).

(** [(order, label)] is unique among the seats. *)
Definition labels_unique (db : DB) : Prop :=
  NoDup (List.map (fun s => (seat_order s, label s)) (seats db)).

(** Every seat belongs to an order whose key has been handed out. *)
Definition seat_orders_known (db : DB) : bool :=
  forallb (fun s => seat_order s <? next_order_pk db) (seats db).

(** The store after a computation, and its outcome. *)
Definition store_after {A} (m : M A) (db : DB) : DB := fst (m db).
Definition outcome {A} (m : M A) (db : DB) : Exn + A := snd (m db).

(** [m] keeps the property [P] of the store. *)
Definition preserves {A} (P : DB -> Prop) (m : M A) : Prop :=
  forall db, P db -> P (store_after m db).

(** A string without white space. *)
Fixpoint no_space (s : string) : bool :=
  match s with
  | EmptyString => true
  | String c s' => negb (Py.is_space c) && no_space s'
  end.

(** A computation that only reads. *)
Definition pure {A} (m : M A) : Prop := forall db, fst (m db) = db.

(** A property that does not look at the audit log. *)
Definition log_blind (P : DB -> Prop) : Prop :=
  forall db f, P db -> P (set_staff_log f db).

(** A property of the order, seat and selection tables. *)
Definition data_of (db : DB) : list Order * list Seat * list SeatSelection :=
  (orders db, seats db, selections db).

(** The selection with its owning seat set to [target]. *)
Definition moved_to (target : Z) (row : SeatSelection) : SeatSelection :=
  {| sel_pk := sel_pk row; sel_seat := target; sel_item := sel_item row;
     notes := notes row; modifiers := modifiers row;
     temperatures := temperatures row; created_at := created_at row |}.

(** The store with the rows of [objs] appended to the seat table. *)
Definition with_new_seats (objs : list NewSeat) (db : DB) : DB :=
  {| strict_varchar := strict_varchar db; tables := tables db;
     staff := staff db; menu_items := menu_items db;
     modifier_pks := modifier_pks db; temperature_pks := temperature_pks db;
     orders := orders db;
     seats := seats db ++ new_rows (next_seat_pk db) objs;
     selections := selections db; staff_log := staff_log db;
     next_order_pk := next_order_pk db;
     next_seat_pk := next_seat_pk db + Views.len objs;
     next_selection_pk := next_selection_pk db |}.

Definition key_of (s : NewSeat) : Z * string := (ns_order s, ns_label s).

(** The request carries the seat count [n] (12 when it carries none). *)
Definition seat_count_posted (request : Request) (n : Z) : Prop :=
  match qd_get "seat_count" (POST_data request) with
  | None => n = 12
  | Some raw => Py.int raw = Some n
  end.

(** The seats asked of [start_order]: the explicit range [lo..hi] when both
    ends are posted, and [1..n] otherwise. *)
Definition start_range (request : Request) (n lo hi : Z) : Prop :=
  match qd_get "my_start" (POST_data request),
        qd_get "my_end" (POST_data request) with
  | Some s, Some e => Py.int s = Some lo /\ Py.int e = Some hi
  | _, _ => lo = 1 /\ hi = n
  end.

(** The order row that [start_order] inserts. *)
Definition opened_order (request : Request) (table : Table)
    (member : StaffMember) (db : DB) : Order :=
  {| order_pk := next_order_pk db; order_table := table_pk table;
     order_party := table_party table;
     opened_by_staff := Some (staff_pk member);
     opened_at := now request; printed := false |}.

(** The transaction of [start_order] and what follows it. *)
Definition start_block (request : Request) (table : Table)
    (member : StaffMember) (lo hi : Z) : M (Order * list NewSeat) :=
  atomic (
    order <- create_order table member (now request) ;;
    bulk_create (Views.seats_in_range order None lo hi) ;;;
    ret (order, Views.seats_in_range order None lo hi)).

Definition start_tail (request : Request) (table : Table)
    (member : StaffMember) (created : Order * list NewSeat) : M Reply :=
  create_log (staff_pk member)
    ("started order #" +:+ Py.str (order_pk (fst created)) +:+
     " on table " +:+ Py.str (table_number table) +:+
     " with " +:+ Py.str (Views.len (snd created)) +:+ " seats")
    (now request) ;;;
  reply (RedirectTableDetail (table_pk table) "") success
    (OrderStarted (table_number table) (Views.len (snd created))).

(** The posted form is valid and carries the range [a..b]. *)
Definition range_posted (request : Request) (a b : Z) : Prop :=
  exists cleaned,
    StartOrderForm.is_valid (POST_data request) = Some cleaned /\
    StartOrderForm.my_seat_start cleaned = Some a /\
    StartOrderForm.my_seat_end cleaned = Some b.

(** The staff member the new seats are assigned to: the one of the
    session, or nobody when the session names none. *)
Definition acting_staff (request : Request) (db : DB) (who : option Z) : Prop :=
  if staff_id_truthy request then
    exists m, find_staff (default 0 (session_staff_id request)) db = Some m /\
              who = Some (staff_pk m)
  else who = None.

(** The requested numbers that are the numeric label of a seat of the
    order, in increasing order. *)
Definition colliding (order : Order) (db : DB) (a b : Z) : list Z :=
  List.filter (fun i => bool_decide (i ∈ numeric_seat_labels order db))
    (Py.range a (b + 1)).

(** The string starts with a character that is no white space. *)
Definition starts_plain (s : string) : Prop :=
  match s with
  | String c _ => Py.is_space c = false
  | EmptyString => False
  end.

(** The posted ids [raws] are the numbers [ids]. *)
Definition parsed (raws : list string) (ids : list Z) : Prop :=
  Forall2 (fun raw n => Py.int raw = Some n) raws ids.

(** Every selection key has been handed out by the counter. *)
Definition selection_pks_known (db : DB) : bool :=
  forallb (fun s => sel_pk s <? next_selection_pk db) (selections db).

(** The selections of [item] on [seat]. *)
Definition matching (seat : Seat) (item : MenuItem) (db : DB)
    : list SeatSelection :=
  List.filter (fun s => (sel_seat s =? seat_pk seat) && (sel_item s =? item_pk item))
    (selections db).

(** The row [pk] with new notes and with [mods] and [temps] added to its
    sets; every other row as it is. *)
Definition updated (pk : Z) (notes' : string) (mods temps : gset Z)
    (row : SeatSelection) : SeatSelection :=
  if sel_pk row =? pk then
    {| sel_pk := sel_pk row; sel_seat := sel_seat row; sel_item := sel_item row;
       notes := notes'; modifiers := modifiers row ∪ mods;
       temperatures := temperatures row ∪ temps;
       created_at := created_at row |}
  else row.

(** The notes of an existing selection after [add_selection] with the
    stripped notes [new_]. *)
Definition appended (old new_ : string) : string :=
  if Py.truthy new_ then Py.strip (old +:+ "
" +:+ new_) else old.

Definition add_mods (pk : Z) (mods : gset Z) (row : SeatSelection) :=
  if sel_pk row =? pk then
    {| sel_pk := sel_pk row; sel_seat := sel_seat row; sel_item := sel_item row;
       notes := notes row; modifiers := modifiers row ∪ mods;
       temperatures := temperatures row; created_at := created_at row |}
  else row.

Definition add_temps (pk : Z) (temps : gset Z) (row : SeatSelection) :=
  if sel_pk row =? pk then
    {| sel_pk := sel_pk row; sel_seat := sel_seat row; sel_item := sel_item row;
       notes := notes row; modifiers := modifiers row;
       temperatures := temperatures row ∪ temps; created_at := created_at row |}
  else row.

End Spec.

(** ** A small restaurant *)

Module Sample.

Definition table7 : Table :=
  {| table_pk := 1; table_number := 7; table_room := 2; table_party := None |}.
Definition alice : StaffMember := {| staff_pk := 1; staff_name := "Alice" |}.
Definition soup : MenuItem := {| item_pk := 1; item_name := "Soup" |}.

(** No order yet. *)
Definition idle : DB :=
  {| strict_varchar := true; tables := [table7]; staff := [alice];
     menu_items := [soup]; modifier_pks := {[1; 2; 3]};
     temperature_pks := {[1; 2]};
     orders := []; seats := []; selections := []; staff_log := [];
     next_order_pk := 1; next_seat_pk := 1; next_selection_pk := 1 |}.

Definition order1 : Order :=
  {| order_pk := 1; order_table := 1; order_party := None;
     opened_by_staff := Some 1; opened_at := 100; printed := false |}.

Definition seat (pk : Z) (l : string) : Seat :=
  {| seat_pk := pk; seat_order := 1; label := l; assigned_to := None |}.

(** Table 7 has an open order with the seats [labels]. *)
Definition seated (labels : list string) : DB :=
  {| strict_varchar := true; tables := [table7]; staff := [alice];
     menu_items := [soup]; modifier_pks := {[1; 2; 3]};
     temperature_pks := {[1; 2]};
     orders := [order1];
     seats := List.map (fun il => seat (Z.of_nat (fst il) + 1) (snd il))
                (imap (fun i l => (i, l)) labels);
     selections := []; staff_log := [];
     next_order_pk := 2;
     next_seat_pk := Z.of_nat (length labels) + 1;
     next_selection_pk := 1 |}.

(** The same with one selection of soup on the first seat. *)
Definition with_soup (notes_ : string) (mods : gset Z) : DB :=
  set_selections (fun _ =>
    [ {| sel_pk := 1; sel_seat := 1; sel_item := 1; notes := notes_;
         modifiers := mods; temperatures := ∅; created_at := 101 |} ])
    (bump_selection_pk (seated ["1"; "2"])).

(** A POST request, by Alice or by nobody. *)
Definition post (staff_id : option Z) (data : QueryDict) : Request :=
  {| method := POST; session_staff_id := staff_id; POST_data := data;
     GET_data := []; now := 200 |}.

(** A GET request with a query string. *)
Definition get (query : QueryDict) : Request :=
  {| method := GET; session_staff_id := Some 1; POST_data := [];
     GET_data := query; now := 200 |}.

End Sample.

(** ** Further vocabulary *)

Module More.
Import ORM.

(** The range of a cleaned form is coherent: both ends or none, the first
    not after the last, the last within the seat count when one is given. *)
Definition coherent (cleaned : StartOrderForm.cleaned_data) : Prop :=
  match StartOrderForm.my_seat_start cleaned,
        StartOrderForm.my_seat_end cleaned with
  | None, None => True
  | Some s, Some e =>
      s <= e /\
      match StartOrderForm.seat_count cleaned with
      | Some c => e <= c
      | None => True
      end
  | _, _ => False
  end.

(** What a field of the form makes of the posted text: nothing of a
    missing or empty text, and the number [n] of a text that, without a
    trailing decimal point and zeros, is the literal of an integer
    [n >= 1]. *)
Definition field_reads (raw : option string) (v : option Z) : Prop :=
  match raw with
  | None => v = None
  | Some EmptyString => v = None
  | Some s =>
      exists n, Py.int (StartOrderForm.re_decimal_sub s) = Some n /\
                1 <= n /\ v = Some n
  end.

(** The reply of a view that flashes one message. *)
Definition flashed (r : Response) (l : Level) (m : Message) : Reply :=
  {| response := r; flash := [(l, m)] |}.

(** The reply without a message. *)
Definition bare (r : Response) : Reply := {| response := r; flash := [] |}.

End More.

Module Audit.
Import ORM.

(** The audit entry [act] of the request can be written: nobody is logged
    in and none is written, or the staff member of the session exists and
    the text fits its column. *)
Definition can_log (request : Request) (db : DB) (act : string) : Prop :=
  staff_id_truthy request = true ->
  (exists m, find_staff (default 0 (session_staff_id request)) db = Some m) /\
  varchar_ok db 120 act = true.

(** The audit text of [close_order]. *)
Definition closed_text (order : Order) (table : Table) : string :=
  "closed order #" +:+ Py.str (order_pk order) +:+
  " on table " +:+ Py.str (table_number table).

(** The audit log after the request has written [act], if it writes. *)
Definition logged (request : Request) (act : string) (db : DB) : DB :=
  if staff_id_truthy request then
    set_staff_log
      (fun l => l ++ [ {| log_staff := default 0 (session_staff_id request);
                          action := act; timestamp := now request |} ]) db
  else db.

End Audit.

Module Display.
Import TableContext.

(** [s1] is shown before or beside [s2]: the order of the sort keys. *)
Definition seat_before (s1 s2 : Seat) : Prop :=
  key_le (_seat_sort_key s1) (_seat_sort_key s2) = true.

(** The same, read on the labels: numeric labels by value and before every
    other label, the other labels character by character. *)
Definition label_before (l1 l2 : string) : Prop :=
  match Py.isdigit l1, Py.isdigit l2 with
  | true, true =>
      exists n1 n2, Py.int l1 = Some n1 /\ Py.int l2 = Some n2 /\ n1 <= n2
  | true, false => True
  | false, true => False
  | false, false => String.leb l1 l2 = true
  end.

(** The query string names no range: one end is missing or is no digit
    string. *)
Definition no_range (request : Request) : Prop :=
  match qd_get "my_start" (GET_data request),
        qd_get "my_end" (GET_data request) with
  | Some s, Some e => Py.isdigit s = false \/ Py.isdigit e = false
  | _, _ => True
  end.

End Display.

Module Notes.

(** The row [pk] with the notes [notes']; every other row as it is. *)
Definition with_notes (pk : Z) (notes' : string) (row : SeatSelection)
    : SeatSelection :=
  if sel_pk row =? pk then
    {| sel_pk := sel_pk row; sel_seat := sel_seat row; sel_item := sel_item row;
       notes := notes'; modifiers := modifiers row;
       temperatures := temperatures row; created_at := created_at row |}
  else row.

End Notes.

Module Frame.

(** The reference data and the storage setting: what the workflow reads
    and has no business writing. *)
Definition static_of (db : DB)
    : bool * list Table * list StaffMember * list MenuItem * gset Z * gset Z :=
  (strict_varchar db, tables db, staff db, menu_items db,
   modifier_pks db, temperature_pks db).

(** The reference data of the store are [v]. *)
Definition is_static
    (v : bool * list Table * list StaffMember * list MenuItem * gset Z * gset Z)
    (db : DB) : Prop := static_of db = v.

(** A view leaves the reference data alone, whatever the request and the
    store, and whether it returns or raises. *)
Definition keeps_static (view : Request -> M Reply) : Prop :=
  forall request db,
    static_of (Spec.store_after (view request) db) = static_of db.

End Frame.

Module Known.

(** Every seat key has been handed out by the counter. *)
Definition seat_pks_known (db : DB) : bool :=
  forallb (fun s => seat_pk s <? next_seat_pk db) (seats db).

(** Every selection sits on a seat whose key has been handed out. *)
Definition selection_seats_known (db : DB) : bool :=
  forallb (fun s => sel_seat s <? next_seat_pk db) (selections db).

(** Every order key has been handed out by the counter. *)
Definition order_pks_known (db : DB) : bool :=
  forallb (fun o => order_pk o <? next_order_pk db) (orders db).

(** The label [add_seat] gives on [order]. *)
Definition auto_label (order : Order) (db : DB) : string :=
  Py.str (Views.max_default0 (Spec.numeric_seat_labels order db) + 1).

End Known.

Module Counters.

(** The tables of the workflow and the key counters of orders and seats:
    everything but the audit log and the reference data. *)
Definition working_of (db : DB)
    : list Order * list Seat * list SeatSelection * Z * Z :=
  (orders db, seats db, selections db, next_order_pk db, next_seat_pk db).

End Counters.

Module Open.

(** [o] is an open order of the table. *)
Definition open_on (table : Table) (o : Order) : Prop :=
  order_table o = table_pk table /\ printed o = false.

End Open.

(** ** The admin action on orders ([orders/admin.py]) *)

Module OrderAdmin.
Import ORM.

(** The queryset handed to an admin action: the orders it selects. *)
Definition QuerySet := Order -> bool.

Definition close (o : Order) : Order :=
  {| order_pk := order_pk o; order_table := order_table o;
     order_party := order_party o; opened_by_staff := opened_by_staff o;
     opened_at := opened_at o; printed := true |}.

(** [queryset.update(printed=True)]: the number of rows matched. *)
Definition update_printed (queryset : QuerySet) : M Z :=
  fun db =>
    (set_orders (List.map (fun o => if queryset o then close o else o)) db,
     inr (Views.len (List.filter queryset (orders db)))).

(** [mark_as_closed]: the text handed to [message_user]. *)
Definition mark_as_closed (queryset : QuerySet) : M string :=
  updated <- update_printed queryset ;;
  ret (Py.str updated +:+ " order(s) marked as closed.").

End OrderAdmin.

(** ** The seat formset ([orders/forms.py]) *)

Module BaseSeatFormSet.

(** What [clean] reads of a form: [_should_delete_form(form)] and
    [form.cleaned_data.get("label")]. *)
Record SeatForm := {
  should_delete : bool;
  cleaned_label : option string }.

Inductive ValidationError :=
| Inherited
| DuplicateSeatLabel (label : string).

(** The loop of [clean], from the labels seen so far. *)
Fixpoint clean_loop (can_delete : bool) (forms : list SeatForm)
    (labels : list string) : ValidationError + list string :=
  match forms with
  | [] => inr labels
  | form :: rest =>
      if can_delete && should_delete form then clean_loop can_delete rest labels
      else
        match cleaned_label form with
        | None => clean_loop can_delete rest labels
        | Some label =>
            if (label =? "")%string then clean_loop can_delete rest labels
            else if existsb (String.eqb label) labels
                 then inl (DuplicateSeatLabel label)
                 else clean_loop can_delete rest (labels ++ [label])
        end
  end.

(** [clean], given how [super().clean()] ended. *)
Definition clean (super_clean : ValidationError + unit) (can_delete : bool)
    (forms : list SeatForm) : ValidationError + unit :=
  match super_clean with
  | inl e => inl e
  | inr _ =>
      match clean_loop can_delete forms [] with
      | inl e => inl e
      | inr _ => inr tt
      end
  end.

(** The labels that count: those of the forms not marked for deletion,
    when given and not empty. *)
Definition kept_labels (can_delete : bool) (forms : list SeatForm)
    : list string :=
  flat_map (fun form =>
              if can_delete && should_delete form then []
              else match cleaned_label form with
                   | Some label => if (label =? "")%string then [] else [label]
                   | None => []
                   end) forms.

End BaseSeatFormSet.

(** ** The menu import of the admin ([orders/admin.py]) *)

Module MenuItemAdmin.

(** The rows of [Course] and of [MenuItem] as the import reads and writes
    them: [Course.name] and [MenuItem.name] are [unique=True]. *)
Record Course := {
  course_pk : Z;
  course_name : string;
  ordering : Z }.

Record MenuRow := {
  menu_pk : Z;
  menu_name : string;
  menu_course : Z }.

Record Catalogue := {
  strict : bool;
  courses : list Course;
  menu : list MenuRow;
  next_course_pk : Z;
  next_menu_pk : Z }.

Definition C (A : Type) : Type := Catalogue -> Catalogue * (Exn + A).

Definition bindC {A B} (m : C A) (k : A -> C B) : C B :=
  fun cat =>
    match m cat with
    | (cat', inl e) => (cat', inl e)
    | (cat', inr a) => k a cat'
    end.

Definition varchar_ok (cat : Catalogue) (max_length : nat) (s : string) : bool :=
  negb (strict cat) || (String.length s <=? max_length)%nat.

(** [Course.objects.get_or_create(name=course_name)], without the flag. *)
Definition get_or_create_course (name : string) : C Course :=
  fun cat =>
    match List.filter (fun c => (course_name c =? name)%string) (courses cat) with
    | [c] => (cat, inr c)
    | _ :: _ :: _ => (cat, inl MultipleObjectsReturned)
    | [] =>
        if varchar_ok cat 50 name then
          let c := {| course_pk := next_course_pk cat; course_name := name;
                      ordering := 0 |} in
          ({| strict := strict cat; courses := courses cat ++ [c];
              menu := menu cat; next_course_pk := next_course_pk cat + 1;
              next_menu_pk := next_menu_pk cat |}, inr c)
        else (cat, inl DataError)
    end.

Definition with_course (course_obj : Course) (obj : MenuRow) : MenuRow :=
  {| menu_pk := menu_pk obj; menu_name := menu_name obj;
     menu_course := course_pk course_obj |}.

(** [MenuItem.objects.update_or_create(name=name,
    defaults={"course": course_obj})]: the row found is saved under its
    primary key. *)
Definition update_or_create (name : string) (course_obj : Course)
    : C (MenuRow * bool) :=
  fun cat =>
    match List.filter (fun r => (menu_name r =? name)%string) (menu cat) with
    | [obj] =>
        let obj' := with_course course_obj obj in
        ({| strict := strict cat; courses := courses cat;
            menu := List.map (fun r => if menu_pk r =? menu_pk obj then obj'
                                       else r) (menu cat);
            next_course_pk := next_course_pk cat;
            next_menu_pk := next_menu_pk cat |}, inr (obj', false))
    | _ :: _ :: _ => (cat, inl MultipleObjectsReturned)
    | [] =>
        if varchar_ok cat 100 name then
          let obj := {| menu_pk := next_menu_pk cat; menu_name := name;
                        menu_course := course_pk course_obj |} in
          ({| strict := strict cat; courses := courses cat;
              menu := menu cat ++ [obj];
              next_course_pk := next_course_pk cat;
              next_menu_pk := next_menu_pk cat + 1 |}, inr (obj, true))
        else (cat, inl DataError)
    end.

(** The body of the loop for a row that is not skipped. *)
Definition import_item (name course_name : string) : C bool :=
  bindC (get_or_create_course course_name) (fun course_obj =>
  bindC (update_or_create name course_obj) (fun r =>
  fun cat => (cat, inr (snd r)))).

(** [for row in reader: ...] with the two counters; [reader] is the list of
    rows the CSV reader yields. *)
Fixpoint import_rows (reader : list (list string)) (created updated : Z)
    : C (Z * Z) :=
  match reader with
  | [] => fun cat => (cat, inr (created, updated))
  | row :: rest =>
      match row with
      | r0 :: r1 :: _ =>
          let name := Py.strip r0 in
          let course_name := Py.strip r1 in
          if (name =? "")%string || (course_name =? "")%string
          then import_rows rest created updated
          else
            bindC (import_item name course_name) (fun created_flag =>
              if created_flag : bool
              then import_rows rest (created + 1) updated
              else import_rows rest created (updated + 1))
      | _ => import_rows rest created updated
      end
  end.

Inductive Notice :=
| AttachCsvFile
| CsvProcessed (created updated : Z).

(** [import_csv]: [files] is [request.FILES.get("csv_file")] read, decoded
    and split into rows; the value is the message shown to the admin. *)
Definition import_csv (files : option (list (list string)))
    : C (Level * Notice) :=
  match files with
  | None => fun cat => (cat, inr (error, AttachCsvFile))
  | Some reader =>
      bindC (import_rows reader 0 0) (fun n =>
        fun cat => (cat, inr (success, CsvProcessed (fst n) (snd n))))
  end.

(** *** Vocabulary *)

(** The rows the loop does not skip, stripped: name and course name. *)
Definition usable (reader : list (list string)) : list (string * string) :=
  flat_map (fun row =>
    match row with
    | r0 :: r1 :: _ =>
        if (Py.strip r0 =? "")%string || (Py.strip r1 =? "")%string then []
        else [(Py.strip r0, Py.strip r1)]
    | _ => []
    end) reader.

(** Every cell of the file is plain text. *)
Definition plain_rows (reader : list (list string)) : bool :=
  forallb (forallb Py.plain) reader.

(** The uniqueness constraints of the two tables, and primary keys that
    are distinct and below the counter. *)
Definition consistent (cat : Catalogue) : Prop :=
  NoDup (List.map course_name (courses cat)) /\
  NoDup (List.map menu_name (menu cat)) /\
  NoDup (List.map menu_pk (menu cat)) /\
  Forall (fun r => menu_pk r < next_menu_pk cat) (menu cat).

(** What an item keeps for good: its primary key and its name. *)
Definition key (r : MenuRow) : Z * string := (menu_pk r, menu_name r).

(** Every name of the file fits its column, or the storage does not
    check. *)
Definition fits (cat : Catalogue) (reader : list (list string)) : Prop :=
  forall n c, In (n, c) (usable reader) ->
    varchar_ok cat 100 n = true /\ varchar_ok cat 50 c = true.

(** The course the file gives last for an item name. *)
Fixpoint last_course (name : string) (pairs : list (string * string))
    : option string :=
  match pairs with
  | [] => None
  | (n, c) :: rest =>
      match last_course name rest with
      | Some c' => Some c'
      | None => if (n =? name)%string then Some c else None
      end
  end.

Definition course_named (name : string) (cat : Catalogue) : option Course :=
  List.find (fun c => (course_name c =? name)%string) (courses cat).

Definition item_named (name : string) (cat : Catalogue) : option MenuRow :=
  List.find (fun r => (menu_name r =? name)%string) (menu cat).

End MenuItemAdmin.

(** ** The store after an import, computed without the lookups' errors *)

Module Imported.
Import MenuItemAdmin.

(** The course an imported row is filed under: the one of that name, or a
    new one. *)
Definition course_for (c : string) (cat : Catalogue) : Course :=
  match course_named c cat with
  | Some co => co
  | None => {| course_pk := next_course_pk cat; course_name := c; ordering := 0 |}
  end.

Definition retarget (n : string) (co : Course) (r : MenuRow) : MenuRow :=
  if (menu_name r =? n)%string then with_course co r else r.

(** Whether the store has no item of the name. *)
Definition is_new (n : string) (cat : Catalogue) : bool :=
  match item_named n cat with
  | Some _ => false
  | None => true
  end.

(** One usable row. *)
Definition step (n c : string) (cat : Catalogue) : Catalogue :=
  let co := course_for c cat in
  {| strict := strict cat;
     courses := match course_named c cat with
                | Some _ => courses cat
                | None => courses cat ++ [co]
                end;
     menu := match item_named n cat with
             | Some _ => List.map (retarget n co) (menu cat)
             | None => menu cat ++ [{| menu_pk := next_menu_pk cat;
                                       menu_name := n;
                                       menu_course := course_pk co |}]
             end;
     next_course_pk := match course_named c cat with
                       | Some _ => next_course_pk cat
                       | None => next_course_pk cat + 1
                       end;
     next_menu_pk := match item_named n cat with
                     | Some _ => next_menu_pk cat
                     | None => next_menu_pk cat + 1
                     end |}.

(** All usable rows, in order. *)
Definition after (pairs : list (string * string)) (cat : Catalogue)
    : Catalogue :=
  fold_left (fun cat p => step (fst p) (snd p) cat) pairs cat.

(** The loop of [import_csv] over the usable rows. *)
Fixpoint import_pairs (pairs : list (string * string)) (created updated : Z)
    : C (Z * Z) :=
  match pairs with
  | [] => fun cat => (cat, inr (created, updated))
  | (n, c) :: rest =>
      bindC (import_item n c) (fun created_flag =>
        if created_flag : bool
        then import_pairs rest (created + 1) updated
        else import_pairs rest created (updated + 1))
  end.

(** Every name of the rows fits its column. *)
Definition fit (cat : Catalogue) (pairs : list (string * string)) : Prop :=
  forall n c, In (n, c) pairs ->
    varchar_ok cat 100 n = true /\ varchar_ok cat 50 c = true.

(** Every row names a course and an item the store has. *)
Definition covered (cat : Catalogue) (pairs : list (string * string)) : Prop :=
  forall n c, In (n, c) pairs ->
    course_named c cat <> None /\ item_named n cat <> None.

(** Where the rows put an item. *)
Definition target (cat : Catalogue) (pairs : list (string * string))
    (r : MenuRow) : MenuRow :=
  match last_course (menu_name r) pairs with
  | Some c => match course_named c cat with
              | Some co => with_course co r
              | None => r
              end
  | None => r
  end.

End Imported.

Module SampleMenu.
Import MenuItemAdmin.

(** A catalogue with one course and one item, on a storage that checks
    lengths. *)
Definition carte : Catalogue :=
  {| strict := true;
     courses := [ {| course_pk := 1; course_name := "Starters"; ordering := 0 |} ];
     menu := [ {| menu_pk := 1; menu_name := "Soup"; menu_course := 1 |} ];
     next_course_pk := 2; next_menu_pk := 2 |}.

(** A file with a header line, a short line, a line without a name and
    two lines for the same item. *)
Definition reader : list (list string) :=
  [ ["name"; "course_name"];
    ["Soup "; " Mains"];
    ["Bread"];
    [" "; "Mains"];
    ["Cake"; "Dessert"; "extra"];
    ["Soup"; "Starters"] ].

End SampleMenu.

Module Text.

(** Every seat of [order] has a plain label. *)
Definition plain_labels (order : Order) (db : DB) : bool :=
  forallb (fun s => Py.plain (label s)) (ORM.order_seats order db).

(** Every value of a query dict is plain. *)
Definition plain_data (data : QueryDict) : bool :=
  forallb (fun kv => Py.plain (snd kv)) data.

(** A key that a 64-bit integer column can hold. *)
Definition in_int64 (n : Z) : bool :=
  (- 2 ^ 63 <=? n) && (n <? 2 ^ 63).

End Text.

(** * Properties *)

(** ** Sanity checks of the embedding *)

Example str_12 : Py.str 12 = "12". Proof. reflexivity. Qed.
Example str_neg : Py.str (-5) = "-5". Proof. reflexivity. Qed.
Example str_0 : Py.str 0 = "0". Proof. reflexivity. Qed.
Example int_007 : Py.int "007" = Some 7. Proof. reflexivity. Qed.
Example int_plus : Py.int "+5" = Some 5. Proof. reflexivity. Qed.
Example int_pm : Py.int "+-5" = None. Proof. reflexivity. Qed.
Example int_empty : Py.int "" = None. Proof. reflexivity. Qed.
Example int_minus : Py.int "-" = None. Proof. reflexivity. Qed.
Example int_abc : Py.int "abc" = None. Proof. reflexivity. Qed.
Example int_ws : Py.int " 42 " = Some 42. Proof. reflexivity. Qed.
Example strip_ex : Py.strip "  a b
 " = "a b". Proof. reflexivity. Qed.
Example range_ex : Py.range 3 7 = [3; 4; 5; 6]. Proof. reflexivity. Qed.
Example range_empty : Py.range 5 4 = []. Proof. reflexivity. Qed.
Example join_ex : Py.join ", " ["3"; "4"] = "3, 4". Proof. reflexivity. Qed.
Example seat_order_example :
  List.map label
    (TableContext.stable_sort
       (fun s1 s2 => TableContext.key_le (TableContext._seat_sort_key s1)
                                         (TableContext._seat_sort_key s2))
       (List.map (fun l => {| seat_pk := 0; seat_order := 1; label := l;
                              assigned_to := None |}) ["10"; "2"; "A"; "1"]))
  = ["1"; "2"; "10"; "A"].
Proof. reflexivity. Qed.
Example seated_labels :
  List.map label (seats (Sample.seated ["1"; "3"; "5"])) = ["1"; "3"; "5"].
Proof. reflexivity. Qed.


(** ** Facts about the built-ins *)

Module PyFacts.
Import Py Spec.

Lemma is_digit_not_space c : is_digit c = true -> is_space c = false.
Proof.
  unfold is_digit, is_space. cbv zeta.
  generalize (nat_of_ascii c). intros n H.
  apply andb_true_iff in H as [H1 H2].
  apply Nat.leb_le in H1. apply Nat.leb_le in H2.
  apply orb_false_iff. split; apply andb_false_iff.
  - right. apply Nat.leb_gt. lia.
  - right. apply Nat.leb_gt. lia.
Qed.

Lemma rstrip_no_space s : no_space s = true -> rstrip s = s.
Proof.
  induction s as [|c s IH]; [done|]. simpl.
  intros [Hc Hs]%andb_true_iff. rewrite IH by done.
  destruct s; [|done].
  apply negb_true_iff in Hc. by rewrite Hc.
Qed.

Lemma lstrip_no_space s : no_space s = true -> lstrip s = s.
Proof.
  destruct s as [|c s]; [done|]. simpl.
  intros [Hc _]%andb_true_iff. apply negb_true_iff in Hc. by rewrite Hc.
Qed.

Lemma strip_no_space s : no_space s = true -> strip s = s.
Proof.
  intros H. unfold strip. rewrite lstrip_no_space by done.
  by apply rstrip_no_space.
Qed.

Lemma all_digits_no_space s : all_digits s = true -> no_space s = true.
Proof.
  induction s as [|c s IH]; [done|]. simpl.
  intros [Hc Hs]%andb_true_iff.
  rewrite (is_digit_not_space c Hc). simpl. auto.
Qed.

Lemma all_digits_of_uint d : all_digits (NilEmpty.string_of_uint d) = true.
Proof. induction d; simpl; auto. Qed.

Lemma all_digits_of_uint0 d : all_digits (NilZero.string_of_uint d) = true.
Proof. destruct d; try done; apply (all_digits_of_uint (_ _)). Qed.

Lemma of_uint0_nonempty d : NilZero.string_of_uint d <> "".
Proof. destruct d; done. Qed.

Lemma isdigit_all_digits s : isdigit s = true -> all_digits s = true.
Proof. destruct s; done. Qed.

(** [str(n).isdigit()] for a natural number. *)
Lemma isdigit_str n : 0 <= n -> isdigit (str n) = true.
Proof.
  intros Hn. unfold str.
  destruct n as [|p|p]; [done| |lia].
  simpl. pose proof (of_uint0_nonempty (Pos.to_uint p)) as Hne.
  pose proof (all_digits_of_uint0 (Pos.to_uint p)) as Hd.
  unfold isdigit. destruct (NilZero.string_of_uint (Pos.to_uint p)); done.
Qed.

Lemma no_space_str z : no_space (str z) = true.
Proof.
  unfold str. destruct z as [|p|p]; [done| |]; simpl.
  - apply all_digits_no_space, all_digits_of_uint0.
  - apply all_digits_no_space, all_digits_of_uint0.
Qed.

Lemma is_blank_is_space c : is_blank c = true -> is_space c = true.
Proof.
  unfold is_blank, is_space. cbv zeta. generalize (nat_of_ascii c). intros n.
  rewrite !orb_true_iff, !andb_true_iff, !Nat.leb_le, Nat.eqb_eq. lia.
Qed.

Lemma drop_blanks_no_space s : no_space s = true -> drop_blanks s = s.
Proof.
  induction s as [|c s IH]; [done|]. simpl.
  intros [Hc Hs]%andb_true_iff. rewrite IH by done.
  destruct s; [|done].
  destruct (is_blank c) eqn:E; [|done].
  apply is_blank_is_space in E. by rewrite E in Hc.
Qed.

Lemma skip_blanks_no_space s : no_space s = true -> skip_blanks s = s.
Proof.
  destruct s as [|c s]; [done|]. simpl.
  intros [Hc _]%andb_true_iff.
  destruct (is_blank c) eqn:E; [|done].
  apply is_blank_is_space in E. by rewrite E in Hc.
Qed.

Lemma blanks_no_space s :
  no_space s = true -> drop_blanks (skip_blanks s) = s.
Proof.
  intros H. rewrite skip_blanks_no_space by done. by apply drop_blanks_no_space.
Qed.

Lemma is_digit_not_underscore c : is_digit c = true -> Ascii.eqb c "_" = false.
Proof. destruct c as [[] [] [] [] [] [] [] []]; done. Qed.

(** A string of digits has no underscore to remove. *)
Lemma ungroup_digits s : all_digits s = true -> forall b, ungroup b s = Some s.
Proof.
  induction s as [|c s IH]; [done|]. simpl.
  intros [Hc Hs]%andb_true_iff b.
  by rewrite (is_digit_not_underscore c Hc), (IH Hs).
Qed.

Lemma unsigned_digits s :
  all_digits s = true ->
  unsigned s = option_map Z.of_uint (NilZero.uint_of_string s).
Proof. intros H. unfold unsigned. by rewrite ungroup_digits. Qed.

Lemma unsigned_of_uint p :
  unsigned (NilZero.string_of_uint (Pos.to_uint p)) = Some (Z.pos p).
Proof.
  rewrite unsigned_digits by apply all_digits_of_uint0.
  rewrite NilZero.usu by apply DecimalPos.Unsigned.to_uint_nonnil.
  simpl. unfold Z.of_uint. by rewrite DecimalPos.Unsigned.of_to.
Qed.

(** The first character of a string of digits is no sign. *)
Lemma int_digits c s :
  is_digit c = true -> drop_blanks (skip_blanks (String c s)) = String c s ->
  int (String c s) = unsigned (String c s).
Proof.
  intros Hc Hs. unfold int. rewrite Hs.
  destruct c as [[] [] [] [] [] [] [] []]; done.
Qed.

(** [int(str(z)) == z] *)
Lemma int_str z : int (str z) = Some z.
Proof.
  destruct z as [|p|p]; [done| |].
  - unfold str. simpl.
    pose proof (all_digits_of_uint0 (Pos.to_uint p)) as Hd.
    pose proof (unsigned_of_uint p) as Hu.
    destruct (NilZero.string_of_uint (Pos.to_uint p)) as [|c s] eqn:E;
      [by destruct (of_uint0_nonempty (Pos.to_uint p))|].
    rewrite int_digits; [done| |].
    + simpl in Hd. by apply andb_true_iff in Hd as [? _].
    + by apply blanks_no_space, all_digits_no_space.
  - unfold int. rewrite blanks_no_space by apply no_space_str.
    unfold str. simpl. by rewrite unsigned_of_uint.
Qed.

Lemma str_inj z1 z2 : str z1 = str z2 -> z1 = z2.
Proof.
  intros E. pose proof (int_str z1) as H1. rewrite E, int_str in H1.
  congruence.
Qed.

Lemma uint_of_all_digits s :
  all_digits s = true -> exists d, NilEmpty.uint_of_string s = Some d.
Proof.
  induction s as [|c s IH]; simpl; [eauto|].
  intros [Hc Hs]%andb_true_iff. destruct (IH Hs) as [d ->].
  destruct c as [[] [] [] [] [] [] [] []]; try done; simpl; eauto.
Qed.

(** [int(s)] is defined and not negative when [s.isdigit()]. *)
Lemma isdigit_int s : isdigit s = true -> exists n, int s = Some n /\ 0 <= n.
Proof.
  intros H. pose proof (isdigit_all_digits s H) as Hd.
  destruct s as [|c s]; [done|].
  destruct (uint_of_all_digits _ Hd) as [d Hu].
  assert (Hc : is_digit c = true) by (simpl in Hd; by apply andb_true_iff in Hd as [? ?]).
  rewrite int_digits by (by try apply blanks_no_space, all_digits_no_space).
  rewrite unsigned_digits by done.
  unfold NilZero.uint_of_string. rewrite Hu.
  exists (Z.of_uint d). split; [done|]. unfold Z.of_uint. lia.
Qed.

(** A digit label equal to [str(m)] has value [m]. *)
Lemma int_of_str_label l m n : l = str m -> int l = Some n -> n = m.
Proof. intros -> H. rewrite int_str in H. congruence. Qed.

Lemma elem_of_range a b i : i ∈ range a b <-> a <= i < b.
Proof.
  unfold range. rewrite elem_of_seqZ. lia.
Qed.

Lemma NoDup_range a b : NoDup (range a b).
Proof. apply NoDup_seqZ. Qed.

End PyFacts.

(** ** The seat visibility filter *)

Module TableContextFacts.
Import ORM Spec TableContext.

Lemma insert_sorted_perm {A} (le : A -> A -> bool) x l :
  insert_sorted le x l ≡ₚ x :: l.
Proof.
  induction l as [|y l IH]; simpl; [done|].
  destruct (le x y); [done|]. rewrite IH. apply Permutation_swap.
Qed.

Lemma stable_sort_perm {A} (le : A -> A -> bool) l : stable_sort le l ≡ₚ l.
Proof.
  induction l as [|x l IH]; simpl; [done|].
  rewrite insert_sorted_perm. by rewrite IH.
Qed.

Lemma elem_of_stable_sort {A} (le : A -> A -> bool) l x :
  x ∈ stable_sort le l <-> x ∈ l.
Proof. by rewrite stable_sort_perm. Qed.

Lemma elem_of_all_seats order db s :
  s ∈ all_seats order db <-> s ∈ order_seats order db.
Proof. apply elem_of_stable_sort. Qed.

(** The range read from the query string does not depend on which of the
    two parameters carries which end. *)
Lemma query_range_swap request request' :
  qd_get "my_start" (GET_data request') = qd_get "my_end" (GET_data request) ->
  qd_get "my_end" (GET_data request') = qd_get "my_start" (GET_data request) ->
  query_range request' = query_range request.
Proof.
  intros Hs He. unfold query_range. rewrite Hs, He.
  destruct (qd_get "my_start" (GET_data request)) as [s|],
           (qd_get "my_end" (GET_data request)) as [e|]; try done.
  destruct (Py.truthy s), (Py.truthy e), (Py.isdigit s), (Py.isdigit e);
    simpl; try done.
  generalize (default 0 (Py.int s)), (default 0 (Py.int e)). intros a b.
  destruct (Z.ltb_spec a b), (Z.ltb_spec b a); try done; try lia.
  assert (a = b) by lia. by subst.
Qed.

Lemma query_range_digits request s e a b :
  qd_get "my_start" (GET_data request) = Some s ->
  qd_get "my_end" (GET_data request) = Some e ->
  Py.isdigit s = true -> Py.isdigit e = true ->
  Py.int s = Some a -> Py.int e = Some b ->
  query_range request = Some (Z.min a b, Z.max a b).
Proof.
  intros Hs He Ds De Is Ie. unfold query_range. rewrite Hs, He, Ds, De, Is, Ie.
  assert (Py.truthy s = true) as -> by by destruct s.
  assert (Py.truthy e = true) as -> by by destruct e.
  simpl. destruct (Z.ltb_spec b a); do 2 f_equal; lia.
Qed.

End TableContextFacts.

(** C10.  The seat visibility filter is symmetric in its two range
    endpoints: on query strings and seat labels of plain text, exchanging
    the values of [my_start] and [my_end] leaves the list of visible seats
    the same.  For numeric endpoints [a] and [b], in either order, the
    visible seats are exactly the seats of the order whose label is numeric
    and lies between the smaller and the larger of the two, so a reversed
    range is not treated as empty. *)
Theorem visible_seats_symmetric
    (request request' : Request) (order : Order) (db : DB)
    (s e : string) (a b : Z) :
  Text.plain_data (GET_data request) = true ->
  Text.plain_data (GET_data request') = true ->
  Text.plain_labels order db = true ->
  qd_get "my_start" (GET_data request) = Some s ->
  qd_get "my_end" (GET_data request) = Some e ->
  qd_get "my_start" (GET_data request') = Some e ->
  qd_get "my_end" (GET_data request') = Some s ->
  Py.isdigit s = true -> Py.isdigit e = true ->
  Py.int s = Some a -> Py.int e = Some b ->
  TableContext.visible_seats request' (Some order) db
    = TableContext.visible_seats request (Some order) db /\
  forall seat : Seat,
    seat ∈ TableContext.visible_seats request (Some order) db <->
    seat ∈ ORM.order_seats order db /\
    Py.isdigit (label seat) = true /\
    exists n, Py.int (label seat) = Some n /\ Z.min a b <= n <= Z.max a b.
Proof.
  intros _ _ _ Hs He Hs' He' Ds De Is Ie. split.
  - unfold TableContext.visible_seats.
    rewrite (TableContextFacts.query_range_swap request request'); [done| |];
      congruence.
  - intros seat. unfold TableContext.visible_seats.
    rewrite (TableContextFacts.query_range_digits request s e a b) by done.
    rewrite TableContextFacts.elem_of_stable_sort.
    rewrite list_elem_of_In, filter_In, <- list_elem_of_In.
    rewrite TableContextFacts.elem_of_all_seats.
    split.
    + intros [Hin [Hd Hr]%andb_true_iff]. split; [done|]. split; [done|].
      destruct (PyFacts.isdigit_int _ Hd) as [n [Hn _]].
      rewrite Hn in Hr. simpl in Hr. exists n. split; [done|].
      apply andb_true_iff in Hr as [H1 H2]. lia.
    + intros [Hin [Hd [n [Hn Hr]]]]. split; [done|].
      rewrite Hd, Hn. simpl. apply andb_true_iff. split; lia.
Qed.


(** ** Running computations *)

Module Run.
Import ORM Spec.

Lemma bind_ok {A B} (m : M A) (k : A -> M B) db db' a :
  m db = (db', inr a) -> bind m k db = k a db'.
Proof. intros H. unfold bind. by rewrite H. Qed.

Lemma bind_exn {A B} (m : M A) (k : A -> M B) db db' e :
  m db = (db', inl e) -> bind m k db = (db', inl e).
Proof. intros H. unfold bind. by rewrite H. Qed.

Lemma or_raise_some {A} e (a : A) db : or_raise e (Some a) db = (db, inr a).
Proof. done. Qed.

Lemma get_404_found {A} (find : Z -> DB -> option A) pk db a :
  find pk db = Some a -> get_object_or_404 find pk db = (db, inr a).
Proof. intros H. unfold get_object_or_404. by rewrite H. Qed.

Lemma objects_get_found {A} (find : Z -> DB -> option A) pk db a :
  find pk db = Some a -> objects_get find pk db = (db, inr a).
Proof. intros H. unfold objects_get. by rewrite H. Qed.

Lemma pure_ret {A} (a : A) : pure (ret a).
Proof. done. Qed.
Lemma pure_raise {A} e : pure (@raise A e).
Proof. done. Qed.
Lemma pure_or_raise {A} e (o : option A) : pure (or_raise e o).
Proof. by destruct o. Qed.
Lemma pure_get_404 {A} (find : Z -> DB -> option A) pk :
  pure (get_object_or_404 find pk).
Proof. intros db. unfold get_object_or_404. by destruct (find pk db). Qed.
Lemma pure_objects_get {A} (find : Z -> DB -> option A) pk :
  pure (objects_get find pk).
Proof. intros db. unfold objects_get. by destruct (find pk db). Qed.
Lemma pure_bind {A B} (m : M A) (k : A -> M B) :
  pure m -> (forall a, pure (k a)) -> pure (bind m k).
Proof.
  intros Hm Hk db. unfold bind. specialize (Hm db).
  destruct (m db) as [db' [e|a]]; simpl in *; subst; [done|]. apply Hk.
Qed.
Lemma pure_reply r l msg : pure (reply r l msg).
Proof. done. Qed.
Lemma pure_get_404_raw {A} (find : Z -> DB -> option A) raw :
  pure (get_object_or_404_raw find raw).
Proof.
  destruct raw as [s|]; simpl; [|apply pure_raise].
  apply pure_bind; [apply pure_or_raise|]. intros. apply pure_get_404.
Qed.

Lemma numeric_labels_run labels db :
  Views.numeric_labels labels db = (db, inr (numeric_of labels)).
Proof.
  induction labels as [|l labels IH]; [done|]. simpl.
  unfold numeric_of. simpl. destruct (Py.isdigit l) eqn:Hd; [|done].
  destruct (PyFacts.isdigit_int l Hd) as [n [Hn _]]. rewrite Hn. simpl.
  unfold bind at 1. simpl. unfold bind at 1. fold (numeric_of labels).
  by rewrite IH.
Qed.

Lemma existing_numeric_labels_run order db :
  Views.existing_numeric_labels order db = (db, inl NameError).
Proof. done. Qed.

Lemma elem_of_numeric_of labels n :
  n ∈ numeric_of labels <->
  exists l, l ∈ labels /\ Py.isdigit l = true /\ Py.int l = Some n.
Proof.
  unfold numeric_of. rewrite list_elem_of_omap. split.
  - intros [l [Hl H]]. exists l. destruct (Py.isdigit l); [done|done].
  - intros [l [Hl [Hd Hi]]]. exists l. by rewrite Hd.
Qed.

Lemma numeric_of_nonneg labels n : n ∈ numeric_of labels -> 0 <= n.
Proof.
  intros [l [_ [Hd Hi]]]%elem_of_numeric_of.
  destruct (PyFacts.isdigit_int l Hd) as [m [Hm ?]]. congruence.
Qed.

Lemma elem_of_numeric_seat_labels order db n :
  n ∈ numeric_seat_labels order db <->
  exists s, s ∈ order_seats order db /\ Py.isdigit (label s) = true /\
            Py.int (label s) = Some n.
Proof.
  unfold numeric_seat_labels. rewrite elem_of_numeric_of. split.
  - intros [l [Hl H]]. apply list_elem_of_In, in_map_iff in Hl as [s [<- Hs]].
    exists s. by rewrite list_elem_of_In.
  - intros [s [Hs H]]. exists (label s). split; [|done].
    apply list_elem_of_In, in_map. by apply list_elem_of_In.
Qed.

Lemma elem_of_order_seats order db s :
  s ∈ order_seats order db <-> s ∈ seats db /\ seat_order s = order_pk order.
Proof.
  unfold order_seats. rewrite !list_elem_of_In, filter_In, Z.eqb_eq. done.
Qed.

Lemma label_taken_true order l db :
  label_taken order l db = true <->
  exists s, s ∈ seats db /\ seat_order s = order /\ label s = l.
Proof.
  unfold label_taken. rewrite existsb_exists. split.
  - intros [s [Hs [H1 H2]%andb_true_iff]]. exists s.
    rewrite list_elem_of_In. apply Z.eqb_eq in H1. apply String.eqb_eq in H2. done.
  - intros [s [Hs [H1 H2]]]. exists s. rewrite <- list_elem_of_In.
    split; [done|]. apply andb_true_iff.
    by rewrite Z.eqb_eq, String.eqb_eq.
Qed.

Lemma fold_max_ge l x : x <= fold_left Z.max l x.
Proof.
  revert x. induction l as [|y l IH]; intros x; simpl; [lia|].
  specialize (IH (Z.max x y)). lia.
Qed.

Lemma fold_max_elem l x y : y ∈ l -> y <= fold_left Z.max l x.
Proof.
  revert x. induction l as [|z l IH]; intros x Hy; simpl.
  - by apply elem_of_nil in Hy.
  - apply elem_of_cons in Hy as [->|Hy]; [|by apply IH].
    pose proof (fold_max_ge l (Z.max x z)). lia.
Qed.

Lemma max_default0_ge l y : y ∈ l -> y <= Views.max_default0 l.
Proof.
  destruct l as [|x l]; [by intros ?%elem_of_nil|]. simpl.
  intros [->|Hy]%elem_of_cons; [apply fold_max_ge|by apply fold_max_elem].
Qed.

Lemma max_default0_nonneg l : (forall y, y ∈ l -> 0 <= y) -> 0 <= Views.max_default0 l.
Proof.
  destruct l as [|x l]; simpl; [lia|]. intros H.
  pose proof (fold_max_ge l x). pose proof (H x (list_elem_of_here _ _)). lia.
Qed.

(** The automatic label of [add_seat] is carried by no seat of the order. *)
Lemma auto_label_free order db :
  label_taken (order_pk order)
    (Py.str (Views.max_default0 (numeric_seat_labels order db) + 1)) db = false.
Proof.
  apply not_true_is_false. intros [s [Hs [Ho Hl]]]%label_taken_true.
  pose proof (max_default0_nonneg (numeric_seat_labels order db)
                (numeric_of_nonneg _)) as Hm.
  assert (Hd : Py.isdigit (label s) = true)
    by (rewrite Hl; apply PyFacts.isdigit_str; lia).
  assert (Hi : Py.int (label s) = Some (Views.max_default0 (numeric_seat_labels order db) + 1))
    by (rewrite Hl; apply PyFacts.int_str).
  assert (Hin : Views.max_default0 (numeric_seat_labels order db) + 1
                ∈ numeric_seat_labels order db).
  { apply elem_of_numeric_seat_labels. exists s. split; [|done].
    by apply elem_of_order_seats. }
  apply max_default0_ge in Hin. lia.
Qed.

Lemma insert_seat_ok s db :
  varchar_ok db 10 (ns_label s) = true ->
  label_taken (ns_order s) (ns_label s) db = false ->
  insert_seat s db
  = (bump_seat_pk (set_seats (fun l => l ++ new_rows (next_seat_pk db) [s]) db),
     inr {| seat_pk := next_seat_pk db; seat_order := ns_order s;
            label := ns_label s; assigned_to := ns_assigned_to s |}).
Proof. intros Hv Ht. unfold insert_seat. by rewrite Hv, Ht. Qed.

End Run.

Module RunMore.
Import ORM Spec Run.

Lemma max_default0_spec l :
  (forall y, y ∈ l -> y <= Views.max_default0 l) /\
  (l = [] -> Views.max_default0 l = 0) /\
  (l <> [] -> Views.max_default0 l ∈ l).
Proof.
  split; [apply max_default0_ge|]. split; [by intros ->|].
  destruct l as [|x l]; [done|]. intros _. simpl.
  revert x. induction l as [|y l IH]; intros x; simpl; [apply list_elem_of_here|].
  destruct (Z.max_spec x y) as [[_ ->]|[_ ->]].
  - apply list_elem_of_further, IH.
  - specialize (IH x). apply elem_of_cons in IH as [->|IH].
    + apply list_elem_of_here.
    + by do 2 apply list_elem_of_further.
Qed.

Lemma tail_pure {A B} (m : M A) (k : A -> M B) db db' a :
  m db = (db', inr a) -> pure (k a) -> fst (bind m k db) = db'.
Proof. intros Hm Hk. rewrite (bind_ok _ _ _ _ _ Hm). apply Hk. Qed.

Lemma pure_table_of (order : Order) : pure (Views.table_of order).
Proof. unfold Views.table_of. apply pure_objects_get. Qed.
Lemma pure_order_of (seat : Seat) : pure (Views.order_of seat).
Proof. unfold Views.order_of. apply pure_objects_get. Qed.
Lemma pure_seat_of (sel : SeatSelection) : pure (Views.seat_of sel).
Proof. unfold Views.seat_of. apply pure_objects_get. Qed.

End RunMore.


(** ** Properties kept by a computation *)

Module Keep.
Import ORM Spec Run RunMore.

Lemma preserves_pure {A} P (m : M A) : pure m -> preserves P m.
Proof. intros Hm db HP. unfold store_after. by rewrite Hm. Qed.

Lemma preserves_bind {A B} P (m : M A) (k : A -> M B) :
  preserves P m -> (forall a, preserves P (k a)) -> preserves P (bind m k).
Proof.
  intros Hm Hk db HP. specialize (Hm db HP). unfold store_after, bind in *.
  destruct (m db) as [db' [e|a]]; simpl in *; [done|]. by apply Hk.
Qed.

Lemma preserves_atomic {A} P (body : M A) :
  preserves P body -> preserves P (atomic body).
Proof.
  intros Hb db HP. specialize (Hb db HP). unfold store_after, atomic in *.
  by destruct (body db) as [db' [e|a]].
Qed.

Lemma preserves_mapM {A B} P (f : A -> M B) l :
  (forall x, preserves P (f x)) -> preserves P (mapM f l).
Proof.
  intros Hf. induction l as [|x l IH]; simpl.
  - by apply preserves_pure.
  - apply preserves_bind; [apply Hf|]. intros y.
    apply preserves_bind; [apply IH|]. intros ys. by apply preserves_pure.
Qed.

Lemma preserves_ret {A} P (a : A) : preserves P (ret a).
Proof. by apply preserves_pure. Qed.

Lemma preserves_reply P r l msg : preserves P (reply r l msg).
Proof. by apply preserves_pure. Qed.

Lemma preserves_get_db P : preserves P get_db.
Proof. by apply preserves_pure. Qed.

Lemma preserves_create_log P staff_id act at_ :
  log_blind P -> preserves P (create_log staff_id act at_).
Proof.
  intros HP db Hdb. unfold store_after, create_log.
  destruct (find_staff staff_id db); [|done].
  destruct (negb (varchar_ok db 120 act)); [done|]. simpl. by apply HP.
Qed.

Lemma log_blind_data d : log_blind (fun db => data_of db = d).
Proof. by intros db f. Qed.

End Keep.

Create HintDb keep.

#[global] Hint Resolve Keep.preserves_ret Keep.preserves_reply
  Keep.preserves_get_db Keep.preserves_create_log Keep.log_blind_data
  Run.pure_ret Run.pure_raise Run.pure_or_raise Run.pure_get_404
  Run.pure_objects_get Run.pure_reply Run.pure_get_404_raw
  RunMore.pure_table_of RunMore.pure_order_of RunMore.pure_seat_of
  : keep.

(** Walks a computation bind by bind. *)
Ltac keep_walk :=
  repeat first
    [ solve [ auto with keep ]
    | solve [ apply Keep.preserves_pure; auto with keep ]
    | apply Keep.preserves_bind; [|intros ?]
    | apply Keep.preserves_atomic
    | progress cbv beta zeta
    | match goal with
      | |- Spec.preserves _ (if ?b then _ else _) => destruct b
      | |- Spec.preserves _ (match ?x with _ => _ end) => destruct x
      end ].

Module MoveFacts.
Import ORM Spec Run RunMore.

Lemma int_truthy s n : Py.int s = Some n -> Py.truthy s = true.
Proof. by destruct s. Qed.

Lemma find_selection_pk pk db sel :
  find_selection pk db = Some sel -> sel ∈ selections db /\ sel_pk sel = pk.
Proof.
  unfold find_selection. intros H. apply find_some in H as [H1 H2].
  rewrite list_elem_of_In. by apply Z.eqb_eq in H2.
Qed.

(** With unique keys, the row found under a key is the only one with it. *)
Lemma same_pk_same_row (l : list SeatSelection) a b :
  NoDup (List.map sel_pk l) -> a ∈ l -> b ∈ l -> sel_pk a = sel_pk b -> a = b.
Proof.
  induction l as [|x l IH]; simpl; [by intros _ ?%elem_of_nil|].
  intros [Hx Hl]%NoDup_cons [->|Ha]%elem_of_cons [->|Hb]%elem_of_cons E; try done.
  - destruct Hx. rewrite E. apply list_elem_of_In, in_map. by apply list_elem_of_In.
  - destruct Hx. rewrite <- E. apply list_elem_of_In, in_map. by apply list_elem_of_In.
  - by apply IH.
Qed.

End MoveFacts.


(** ** Creating seats *)

Module SeatFacts.
Import ORM Spec Run RunMore.

Lemma mapM_insert_ok objs : forall db,
  (forall s, s ∈ objs -> varchar_ok db 10 (ns_label s) = true) ->
  NoDup (List.map key_of objs) ->
  (forall s, s ∈ objs -> label_taken (ns_order s) (ns_label s) db = false) ->
  mapM insert_seat objs db
  = (with_new_seats objs db, inr (new_rows (next_seat_pk db) objs)).
Proof.
  induction objs as [|s objs IH]; intros db Hfit Hnd Hfree.
  - simpl. unfold ret, with_new_seats, Views.len. simpl.
    rewrite app_nil_r, Z.add_0_r. by destruct db.
  - simpl. apply NoDup_cons in Hnd as [Hs Hnd].
    rewrite (bind_ok _ _ _ _ _
      (insert_seat_ok s db (Hfit s (list_elem_of_here _ _))
                           (Hfree s (list_elem_of_here _ _)))).
    set (db1 := bump_seat_pk
           (set_seats (fun l => l ++ new_rows (next_seat_pk db) [s]) db)).
    assert (H1 : mapM insert_seat objs db1
                 = (with_new_seats objs db1, inr (new_rows (next_seat_pk db1) objs))).
    { apply IH; [|done|].
      - intros s' Hs'. unfold varchar_ok. simpl.
        apply (Hfit s'). by apply list_elem_of_further.
      - intros s' Hs'. apply not_true_is_false.
        intros [r [Hr [Ho Hl]]]%label_taken_true. simpl in Hr.
        apply elem_of_app in Hr as [Hr|Hr].
        + pose proof (Hfree s' (list_elem_of_further _ _ _ Hs')) as Hf.
          apply not_true_iff_false in Hf. apply Hf, label_taken_true. eauto.
        + apply list_elem_of_singleton in Hr. subst r. simpl in *.
          apply Hs. apply list_elem_of_In, in_map_iff. exists s'.
          split; [unfold key_of; congruence|by apply list_elem_of_In]. }
    rewrite (bind_ok _ _ _ _ _ H1).
    unfold ret, with_new_seats, Views.len. simpl. f_equal. f_equal.
    + by rewrite <- app_assoc.
    + lia.
Qed.

Lemma bulk_create_ok objs db :
  (forall s, s ∈ objs -> varchar_ok db 10 (ns_label s) = true) ->
  NoDup (List.map key_of objs) ->
  (forall s, s ∈ objs -> label_taken (ns_order s) (ns_label s) db = false) ->
  bulk_create objs db
  = (with_new_seats objs db, inr (new_rows (next_seat_pk db) objs)).
Proof.
  intros. unfold bulk_create, atomic. by rewrite mapM_insert_ok.
Qed.

(** A failing [bulk_create] leaves the store as it found it. *)
Lemma bulk_create_exn objs db e :
  outcome (bulk_create objs) db = inl e -> bulk_create objs db = (db, inl e).
Proof.
  unfold outcome, bulk_create, atomic.
  destruct (mapM insert_seat objs db) as [db' [e'|rows]]; simpl; congruence.
Qed.

(** A successful batch appends its rows and nothing else. *)
Lemma mapM_insert_appends objs : forall db db' rows,
  mapM insert_seat objs db = (db', inr rows) ->
  orders db' = orders db /\ seats db' = seats db ++ rows.
Proof.
  induction objs as [|s objs IH]; intros db db' rows Hm.
  - injection Hm as <- <-. by rewrite app_nil_r.
  - simpl in Hm. unfold bind at 1 in Hm.
    destruct (insert_seat s db) as [db1 [e|row]] eqn:Hi; [done|].
    unfold bind at 1 in Hm.
    destruct (mapM insert_seat objs db1) as [db2 [e|rows']] eqn:Hm'; [done|].
    injection Hm as <- <-.
    destruct (IH _ _ _ Hm') as [Ho Hs]. rewrite Ho, Hs.
    unfold insert_seat in Hi.
    destruct (negb (varchar_ok db 10 (ns_label s))); [done|].
    destruct (label_taken (ns_order s) (ns_label s) db); [done|].
    injection Hi as <- <-. simpl. split; [done|]. by rewrite <- app_assoc.
Qed.

Lemma bulk_create_appends objs db db' rows :
  bulk_create objs db = (db', inr rows) ->
  orders db' = orders db /\ seats db' = seats db ++ rows.
Proof.
  unfold bulk_create, atomic.
  destruct (mapM insert_seat objs db) as [db1 [e|rows']] eqn:Hm; [done|].
  intros [= <- <-]. by apply (mapM_insert_appends objs).
Qed.

Lemma new_rows_seqZ order who (n : nat) : forall a pk',
  new_rows pk'
    (List.map (fun i => {| ns_order := order; ns_label := Py.str i;
                           ns_assigned_to := who |}) (seqZ a (Z.of_nat n)))
  = List.map (fun i => {| seat_pk := pk' + (i - a); seat_order := order;
                          label := Py.str i; assigned_to := who |})
      (seqZ a (Z.of_nat n)).
Proof.
  induction n as [|n IH]; intros a pk'; [done|].
  rewrite Nat2Z.inj_succ, seqZ_cons by lia.
  replace (Z.pred (Z.succ (Z.of_nat n))) with (Z.of_nat n) by lia.
  simpl. f_equal; [f_equal; lia|].
  rewrite (IH (Z.succ a) (pk' + 1)).
  apply map_ext. intros i. f_equal. lia.
Qed.

Lemma new_rows_range pk (order : Order) who a b :
  new_rows pk (Views.seats_in_range order who a b)
  = range_rows pk (order_pk order) who a b.
Proof.
  unfold Views.seats_in_range, range_rows, Py.range.
  destruct (Z.le_gt_cases 0 (b + 1 - a)) as [Hle|Hgt].
  - rewrite <- (Z2Nat.id (b + 1 - a)) by done.
    apply new_rows_seqZ.
  - by rewrite seqZ_nil by lia.
Qed.

Lemma len_seats_in_range (order : Order) who a b :
  Views.len (Views.seats_in_range order who a b) = Z.max 0 (b + 1 - a).
Proof.
  unfold Views.len, Views.seats_in_range, Py.range.
  rewrite length_map, length_seqZ. lia.
Qed.

Lemma elem_of_seats_in_range (order : Order) who a b s :
  s ∈ Views.seats_in_range order who a b <->
  exists i, a <= i <= b /\
    s = {| ns_order := order_pk order; ns_label := Py.str i;
           ns_assigned_to := who |}.
Proof.
  unfold Views.seats_in_range. rewrite list_elem_of_In, in_map_iff. split.
  - intros [i [<- Hi]]. exists i. split; [|done].
    apply list_elem_of_In, PyFacts.elem_of_range in Hi. lia.
  - intros [i [Hi ->]]. exists i. split; [done|].
    apply list_elem_of_In, PyFacts.elem_of_range. lia.
Qed.

Lemma NoDup_seats_in_range (order : Order) who a b :
  NoDup (List.map key_of (Views.seats_in_range order who a b)).
Proof.
  unfold Views.seats_in_range. rewrite map_map. unfold key_of. simpl.
  apply NoDup_fmap_2; [|apply PyFacts.NoDup_range].
  intros i j [= E]. by apply PyFacts.str_inj.
Qed.

Lemma seat_orders_known_spec db s :
  seat_orders_known db = true -> s ∈ seats db -> seat_order s < next_order_pk db.
Proof.
  unfold seat_orders_known. rewrite forallb_forall. intros H Hs.
  apply Z.ltb_lt, H. by apply list_elem_of_In.
Qed.

End SeatFacts.

(** ** [start_order] *)

Module StartFacts.
Import ORM Spec Run RunMore SeatFacts.

Lemma start_order_run request table_id db table member n lo hi :
  staff_id_truthy request = true ->
  find_table table_id db = Some table ->
  find_staff (default 0 (session_staff_id request)) db = Some member ->
  seat_count_posted request n ->
  start_range request n lo hi ->
  Views.start_order request table_id db
  = bind (start_block request table member lo hi)
         (start_tail request table member) db.
Proof.
  intros Hstaff Htable Hmember Hcount Hrange.
  unfold Views.start_order, staff_required. rewrite Hstaff.
  unfold Views.start_order_func.
  rewrite (bind_ok _ _ _ _ _ (get_404_found _ _ _ _ Htable)).
  cbv beta. rewrite Hstaff. change (negb true) with false. cbv iota.
  rewrite (bind_ok _ _ _ _ _ (objects_get_found _ _ _ _ Hmember)).
  cbv beta zeta.
  unfold seat_count_posted in Hcount. unfold start_range in Hrange.
  assert (Hc : (match qd_get "seat_count" (POST_data request) with
                | Some raw => or_raise ValueError (Py.int raw)
                | None => ret 12
                end) db = (db, inr n)).
  { destruct (qd_get "seat_count" (POST_data request)).
    - by rewrite Hcount.
    - by subst. }
  rewrite (bind_ok _ _ _ _ _ Hc).
  destruct (qd_get "my_start" (POST_data request)) as [s|],
           (qd_get "my_end" (POST_data request)) as [e|].
  - destruct Hrange as [-> ->]. done.
  - destruct Hrange as [-> ->]. done.
  - destruct Hrange as [-> ->]. done.
  - destruct Hrange as [-> ->]. done.
Qed.

Lemma create_order_run request table member db :
  create_order table member (now request) db
  = (bump_order_pk (set_orders (fun l => l ++ [opened_order request table member db]) db),
     inr (opened_order request table member db)).
Proof. done. Qed.

Lemma preserves_start_tail request table member created d :
  preserves (fun db => Spec.data_of db = d) (start_tail request table member created).
Proof. unfold start_tail. keep_walk. Qed.

End StartFacts.



(** ** [join_order] with an explicit range *)

Module JoinFacts.
Import ORM Spec Run RunMore SeatFacts.

Lemma IntegerField_clean_min min_value raw v :
  StartOrderForm.IntegerField_clean min_value raw = Some (Some v) ->
  min_value <= v.
Proof.
  unfold StartOrderForm.IntegerField_clean.
  destruct raw as [s|]; [|done]. destruct s as [|c s]; [done|].
  destruct (Py.int _) as [w|]; [|done].
  destruct (Z.ltb_spec w min_value); [done|]. intros [= <-]. lia.
Qed.

Lemma clean_some cleaned cleaned' :
  StartOrderForm.clean cleaned = Some cleaned' ->
  cleaned' = cleaned /\
  forall a b, StartOrderForm.my_seat_start cleaned = Some a ->
              StartOrderForm.my_seat_end cleaned = Some b -> a <= b.
Proof.
  unfold StartOrderForm.clean.
  destruct (xorb _ _); [done|].
  destruct (StartOrderForm.my_seat_start cleaned) as [s|],
           (StartOrderForm.my_seat_end cleaned) as [e|];
    try (intros [= <-]; split; [done|]; by intros).
  destruct (Z.ltb_spec e s); [done|].
  intros Hc. assert (cleaned' = cleaned) as ->.
  { destruct (StartOrderForm.seat_count cleaned) as [c|]; [|congruence].
    destruct (c <? e); congruence. }
  split; [done|]. intros a b [= <-] [= <-]. lia.
Qed.

(** A valid form carries a range of positive numbers in order. *)
Lemma range_posted_bounds request a b : range_posted request a b -> 1 <= a <= b.
Proof.
  intros [cleaned [Hv [Hs He]]]. unfold StartOrderForm.is_valid in Hv.
  destruct (StartOrderForm.IntegerField_clean 1 (qd_get "seat_count" _)) as [count|] eqn:Hc;
    [|done].
  destruct (StartOrderForm.IntegerField_clean 1 (qd_get "my_seat_start" _)) as [start|] eqn:Hst;
    [|done].
  destruct (StartOrderForm.IntegerField_clean 1 (qd_get "my_seat_end" _)) as [end_|] eqn:Hen;
    [|done].
  apply clean_some in Hv as [-> Hle]. simpl in Hs, He. subst start end_.
  apply IntegerField_clean_min in Hst. specialize (Hle a b eq_refl eq_refl). lia.
Qed.

Lemma elem_of_colliding_sets order db a b i :
  i ∈ colliding order db a b <->
  i ∈ numeric_seat_labels order db /\ i ∈ Py.range a (b + 1).
Proof.
  unfold colliding.
  rewrite (list_elem_of_In (List.filter _ _) i), filter_In, <- list_elem_of_In.
  rewrite bool_decide_eq_true. tauto.
Qed.

Lemma elem_of_colliding order db a b i :
  i ∈ colliding order db a b <->
  a <= i <= b /\
  exists s, s ∈ order_seats order db /\ Py.isdigit (label s) = true /\
            Py.int (label s) = Some i.
Proof.
  unfold colliding. rewrite list_elem_of_In, filter_In, <- list_elem_of_In.
  rewrite PyFacts.elem_of_range, bool_decide_eq_true.
  rewrite elem_of_numeric_seat_labels. intuition lia.
Qed.

Lemma sorted_filter_seqZ (P : Z -> bool) (n : nat) : forall a,
  StronglySorted Z.le (List.filter P (seqZ a (Z.of_nat n))).
Proof.
  induction n as [|n IH]; intros a; [constructor|].
  rewrite Nat2Z.inj_succ, seqZ_cons by lia.
  replace (Z.pred (Z.succ (Z.of_nat n))) with (Z.of_nat n) by lia.
  simpl. destruct (P a); [|apply IH].
  constructor; [apply IH|].
  apply Forall_forall. intros x Hx.
  apply list_elem_of_In, filter_In in Hx as [Hx _].
  apply list_elem_of_In, elem_of_seqZ in Hx. lia.
Qed.

Lemma sorted_colliding order db a b : Sorted Z.le (colliding order db a b).
Proof.
  apply StronglySorted_Sorted. unfold colliding, Py.range.
  destruct (Z.le_gt_cases 0 (b + 1 - a)).
  - rewrite <- (Z2Nat.id (b + 1 - a)) by done. apply sorted_filter_seqZ.
  - rewrite seqZ_nil by lia. constructor.
Qed.

Lemma NoDup_colliding order db a b : NoDup (colliding order db a b).
Proof.
  unfold colliding. apply NoDup_ListNoDup, List.NoDup_filter, NoDup_ListNoDup.
  apply PyFacts.NoDup_range.
Qed.

(** Without overlap, no requested label is carried by a seat of the order. *)
Lemma requested_labels_free order db a b i :
  1 <= a -> colliding order db a b = [] -> a <= i <= b ->
  label_taken (order_pk order) (Py.str i) db = false.
Proof.
  intros Ha Hnone Hi. apply not_true_is_false.
  intros [s [Hs [Ho Hl]]]%label_taken_true.
  assert (Hin : i ∈ colliding order db a b).
  { apply elem_of_colliding. split; [done|]. exists s.
    split; [by apply elem_of_order_seats|]. rewrite Hl.
    split; [apply PyFacts.isdigit_str; lia|apply PyFacts.int_str]. }
  rewrite Hnone in Hin. by apply elem_of_nil in Hin.
Qed.

End JoinFacts.

Module JoinRun.
Import ORM Spec Run RunMore SeatFacts JoinFacts.

Lemma acting_staff_run request db who :
  acting_staff request db who ->
  (if staff_id_truthy request then
     m <- objects_get find_staff (default 0 (session_staff_id request)) ;;
     ret (Some (staff_pk m))
   else ret None) db = (db, inr who).
Proof.
  unfold acting_staff. destruct (staff_id_truthy request).
  - intros [m [Hm ->]].
    by rewrite (bind_ok _ _ _ _ _ (objects_get_found _ _ _ _ Hm)).
  - by intros ->.
Qed.

(** [join_order] with a valid form comes to the unbound name. *)
Lemma join_order_run request table_id db table order cleaned who :
  method request = POST ->
  find_table table_id db = Some table ->
  first_open_order table db = Some order ->
  StartOrderForm.is_valid (POST_data request) = Some cleaned ->
  acting_staff request db who ->
  Views.join_order request table_id db = (db, inl NameError).
Proof.
  intros Hpost Htable Horder Hv Hwho.
  unfold Views.join_order, require_POST. rewrite Hpost.
  unfold Views.join_order_func.
  rewrite (bind_ok _ _ _ _ _ (get_404_found _ _ _ _ Htable)). cbv beta.
  unfold get_db at 1. unfold bind at 1. rewrite Horder, Hv.
  cbv beta zeta.
  rewrite (bind_ok _ _ _ _ _ (acting_staff_run _ _ _ Hwho)). cbv beta.
  destruct (StartOrderForm.my_seat_start cleaned) as [a|],
           (StartOrderForm.my_seat_end cleaned) as [b|]; try done.
Qed.

End JoinRun.

(** C1.  [join_order] with an explicit range never comes to the overlap
    test: the name [existing_numeric_labels] it evaluates first is bound
    nowhere in [views.py].  On the order with the seats 1 to 4 the range
    3 to 6, which overlaps in 3 and 4, ends in [NameError] and not in the
    conflict message; the range 5 to 7, which is free, ends in [NameError]
    too and creates no seat. *)
Theorem join_order_range_raises_NameError :
  let db := Sample.seated ["1"; "2"; "3"; "4"] in
  Views.join_order
    (Sample.post (Some 1) [("my_seat_start", "3"); ("my_seat_end", "6")]) 1 db
  = (db, inl NameError) /\
  Views.join_order
    (Sample.post (Some 1) [("my_seat_start", "5"); ("my_seat_end", "7")]) 1 db
  = (db, inl NameError).
Proof. split; reflexivity. Qed.

(** ** Uniqueness of [(order, label)] *)

Module UniqueFacts.
Import ORM Spec Run RunMore SeatFacts JoinFacts Keep.

Lemma preserves_insert_seat s : preserves labels_unique (insert_seat s).
Proof.
  intros db Hu. unfold store_after, insert_seat.
  destruct (negb (varchar_ok db 10 (ns_label s))); [done|].
  destruct (label_taken (ns_order s) (ns_label s) db) eqn:Ht; [done|].
  unfold labels_unique in *. simpl. rewrite map_app. simpl.
  apply NoDup_app. split; [done|]. split.
  - intros k Hk [= ->]%list_elem_of_singleton.
    apply not_true_iff_false in Ht. apply Ht, label_taken_true.
    apply list_elem_of_In, in_map_iff in Hk as [r [[= Ho Hl] Hr]].
    exists r. by rewrite list_elem_of_In.
  - apply NoDup_singleton.
Qed.

Lemma preserves_create_seat s : preserves labels_unique (create_seat s).
Proof. apply preserves_insert_seat. Qed.

Lemma preserves_bulk_create objs : preserves labels_unique (bulk_create objs).
Proof.
  unfold bulk_create. apply preserves_atomic, preserves_mapM.
  apply preserves_insert_seat.
Qed.

Lemma preserves_create_order table member at_ :
  preserves labels_unique (create_order table member at_).
Proof. by intros db Hu. Qed.

Lemma log_blind_unique : log_blind labels_unique.
Proof. by intros db f. Qed.

Lemma pure_numeric_labels labels : pure (Views.numeric_labels labels).
Proof. intros db. by rewrite numeric_labels_run. Qed.

Lemma pure_existing_numeric_labels order :
  pure (Views.existing_numeric_labels order).
Proof. intros db. by rewrite existing_numeric_labels_run. Qed.

Lemma pure_not_in_existing existing l : pure (Views.not_in_existing existing l).
Proof.
  induction l as [|s l IH]; simpl; [apply pure_ret|].
  apply pure_bind; [apply pure_or_raise|]. intros n.
  apply pure_bind; [apply IH|]. intros kept. apply pure_ret.
Qed.

End UniqueFacts.

#[global] Hint Resolve UniqueFacts.preserves_create_seat
  UniqueFacts.preserves_bulk_create UniqueFacts.preserves_create_order
  UniqueFacts.log_blind_unique UniqueFacts.pure_numeric_labels
  UniqueFacts.pure_existing_numeric_labels UniqueFacts.pure_not_in_existing
  : keep.

(** C5.  Seat labels within one order are pairwise distinct, and the
    seat-creating operations keep it so.  From a store in which
    [(order, label)] is unique, [start_order], [add_seat] and [join_order]
    lead, for every request, to a store in which it is unique.  The labels
    they choose do not rely on the storage constraint: the labels
    [start_order] creates are pairwise distinct and its order is fresh; the
    label [add_seat] chooses, [str(max + 1)], is carried by no seat of the
    order; and a [join_order] with a valid range and an empty overlap
    requests no label that a seat of the order carries. *)
Theorem seat_labels_stay_unique (db : DB) :
  Spec.labels_unique db ->
  (forall request table_id,
     Spec.labels_unique (Spec.store_after (Views.start_order request table_id) db)) /\
  (forall request order_id,
     Spec.labels_unique (Spec.store_after (Views.add_seat request order_id) db)) /\
  (forall request table_id,
     Spec.labels_unique (Spec.store_after (Views.join_order request table_id) db)) /\
  (forall (order : Order) who a b,
     NoDup (List.map ORM.ns_label (Views.seats_in_range order who a b))) /\
  (Spec.seat_orders_known db = true ->
   forall l, ORM.label_taken (next_order_pk db) l db = false) /\
  (forall order : Order,
     ORM.label_taken (order_pk order)
       (Py.str (Views.max_default0 (Spec.numeric_seat_labels order db) + 1)) db
     = false) /\
  (forall request (order : Order) a b i,
     Spec.range_posted request a b ->
     Spec.colliding order db a b = [] ->
     a <= i <= b ->
     ORM.label_taken (order_pk order) (Py.str i) db = false).
Proof.
  intros Hu. repeat split.
  - intros request table_id. revert db Hu.
    change (Spec.preserves Spec.labels_unique (Views.start_order request table_id)).
    unfold Views.start_order, staff_required, Views.start_order_func.
    keep_walk.
  - intros request order_id. revert db Hu.
    change (Spec.preserves Spec.labels_unique (Views.add_seat request order_id)).
    unfold Views.add_seat, require_POST, Views.add_seat_func.
    keep_walk.
  - intros request table_id. revert db Hu.
    change (Spec.preserves Spec.labels_unique (Views.join_order request table_id)).
    unfold Views.join_order, require_POST, Views.join_order_func.
    keep_walk.
  - intros order who a b. unfold Views.seats_in_range. rewrite map_map. simpl.
    apply NoDup_fmap_2; [|apply PyFacts.NoDup_range].
    intros i j. apply PyFacts.str_inj.
  - intros Hknown l. apply not_true_is_false.
    intros [s [Hs [Ho _]]]%Run.label_taken_true.
    pose proof (SeatFacts.seat_orders_known_spec db s Hknown Hs). lia.
  - intros order. apply Run.auto_label_free.
  - intros request order a b i Hrange Hnone Hi.
    pose proof (JoinFacts.range_posted_bounds _ _ _ Hrange).
    apply (JoinFacts.requested_labels_free order db a b); [lia|done|done].
Qed.



(** ** The staff guard *)

(** C2.  Only [start_order] is behind the [staff_required] guard.  With a
    session that carries no staff id, on the table whose order has two seats
    and one selection: [start_order] is sent to the login page and changes
    nothing, but [close_order] deletes the order with its seats and
    selections, [add_seat] adds a seat, [remove_seat] removes one,
    [add_selection] adds a selection, [remove_selection] removes one and
    [move_selection] moves one; [join_order] is not sent to the login page
    either. *)
Theorem writes_proceed_without_staff_identity :
  let db := Sample.with_soup "" ∅ in
  let anonymous := Sample.post None in
  staff_id_truthy (anonymous []) = false /\
  Views.start_order (anonymous [("seat_count", "4")]) 1 db
  = (db, inr {| response := RedirectStaffLogin;
                flash := [(warning, PleaseEnterStaffCode)] |}) /\
  (let db' := Spec.store_after (Views.close_order (anonymous []) 1) db in
   Spec.outcome (Views.close_order (anonymous []) 1) db
   = inr {| response := RedirectRoomTables 2; flash := [(info, OrderClosed)] |} /\
   orders db' = [] /\ seats db' = [] /\ selections db' = []) /\
  List.map label
    (seats (Spec.store_after (Views.add_seat (anonymous []) 1) db))
  = ["1"; "2"; "3"] /\
  List.map label
    (seats (Spec.store_after (Views.remove_seat (anonymous []) 2) db))
  = ["1"] /\
  List.map (fun s => (sel_seat s, sel_item s))
    (selections
       (Spec.store_after
          (Views.add_selection (anonymous [("seat_id", "2"); ("item_id", "1")]))
          db))
  = [(1, 1); (2, 1)] /\
  selections (Spec.store_after (Views.remove_selection (anonymous []) 1) db)
  = [] /\
  List.map (fun s => (sel_pk s, sel_seat s))
    (selections
       (Spec.store_after
          (Views.move_selection
             (anonymous [("selection_id", "1"); ("target_seat_id", "2")]))
          db))
  = [(1, 2)] /\
  Spec.outcome (Views.join_order (anonymous [("seat_count", "4")]) 1) db
  = inl NameError.
Proof. vm_compute. repeat split. Qed.

(** ** Validation of the seat range *)

Module ValidationFacts.
Import ORM Spec Run RunMore.

(** [join_order] on an open order refuses an invalid form: the validation
    message is flashed and the store is the one it found. *)
Lemma join_order_invalid_form request table_id db table order :
  method request = POST ->
  find_table table_id db = Some table ->
  first_open_order table db = Some order ->
  StartOrderForm.is_valid (POST_data request) = None ->
  Views.join_order request table_id db
  = (db, inr {| response := RedirectTableDetail (table_pk table) "";
                flash := [(error, InvalidRange)] |}).
Proof.
  intros Hpost Htable Horder Hinvalid.
  unfold Views.join_order, require_POST. rewrite Hpost.
  unfold Views.join_order_func.
  rewrite (bind_ok _ _ _ _ _ (get_404_found _ _ _ _ Htable)). cbv beta.
  unfold get_db at 1. unfold bind at 1. by rewrite Horder, Hinvalid.
Qed.

(** The three kinds of contradictory range make the form invalid. *)
Lemma clean_rejects count start end_ :
  (start <> None /\ end_ = None) \/ (start = None /\ end_ <> None) \/
  (exists s e, start = Some s /\ end_ = Some e /\
     (e < s \/ exists c, count = Some c /\ c < e)) ->
  StartOrderForm.clean
    {| StartOrderForm.seat_count := count;
       StartOrderForm.my_seat_start := start;
       StartOrderForm.my_seat_end := end_ |} = None.
Proof.
  unfold StartOrderForm.clean. simpl.
  intros [[Hs ->]|[[-> He]|[s [e [-> [-> H]]]]]].
  - destruct start; [done|by destruct Hs].
  - destruct end_; [done|by destruct He].
  - simpl. destruct (Z.ltb_spec e s); [done|].
    destruct H as [?|[c [-> Hc]]]; [lia|].
    by destruct (Z.ltb_spec c e); [|lia].
Qed.

End ValidationFacts.

(** C6, at the failing input.  [start_order] does not run the form
    validation that [join_order] runs: asked by Alice for the range
    [5..3] on table 7, it opens an order with no seat and reports success
    instead of a validation message; with only [my_start] posted it falls
    back to the seat count. *)
Theorem start_order_accepts_reversed_range :
  let request := Sample.post (Some 1) [("my_start", "5"); ("my_end", "3")] in
  let lonely := Sample.post (Some 1) [("my_start", "5"); ("seat_count", "2")] in
  Views.start_order request 1 Sample.idle
    = (set_staff_log (fun _ =>
         [ {| log_staff := 1;
              action := "started order #1 on table 7 with 0 seats";
              timestamp := 200 |} ])
         (bump_order_pk (set_orders (fun _ =>
            [ {| order_pk := 1; order_table := 1; order_party := None;
                 opened_by_staff := Some 1; opened_at := 200;
                 printed := false |} ]) Sample.idle)),
       inr {| response := RedirectTableDetail 1 "";
              flash := [(success, OrderStarted 7 0)] |}) /\
  List.map label (seats (Spec.store_after (Views.start_order lonely 1) Sample.idle))
    = ["1"; "2"] /\
  StartOrderForm.clean
    {| StartOrderForm.seat_count := None;
       StartOrderForm.my_seat_start := Some 5;
       StartOrderForm.my_seat_end := Some 3 |} = None.
Proof. vm_compute. done. Qed.

(** ** [add_selection] *)

Module SelectionFacts.
Import ORM Spec Run RunMore.

Lemma rstrip_idem s : Py.rstrip (Py.rstrip s) = Py.rstrip s.
Proof.
  induction s as [|c s IH]; [done|]. simpl.
  destruct (Py.rstrip s) as [|c' r] eqn:Hr.
  - destruct (Py.is_space c) eqn:Hc; [done|]. simpl. by rewrite Hc.
  - simpl. simpl in IH. by rewrite IH.
Qed.

Lemma rstrip_strip s : Py.rstrip (Py.strip s) = Py.strip s.
Proof. apply rstrip_idem. Qed.

Lemma rstrip_app x s :
  s <> "" -> Py.rstrip s = s -> Py.rstrip (x +:+ s) = x +:+ s.
Proof.
  intros Hne Hs. induction x as [|c x IH]; [exact Hs|].
  simpl. rewrite IH. change (String c x +:+ s) with (String c (x +:+ s)).
  destruct (x +:+ s) eqn:E; [|done].
  destruct x; simpl in E; [by subst|done].
Qed.

(** Existing notes that start with a plain character are kept as they
    are and the new notes follow them after a newline. *)
Lemma strip_appended old new_ :
  starts_plain old -> Py.truthy (Py.strip new_) = true ->
  Py.strip (old +:+ "
" +:+ Py.strip new_) = old +:+ "
" +:+ Py.strip new_.
Proof.
  intros Hold Hnew. unfold Py.strip at 1.
  destruct old as [|c old]; [done|]. simpl in Hold.
  assert (Hl : Py.lstrip (String c old +:+ "
" +:+ Py.strip new_) = String c old +:+ "
" +:+ Py.strip new_) by (simpl; by rewrite Hold).
  rewrite Hl.
  assert (Hne : Py.strip new_ <> "") by by destruct (Py.strip new_).
  apply rstrip_app; [done|].
  apply rstrip_app; [done|apply rstrip_strip].
Qed.

Lemma lstrip_plain t : starts_plain t -> Py.lstrip t = t.
Proof. destruct t as [|c t]; [done|]. simpl. by intros ->. Qed.

Lemma rstrip_plain t : starts_plain t -> starts_plain (Py.rstrip t).
Proof.
  destruct t as [|c t]; [done|]. simpl. intros Hc.
  destruct (Py.rstrip t); [by rewrite Hc|done].
Qed.

Lemma lstrip_cases s : Py.lstrip s = "" \/ starts_plain (Py.lstrip s).
Proof.
  induction s as [|c s IH]; [by left|]. simpl.
  destruct (Py.is_space c) eqn:Hc; [done|by right].
Qed.

(** Stripped text has no leading white space. *)
Lemma lstrip_strip s : Py.lstrip (Py.strip s) = Py.strip s.
Proof.
  unfold Py.strip. destruct (lstrip_cases s) as [->|Hp]; [done|].
  by apply lstrip_plain, rstrip_plain.
Qed.

(** Notes appended to empty notes are the new notes alone. *)
Lemma strip_appended_empty new_ :
  Py.strip ("" +:+ "
" +:+ Py.strip new_) = Py.strip new_.
Proof.
  unfold Py.strip at 1.
  change (Py.lstrip ("" +:+ "
" +:+ Py.strip new_)) with (Py.lstrip (Py.strip new_)).
  rewrite lstrip_strip. apply rstrip_strip.
Qed.

End SelectionFacts.

Module SelectionRun.
Import ORM Spec Run RunMore SelectionFacts.

Lemma mapM_int_run raws ids db :
  parsed raws ids ->
  mapM (fun s => or_raise ValueError (Py.int s)) raws db = (db, inr ids).
Proof.
  induction 1 as [|raw n raws ids Hn _ IH]; [done|]. simpl.
  unfold bind at 1. rewrite Hn. simpl. unfold bind at 1. by rewrite IH.
Qed.

Lemma filter_pk_in_run existing raws ids db :
  parsed raws ids ->
  filter_pk_in existing raws db = (db, inr (existing ∩ list_to_set ids)).
Proof.
  intros Hp. unfold filter_pk_in.
  by rewrite (bind_ok _ _ _ _ _ (mapM_int_run _ _ db Hp)).
Qed.

Lemma set_selections_id (f : SeatSelection -> SeatSelection) db :
  (forall row, In row (selections db) -> f row = row) ->
  set_selections (List.map f) db = db.
Proof.
  intros Hf. destruct db. unfold set_selections. simpl in *. f_equal.
  rewrite <- (map_id selections0) at 2. by apply map_ext_in.
Qed.

Lemma modifiers_step_run (sel : SeatSelection) raws ids db :
  parsed raws ids ->
  (match raws with
   | [] => ret tt
   | _ => db <- get_db ;;
          mods <- filter_pk_in (modifier_pks db) raws ;;
          modifiers_add sel mods
   end) db
  = (set_selections
       (List.map (add_mods (sel_pk sel) (modifier_pks db ∩ list_to_set ids))) db,
     inr tt).
Proof.
  intros Hp. destruct raws as [|raw raws].
  - inversion Hp; subst. unfold ret. f_equal. symmetry.
    apply set_selections_id. intros row _. unfold add_mods.
    destruct (sel_pk row =? sel_pk sel); [|done].
    destruct row. simpl. f_equal. set_solver.
  - unfold get_db at 1. unfold bind at 1.
    by rewrite (bind_ok _ _ _ _ _ (filter_pk_in_run _ _ _ db Hp)).
Qed.

Lemma temperatures_step_run (sel : SeatSelection) raws ids db :
  parsed raws ids ->
  (match raws with
   | [] => ret tt
   | _ => db <- get_db ;;
          temps <- filter_pk_in (temperature_pks db) raws ;;
          temperatures_add sel temps
   end) db
  = (set_selections
       (List.map (add_temps (sel_pk sel) (temperature_pks db ∩ list_to_set ids))) db,
     inr tt).
Proof.
  intros Hp. destruct raws as [|raw raws].
  - inversion Hp; subst. unfold ret. f_equal. symmetry.
    apply set_selections_id. intros row _. unfold add_temps.
    destruct (sel_pk row =? sel_pk sel); [|done].
    destruct row. simpl. f_equal. set_solver.
  - unfold get_db at 1. unfold bind at 1.
    by rewrite (bind_ok _ _ _ _ _ (filter_pk_in_run _ _ _ db Hp)).
Qed.

Lemma get_raw_found {A} (find : Z -> DB -> option A) raw pk db a :
  Py.int raw = Some pk -> find pk db = Some a ->
  get_object_or_404_raw find (Some raw) db = (db, inr a).
Proof.
  intros Hi Hf. unfold get_object_or_404_raw. rewrite Hi.
  unfold bind. simpl. by apply get_404_found.
Qed.

Lemma matching_elem seat item db sel :
  sel ∈ matching seat item db ->
  sel ∈ selections db /\ sel_seat sel = seat_pk seat /\ sel_item sel = item_pk item.
Proof.
  unfold matching. rewrite !list_elem_of_In, filter_In.
  intros [H [H1 H2]%andb_true_iff]. by rewrite Z.eqb_eq in H1, H2.
Qed.

End SelectionRun.


(** Two calls for the same seat and item, with the notes [a] and then
    [b], leave one selection with the notes [a], newline, [b] and the
    modifiers of both calls. *)
Example add_selection_twice :
  let first := Sample.post (Some 1)
                 [("seat_id", "1"); ("item_id", "1"); ("notes", "a");
                  ("modifier_ids", "1")] in
  let second := Sample.post (Some 1)
                  [("seat_id", "1"); ("item_id", "1"); ("notes", "b");
                   ("modifier_ids", "2"); ("modifier_ids", "3")] in
  let db := Sample.seated ["1"; "2"] in
  let db1 := Spec.store_after (Views.add_selection first) db in
  let db2 := Spec.store_after (Views.add_selection second) db1 in
  List.map (fun s => (sel_pk s, sel_seat s, sel_item s, notes s,
                      merge_sort Z.le (elements (modifiers s)))) (selections db2)
  = [(1, 1, 1, "a
b", [1; 2; 3])].
Proof. vm_compute. done. Qed.


(** ** The statements at work in the small restaurant *)




(** Seats 1, 3 and 5: the labels are unique and stay so after [add_seat]. *)
Lemma seat_labels_stay_unique_witness :
  Spec.labels_unique
    (Spec.store_after (Views.add_seat (Sample.post None []) 1)
       (Sample.seated ["1"; "3"; "5"])).
Proof.
  assert (Hu : Spec.labels_unique (Sample.seated ["1"; "3"; "5"])).
  { unfold Spec.labels_unique. apply (bool_decide_unpack _). vm_compute.
    exact I. }
  exact (proj1 (proj2 (seat_labels_stay_unique _ Hu)) (Sample.post None []) 1).
Defined.





(** Seats 1, 2, 3, 4, 10 and A shown for the range 4 down to 2 and for the
    range 2 up to 4. *)
Lemma visible_seats_symmetric_witness :
  TableContext.visible_seats
    (Sample.get [("my_start", "2"); ("my_end", "4")]) (Some Sample.order1)
    (Sample.seated ["1"; "2"; "3"; "4"; "10"; "A"])
  = TableContext.visible_seats
      (Sample.get [("my_start", "4"); ("my_end", "2")]) (Some Sample.order1)
      (Sample.seated ["1"; "2"; "3"; "4"; "10"; "A"]) /\
  List.map label
    (TableContext.visible_seats
       (Sample.get [("my_start", "4"); ("my_end", "2")]) (Some Sample.order1)
       (Sample.seated ["1"; "2"; "3"; "4"; "10"; "A"]))
  = ["2"; "3"; "4"].
Proof.
  split; [|reflexivity].
  exact (proj1 (visible_seats_symmetric
                  (Sample.get [("my_start", "4"); ("my_end", "2")])
                  (Sample.get [("my_start", "2"); ("my_end", "4")])
                  Sample.order1 (Sample.seated ["1"; "2"; "3"; "4"; "10"; "A"])
                  "4" "2" 4 2 eq_refl eq_refl eq_refl
                  eq_refl eq_refl eq_refl eq_refl eq_refl eq_refl eq_refl eq_refl)).
Defined.

(** * Further properties of the views and forms *)

(** ** Requests that are refused *)

(** X1.  [join_order] refuses without touching the store: an unknown table
    is a 404; a table without an open order is sent to [start_order] with
    the notice that no order exists; an invalid form (of posted values of
    plain text) is sent back to the table with the validation message. *)
Theorem join_order_refusals (request : Request) (table_id : Z) (db : DB) :
  method request = POST ->
  (ORM.find_table table_id db = None ->
   Views.join_order request table_id db = (db, inl Http404)) /\
  (forall table,
     ORM.find_table table_id db = Some table ->
     ORM.first_open_order table db = None ->
     Views.join_order request table_id db
     = (db, inr (More.flashed (RedirectStartOrder (table_pk table)) info NoOrderYet))) /\
  (forall table order,
     ORM.find_table table_id db = Some table ->
     ORM.first_open_order table db = Some order ->
     Text.plain_data (POST_data request) = true ->
     StartOrderForm.is_valid (POST_data request) = None ->
     Views.join_order request table_id db
     = (db, inr (More.flashed (RedirectTableDetail (table_pk table) "")
                   error InvalidRange))).
Proof.
  intros Hpost. split; [|split].
  - intros Hnone. unfold Views.join_order, require_POST. rewrite Hpost.
    unfold Views.join_order_func, bind, ORM.get_object_or_404.
    by rewrite Hnone.
  - intros table Htable Hnone. unfold Views.join_order, require_POST.
    rewrite Hpost. unfold Views.join_order_func.
    rewrite (Run.bind_ok _ _ _ _ _ (Run.get_404_found _ _ _ _ Htable)).
    cbv beta. unfold get_db at 1. unfold bind at 1. by rewrite Hnone.
  - intros table order Htable Horder _ Hinvalid.
    by apply ValidationFacts.join_order_invalid_form with (order := order).
Qed.

Lemma join_order_refusals_witness :
  Views.join_order (Sample.post (Some 1) [("my_seat_start", "3")]) 1 Sample.idle
  = (Sample.idle,
     inr (More.flashed (RedirectStartOrder 1) info NoOrderYet)) /\
  Views.join_order (Sample.post (Some 1) [("my_seat_start", "3")]) 1
    (Sample.seated ["1"])
  = (Sample.seated ["1"],
     inr (More.flashed (RedirectTableDetail 1 "") error InvalidRange)).
Proof.
  split.
  - exact (proj1 (proj2 (join_order_refusals
             (Sample.post (Some 1) [("my_seat_start", "3")]) 1 Sample.idle
             eq_refl)) Sample.table7 eq_refl eq_refl).
  - exact (proj2 (proj2 (join_order_refusals
             (Sample.post (Some 1) [("my_seat_start", "3")]) 1
             (Sample.seated ["1"]) eq_refl))
             Sample.table7 Sample.order1 eq_refl eq_refl eq_refl eq_refl).
Defined.

Module FormFacts.

Lemma IntegerField_clean_reads raw v :
  StartOrderForm.IntegerField_clean 1 raw = Some v <-> More.field_reads raw v.
Proof.
  unfold StartOrderForm.IntegerField_clean, More.field_reads.
  destruct raw as [[|c s]|]; [split; congruence| |split; congruence].
  destruct (Py.int _) as [n|].
  - destruct (Z.ltb_spec n 1).
    + split; [done|]. intros [m [[= <-] [? _]]]. lia.
    + split.
      * intros [= <-]. by exists n.
      * by intros [m [[= <-] [_ ->]]].
  - split; [done|]. by intros [m [? _]].
Qed.

Lemma clean_coherent c c' :
  StartOrderForm.clean c = Some c' <-> c' = c /\ More.coherent c.
Proof.
  unfold StartOrderForm.clean, More.coherent.
  destruct (StartOrderForm.my_seat_start c) as [s|],
           (StartOrderForm.my_seat_end c) as [e|]; simpl.
  - destruct (Z.ltb_spec e s).
    + split; [done|]. intros [_ [? _]]. lia.
    + destruct (StartOrderForm.seat_count c) as [n|].
      * destruct (Z.ltb_spec n e).
        -- split; [done|]. intros [_ [_ ?]]. lia.
        -- split; [by intros [= <-]|by intros [-> _]].
      * split; [by intros [= <-]|by intros [-> _]].
  - split; [done|by intros [_ []]].
  - split; [done|by intros [_ []]].
  - split; [by intros [= <-]|by intros [-> _]].
Qed.

End FormFacts.

(** X2.  [StartOrderForm] on posted values of plain text: the form is
    valid exactly when each of the three fields is empty or, once a
    trailing decimal point with zeros is removed, the literal of an integer
    not below 1, and the range is coherent: both ends or none, start not
    after end, end within the seat count when there is one.  The cleaned
    data of a valid form are these numbers. *)
Theorem StartOrderForm_is_valid_iff
    (data : QueryDict) (cleaned : StartOrderForm.cleaned_data) :
  Text.plain_data data = true ->
  (StartOrderForm.is_valid data = Some cleaned <->
   More.field_reads (qd_get "seat_count" data)
     (StartOrderForm.seat_count cleaned) /\
   More.field_reads (qd_get "my_seat_start" data)
     (StartOrderForm.my_seat_start cleaned) /\
   More.field_reads (qd_get "my_seat_end" data)
     (StartOrderForm.my_seat_end cleaned) /\
   More.coherent cleaned).
Proof.
  intros _. rewrite <- !FormFacts.IntegerField_clean_reads.
  unfold StartOrderForm.is_valid.
  destruct (StartOrderForm.IntegerField_clean 1 (qd_get "seat_count" data))
    as [count|]; [|split; [done|by intros [? _]]].
  destruct (StartOrderForm.IntegerField_clean 1 (qd_get "my_seat_start" data))
    as [start|]; [|split; [done|by intros [_ [? _]]]].
  destruct (StartOrderForm.IntegerField_clean 1 (qd_get "my_seat_end" data))
    as [end_|]; [|split; [done|by intros [_ [_ [? _]]]]].
  rewrite FormFacts.clean_coherent. split.
  - intros [-> Hc]. done.
  - intros [[= Hn] [[= Hs] [[= He] Hc]]]. split; [|by destruct cleaned; simpl in *; subst].
    destruct cleaned. simpl in *. by subst.
Qed.

(** A seat count with a decimal point, a start after a blank and an end
    with a digit group: the form is valid with 12, 3 and 10. *)
Lemma StartOrderForm_is_valid_iff_witness :
  StartOrderForm.is_valid
    [("seat_count", "12.0"); ("my_seat_start", " 3"); ("my_seat_end", "1_0")]
  = Some {| StartOrderForm.seat_count := Some 12;
            StartOrderForm.my_seat_start := Some 3;
            StartOrderForm.my_seat_end := Some 10 |}.
Proof.
  apply (proj2 (StartOrderForm_is_valid_iff
                  [("seat_count", "12.0"); ("my_seat_start", " 3");
                   ("my_seat_end", "1_0")] _ eq_refl)).
  split; [|split; [|split]].
  - exists 12. split; [reflexivity|]. split; [lia|reflexivity].
  - exists 3. split; [reflexivity|]. split; [lia|reflexivity].
  - exists 10. split; [reflexivity|]. split; [lia|reflexivity].
  - unfold More.coherent. simpl. lia.
Defined.


(** ** Closing and removing *)

Module DeleteFacts.
Import ORM Spec Run RunMore Audit.

Lemma create_log_ok staff_id act at_ db m :
  find_staff staff_id db = Some m -> varchar_ok db 120 act = true ->
  create_log staff_id act at_ db
  = (set_staff_log (fun l => l ++ [ {| log_staff := staff_id; action := act;
                                       timestamp := at_ |} ]) db, inr tt).
Proof. intros Hm Hfit. unfold create_log. by rewrite Hm, Hfit. Qed.

Lemma find_none_after_filter {A} (pk : A -> Z) (l : list A) k :
  List.find (fun x => pk x =? k) (List.filter (fun x => negb (pk x =? k)) l) = None.
Proof.
  induction l as [|x l IH]; [done|]. simpl.
  destruct (pk x =? k) eqn:E; simpl; [done|]. by rewrite E.
Qed.

Lemma find_order_pk pk db order :
  find_order pk db = Some order -> order ∈ orders db /\ order_pk order = pk.
Proof.
  unfold find_order. intros [H1 H2]%find_some.
  rewrite list_elem_of_In. by apply Z.eqb_eq in H2.
Qed.

Lemma find_seat_pk pk db seat :
  find_seat pk db = Some seat -> seat ∈ seats db /\ seat_pk seat = pk.
Proof.
  unfold find_seat. intros [H1 H2]%find_some.
  rewrite list_elem_of_In. by apply Z.eqb_eq in H2.
Qed.

Lemma elem_of_filter_neq {A} (pk : A -> Z) (l : list A) k x :
  x ∈ List.filter (fun x => negb (pk x =? k)) l <-> x ∈ l /\ pk x <> k.
Proof.
  rewrite !list_elem_of_In, filter_In, negb_true_iff, Z.eqb_neq. done.
Qed.

(** The log step of [close_order]. *)
Lemma close_log_run request db order table :
  find_table (order_table order) db = Some table ->
  can_log request db (closed_text order table) ->
  (if staff_id_truthy request then
     table <- Views.table_of order ;;
     create_log (default 0 (session_staff_id request))
       ("closed order #" +:+ Py.str (order_pk order) +:+
        " on table " +:+ Py.str (table_number table))
       (now request)
   else ret tt) db
  = (logged request (closed_text order table) db, inr tt).
Proof.
  intros Htable Hlog. unfold can_log, logged in *.
  destruct (staff_id_truthy request); [|done].
  destruct (Hlog eq_refl) as [[m Hm] Hfit].
  unfold Views.table_of.
  rewrite (bind_ok _ _ _ _ _ (objects_get_found _ _ _ _ Htable)).
  by apply create_log_ok with (m := m).
Qed.

End DeleteFacts.

(** X3.  [close_order] deletes the order with everything under it and
    nothing else.  Afterwards the order is not found, the orders and seats
    left are the ones of the other orders, the selections left are the
    ones on no seat of the closed order, the tables are all there, and the
    caller is sent to the room of the table.  Closing the same order again
    is a 404 that changes nothing. *)
Theorem close_order_cascades
    (request : Request) (order_id : Z) (db : DB) (order : Order) (table : Table) :
  method request = POST ->
  ORM.find_order order_id db = Some order ->
  ORM.find_table (order_table order) db = Some table ->
  Audit.can_log request db (Audit.closed_text order table) ->
  let db' := Spec.store_after (Views.close_order request order_id) db in
  Spec.outcome (Views.close_order request order_id) db
    = inr (More.flashed (RedirectRoomTables (table_room table)) info OrderClosed) /\
  ORM.find_order order_id db' = None /\
  (forall o, o ∈ orders db' <-> o ∈ orders db /\ order_pk o <> order_id) /\
  (forall s, s ∈ seats db' <-> s ∈ seats db /\ seat_order s <> order_id) /\
  (forall sel, sel ∈ selections db' <->
     sel ∈ selections db /\
     forall s, s ∈ seats db -> seat_order s = order_id -> seat_pk s <> sel_seat sel) /\
  tables db' = tables db /\
  Views.close_order request order_id db' = (db', inl Http404).
Proof.
  intros Hpost Horder Htable Hlog db'.
  destruct (DeleteFacts.find_order_pk _ _ _ Horder) as [_ Hpk].
  set (db1 := Audit.logged request (Audit.closed_text order table) db).
  assert (Hsame : orders db1 = orders db /\ seats db1 = seats db /\
                  selections db1 = selections db /\ tables db1 = tables db).
  { unfold db1, Audit.logged. by destruct (staff_id_truthy request). }
  destruct Hsame as [Ho [Hs [Hsel Ht]]].
  assert (Hrun : Views.close_order request order_id db
    = (fst (ORM.delete_order order db1),
       inr (More.flashed (RedirectRoomTables (table_room table)) info OrderClosed))).
  { unfold Views.close_order, require_POST. rewrite Hpost.
    unfold Views.close_order_func.
    rewrite (Run.bind_ok _ _ _ _ _ (Run.get_404_found _ _ _ _ Horder)).
    cbv beta.
    rewrite (Run.bind_ok _ _ _ _ _
               (DeleteFacts.close_log_run request db order table Htable Hlog)).
    fold db1.
    assert (Htable1 : ORM.find_table (order_table order) db1 = Some table)
      by (unfold ORM.find_table; by rewrite Ht).
    unfold Views.table_of.
    rewrite (Run.bind_ok _ _ _ _ _ (Run.objects_get_found _ _ _ _ Htable1)).
    done. }
  assert (Hdb' : db' = fst (ORM.delete_order order db1))
    by (unfold db', Spec.store_after; by rewrite Hrun).
  assert (Hfind : ORM.find_order order_id db' = None).
  { rewrite Hdb'. unfold ORM.find_order. simpl. rewrite Hpk.
    apply (DeleteFacts.find_none_after_filter order_pk). }
  split; [unfold Spec.outcome; by rewrite Hrun|].
  split; [done|]. split; [|split; [|split; [|split]]].
  - intros o. rewrite Hdb'. simpl. rewrite Hpk, Ho.
    apply (DeleteFacts.elem_of_filter_neq order_pk).
  - intros s. rewrite Hdb'. simpl. rewrite Hpk, Hs.
    apply (DeleteFacts.elem_of_filter_neq seat_order).
  - intros sel. rewrite Hdb'. simpl. rewrite Hpk, Hs, Hsel.
    rewrite list_elem_of_In, filter_In, <- list_elem_of_In, negb_true_iff.
    split.
    + intros [Hin Hex]. split; [done|]. intros s Hsin Hso Heq.
      apply not_true_iff_false in Hex. apply Hex, existsb_exists.
      exists s. split; [|by apply Z.eqb_eq].
      apply filter_In. split; [by apply list_elem_of_In|by apply Z.eqb_eq].
    + intros [Hin Hall]. split; [done|]. apply not_true_is_false.
      intros [s [[Hsin Hso]%filter_In Heq]]%existsb_exists.
      apply Z.eqb_eq in Hso, Heq.
      apply (Hall s); [by apply list_elem_of_In|done|done].
  - rewrite Hdb'. simpl. done.
  - unfold Views.close_order, require_POST. rewrite Hpost.
    unfold Views.close_order_func, bind, ORM.get_object_or_404.
    by rewrite Hfind.
Qed.

Lemma close_order_cascades_witness :
  let db := Sample.with_soup "a" {[1]} in
  let db' := Spec.store_after (Views.close_order (Sample.post (Some 1) []) 1) db in
  orders db' = [] /\ seats db' = [] /\ selections db' = [] /\
  tables db' = [Sample.table7] /\
  List.map action (staff_log db') = ["closed order #1 on table 7"] /\
  Views.close_order (Sample.post (Some 1) []) 1 db' = (db', inl Http404).
Proof.
  assert (Hlog : Audit.can_log (Sample.post (Some 1) [])
                   (Sample.with_soup "a" {[1]})
                   (Audit.closed_text Sample.order1 Sample.table7)).
  { intros _. split; [by exists Sample.alice|reflexivity]. }
  destruct (close_order_cascades (Sample.post (Some 1) []) 1
              (Sample.with_soup "a" {[1]}) Sample.order1 Sample.table7
              eq_refl eq_refl eq_refl Hlog) as [_ [_ [_ [_ [_ [_ Hagain]]]]]].
  do 5 (split; [reflexivity|]). exact Hagain.
Defined.

(** X4.  [remove_seat] on an existing seat deletes that seat and the
    selections on it and nothing else: the seats left are the ones with
    another key, the selections left are the ones on another seat, the
    orders are untouched.  Removing the same seat again is a 404 that
    changes nothing. *)
Theorem remove_seat_deletes_seat_and_selections
    (request : Request) (seat_id : Z) (db : DB)
    (seat : Seat) (order : Order) (table : Table) :
  method request = POST ->
  ORM.find_seat seat_id db = Some seat ->
  ORM.find_order (seat_order seat) db = Some order ->
  ORM.find_table (order_table order) db = Some table ->
  let db' := Spec.store_after (Views.remove_seat request seat_id) db in
  Spec.outcome (Views.remove_seat request seat_id) db
    = inr (More.flashed (RedirectTableDetail (table_pk table) "") info
             (SeatRemoved (label seat))) /\
  (forall s, s ∈ seats db' <-> s ∈ seats db /\ seat_pk s <> seat_id) /\
  (forall sel, sel ∈ selections db' <->
     sel ∈ selections db /\ sel_seat sel <> seat_id) /\
  orders db' = orders db /\
  Views.remove_seat request seat_id db' = (db', inl Http404).
Proof.
  intros Hpost Hseat Horder Htable db'.
  destruct (DeleteFacts.find_seat_pk _ _ _ Hseat) as [_ Hpk].
  assert (Hrun : Views.remove_seat request seat_id db
    = (fst (ORM.delete_seat seat db),
       inr (More.flashed (RedirectTableDetail (table_pk table) "") info
              (SeatRemoved (label seat))))).
  { unfold Views.remove_seat, require_POST. rewrite Hpost.
    unfold Views.remove_seat_func.
    rewrite (Run.bind_ok _ _ _ _ _ (Run.get_404_found _ _ _ _ Hseat)).
    cbv beta. unfold Views.order_of, Views.table_of.
    rewrite (Run.bind_ok _ _ _ _ _ (Run.objects_get_found _ _ _ _ Horder)).
    cbv beta.
    rewrite (Run.bind_ok _ _ _ _ _ (Run.objects_get_found _ _ _ _ Htable)).
    done. }
  assert (Hdb' : db' = fst (ORM.delete_seat seat db))
    by (unfold db', Spec.store_after; by rewrite Hrun).
  split; [unfold Spec.outcome; by rewrite Hrun|].
  split; [|split; [|split]].
  - intros s. rewrite Hdb'. simpl. rewrite Hpk.
    apply (DeleteFacts.elem_of_filter_neq seat_pk).
  - intros sel. rewrite Hdb'. simpl. rewrite Hpk.
    apply (DeleteFacts.elem_of_filter_neq sel_seat).
  - by rewrite Hdb'.
  - unfold Views.remove_seat, require_POST. rewrite Hpost.
    unfold Views.remove_seat_func, bind, ORM.get_object_or_404.
    assert (ORM.find_seat seat_id db' = None) as ->; [|done].
    rewrite Hdb'. unfold ORM.find_seat. simpl. rewrite Hpk.
    apply (DeleteFacts.find_none_after_filter seat_pk).
Qed.

Lemma remove_seat_deletes_seat_and_selections_witness :
  let db := Sample.with_soup "a" {[1]} in
  let db' := Spec.store_after (Views.remove_seat (Sample.post None []) 1) db in
  List.map label (seats db') = ["2"] /\ selections db' = [] /\
  Views.remove_seat (Sample.post None []) 1 db' = (db', inl Http404).
Proof.
  destruct (remove_seat_deletes_seat_and_selections (Sample.post None []) 1
              (Sample.with_soup "a" {[1]}) (Sample.seat 1 "1")
              Sample.order1 Sample.table7 eq_refl eq_refl eq_refl eq_refl)
    as [_ [_ [_ [_ Hagain]]]].
  do 2 (split; [reflexivity|]). exact Hagain.
Defined.

(** X5.  [remove_selection] on an existing selection deletes the
    selections with that key and nothing else; seats and orders are
    untouched.  Removing it again is a 404 that changes nothing. *)
Theorem remove_selection_deletes_only_it
    (request : Request) (selection_id : Z) (db : DB)
    (selection : SeatSelection) (seat : Seat) (order : Order) (table : Table) :
  method request = POST ->
  ORM.find_selection selection_id db = Some selection ->
  ORM.find_seat (sel_seat selection) db = Some seat ->
  ORM.find_order (seat_order seat) db = Some order ->
  ORM.find_table (order_table order) db = Some table ->
  let db' := Spec.store_after (Views.remove_selection request selection_id) db in
  Spec.outcome (Views.remove_selection request selection_id) db
    = inr (More.flashed (RedirectTableDetail (table_pk table) "") info
             SelectionRemoved) /\
  (forall sel, sel ∈ selections db' <->
     sel ∈ selections db /\ sel_pk sel <> selection_id) /\
  seats db' = seats db /\ orders db' = orders db /\
  Views.remove_selection request selection_id db' = (db', inl Http404).
Proof.
  intros Hpost Hsel Hseat Horder Htable db'.
  destruct (MoveFacts.find_selection_pk _ _ _ Hsel) as [_ Hpk].
  assert (Hrun : Views.remove_selection request selection_id db
    = (fst (ORM.delete_selection selection db),
       inr (More.flashed (RedirectTableDetail (table_pk table) "") info
              SelectionRemoved))).
  { unfold Views.remove_selection, require_POST. rewrite Hpost.
    unfold Views.remove_selection_func.
    rewrite (Run.bind_ok _ _ _ _ _ (Run.get_404_found _ _ _ _ Hsel)).
    cbv beta. unfold Views.seat_of, Views.order_of, Views.table_of.
    rewrite (Run.bind_ok _ _ _ _ _ (Run.objects_get_found _ _ _ _ Hseat)).
    cbv beta.
    rewrite (Run.bind_ok _ _ _ _ _ (Run.objects_get_found _ _ _ _ Horder)).
    cbv beta.
    rewrite (Run.bind_ok _ _ _ _ _ (Run.objects_get_found _ _ _ _ Htable)).
    done. }
  assert (Hdb' : db' = fst (ORM.delete_selection selection db))
    by (unfold db', Spec.store_after; by rewrite Hrun).
  split; [unfold Spec.outcome; by rewrite Hrun|].
  split; [|split; [|split]].
  - intros sel. rewrite Hdb'. simpl. rewrite Hpk.
    apply (DeleteFacts.elem_of_filter_neq sel_pk).
  - by rewrite Hdb'.
  - by rewrite Hdb'.
  - unfold Views.remove_selection, require_POST. rewrite Hpost.
    unfold Views.remove_selection_func, bind, ORM.get_object_or_404.
    assert (ORM.find_selection selection_id db' = None) as ->; [|done].
    rewrite Hdb'. unfold ORM.find_selection. simpl. rewrite Hpk.
    apply (DeleteFacts.find_none_after_filter sel_pk).
Qed.

Lemma remove_selection_deletes_only_it_witness :
  let db := Sample.with_soup "a" {[1]} in
  let db' := Spec.store_after (Views.remove_selection (Sample.post None []) 1) db in
  selections db' = [] /\ seats db' = seats db /\
  Views.remove_selection (Sample.post None []) 1 db' = (db', inl Http404).
Proof.
  destruct (remove_selection_deletes_only_it (Sample.post None []) 1
              (Sample.with_soup "a" {[1]})
              {| sel_pk := 1; sel_seat := 1; sel_item := 1; notes := "a";
                 modifiers := {[1]}; temperatures := ∅; created_at := 101 |}
              (Sample.seat 1 "1") Sample.order1 Sample.table7
              eq_refl eq_refl eq_refl eq_refl eq_refl)
    as [_ [_ [Hseats [_ Hagain]]]].
  split; [reflexivity|]. split; [exact Hseats|exact Hagain].
Defined.

(** ** Requests with missing or malformed values *)

(** X6.  [move_selection] changes nothing when it cannot move: a missing
    or empty [selection_id] or [target_seat_id] is answered with the 400
    JSON error; an id of plain text that is no integer literal raises
    [ValueError]; a selection or a target seat that does not exist, under a
    key within 64 bits, is a 404. *)
Theorem move_selection_refusals (request : Request) (db : DB) :
  method request = POST ->
  let sel_id := qd_get "selection_id" (POST_data request) in
  let target_seat_id := qd_get "target_seat_id" (POST_data request) in
  (Py.truthy (default "" sel_id) = false \/
   Py.truthy (default "" target_seat_id) = false ->
   Views.move_selection request db = (db, inr (More.bare JsonError400))) /\
  (forall raw_sel raw_seat,
     sel_id = Some raw_sel -> target_seat_id = Some raw_seat ->
     Py.truthy raw_sel = true -> Py.truthy raw_seat = true ->
     Py.plain raw_sel = true -> Py.plain raw_seat = true ->
     (Py.int raw_sel = None ->
      Views.move_selection request db = (db, inl ValueError)) /\
     (forall sid, Py.int raw_sel = Some sid ->
        (Text.in_int64 sid = true -> ORM.find_selection sid db = None ->
         Views.move_selection request db = (db, inl Http404)) /\
        (forall selection, ORM.find_selection sid db = Some selection ->
           (Py.int raw_seat = None ->
            Views.move_selection request db = (db, inl ValueError)) /\
           (forall tid, Py.int raw_seat = Some tid ->
              Text.in_int64 tid = true -> ORM.find_seat tid db = None ->
              Views.move_selection request db = (db, inl Http404))))).
Proof.
  intros Hpost sel_id target_seat_id.
  unfold Views.move_selection, require_POST. rewrite Hpost.
  unfold Views.move_selection_func. fold sel_id target_seat_id. split.
  - intros [H|H]; rewrite H; [done|]. by rewrite orb_true_r.
  - intros raw_sel raw_seat -> -> Ts Tt _ _. simpl. rewrite Ts, Tt. simpl.
    unfold ORM.get_object_or_404_raw. split.
    + intros Hi. rewrite Hi. done.
    + intros sid Hi. rewrite Hi. split.
      * intros _ Hnone. unfold bind, or_raise, ret, ORM.get_object_or_404.
        by rewrite Hnone.
      * intros selection Hsel.
        rewrite (Run.bind_ok _ _ db db selection)
          by (simpl; unfold bind; simpl; by apply Run.get_404_found).
        split.
        -- intros Hj. rewrite Hj. done.
        -- intros tid Hj _ Hnone. rewrite Hj.
           unfold bind, or_raise, ret, ORM.get_object_or_404.
           by rewrite Hnone.
Qed.

Lemma move_selection_refusals_witness :
  Views.move_selection (Sample.post None [("selection_id", "1")])
    (Sample.with_soup "a" {[1]})
  = (Sample.with_soup "a" {[1]}, inr (More.bare JsonError400)) /\
  Views.move_selection
    (Sample.post None [("selection_id", "1"); ("target_seat_id", "9")])
    (Sample.with_soup "a" {[1]})
  = (Sample.with_soup "a" {[1]}, inl Http404).
Proof.
  split.
  - exact (proj1 (move_selection_refusals
                    (Sample.post None [("selection_id", "1")])
                    (Sample.with_soup "a" {[1]}) eq_refl) (or_intror eq_refl)).
  - destruct (move_selection_refusals
                (Sample.post None [("selection_id", "1"); ("target_seat_id", "9")])
                (Sample.with_soup "a" {[1]}) eq_refl) as [_ H].
    destruct (H "1" "9" eq_refl eq_refl eq_refl eq_refl eq_refl eq_refl)
      as [_ H1].
    destruct (H1 1 eq_refl) as [_ H2].
    destruct (H2 _ eq_refl) as [_ H3].
    exact (H3 9 eq_refl eq_refl eq_refl).
Defined.

(** X7.  [start_order] by a logged-in staff member on an existing table
    changes nothing when its input, of plain text, cannot be read: a seat
    count that is no integer literal raises [ValueError]; with both
    [my_start] and [my_end] posted and one of them no integer literal, the
    caller is sent back to the table with the message that the seat range
    is invalid. *)
Theorem start_order_unreadable_input
    (request : Request) (table_id : Z) (db : DB)
    (table : Table) (member : StaffMember) :
  staff_id_truthy request = true ->
  ORM.find_table table_id db = Some table ->
  ORM.find_staff (default 0 (session_staff_id request)) db = Some member ->
  Text.plain_data (POST_data request) = true ->
  (forall raw, qd_get "seat_count" (POST_data request) = Some raw ->
     Py.int raw = None ->
     Views.start_order request table_id db = (db, inl ValueError)) /\
  (forall n s e,
     Spec.seat_count_posted request n ->
     qd_get "my_start" (POST_data request) = Some s ->
     qd_get "my_end" (POST_data request) = Some e ->
     Py.int s = None \/ Py.int e = None ->
     Views.start_order request table_id db
     = (db, inr (More.flashed (RedirectTableDetail (table_pk table) "")
                   error InvalidSeatRange))).
Proof.
  intros Hstaff Htable Hmember _.
  split.
  - intros raw Hraw Hbad.
    unfold Views.start_order, staff_required. rewrite Hstaff.
    unfold Views.start_order_func.
    rewrite (Run.bind_ok _ _ _ _ _ (Run.get_404_found _ _ _ _ Htable)).
    cbv beta. rewrite Hstaff. change (negb true) with false. cbv iota.
    rewrite (Run.bind_ok _ _ _ _ _ (Run.objects_get_found _ _ _ _ Hmember)).
    cbv beta zeta. rewrite Hraw, Hbad. done.
  - intros n s e Hcount Hs He Hbad.
    unfold Views.start_order, staff_required. rewrite Hstaff.
    unfold Views.start_order_func.
    rewrite (Run.bind_ok _ _ _ _ _ (Run.get_404_found _ _ _ _ Htable)).
    cbv beta. rewrite Hstaff. change (negb true) with false. cbv iota.
    rewrite (Run.bind_ok _ _ _ _ _ (Run.objects_get_found _ _ _ _ Hmember)).
    cbv beta zeta. unfold Spec.seat_count_posted in Hcount.
    assert (Hc : (match qd_get "seat_count" (POST_data request) with
                  | Some raw => or_raise ValueError (Py.int raw)
                  | None => ret 12
                  end) db = (db, inr n)).
    { destruct (qd_get "seat_count" (POST_data request)).
      - by rewrite Hcount.
      - by subst. }
    rewrite (Run.bind_ok _ _ _ _ _ Hc). rewrite Hs, He.
    destruct Hbad as [-> | Hbad]; [done|].
    rewrite Hbad. by destruct (Py.int s).
Qed.

Lemma start_order_unreadable_input_witness :
  Views.start_order
    (Sample.post (Some 1) [("my_start", "two"); ("my_end", "4")]) 1 Sample.idle
  = (Sample.idle,
     inr (More.flashed (RedirectTableDetail 1 "") error InvalidSeatRange)).
Proof.
  exact (proj2 (start_order_unreadable_input
                  (Sample.post (Some 1) [("my_start", "two"); ("my_end", "4")])
                  1 Sample.idle Sample.table7 Sample.alice
                  eq_refl eq_refl eq_refl eq_refl)
           12 "two" "4" eq_refl eq_refl eq_refl (or_introl eq_refl)).
Defined.


(** ** The order in which seats are shown *)

Module SortFacts.
Import ORM Spec TableContext Display.

Lemma ascii_compare_refl a : Ascii.compare a a = Eq.
Proof. unfold Ascii.compare. apply N.compare_refl. Qed.

Lemma ascii_lt_trans a b c :
  Ascii.compare a b = Lt -> Ascii.compare b c = Lt -> Ascii.compare a c = Lt.
Proof.
  unfold Ascii.compare. rewrite !N.compare_lt_iff. lia.
Qed.

Lemma string_compare_refl s : String.compare s s = Eq.
Proof.
  induction s as [|a s IH]; [done|]. simpl. by rewrite ascii_compare_refl.
Qed.

Lemma string_lt_trans s1 : forall s2 s3,
  String.compare s1 s2 = Lt -> String.compare s2 s3 = Lt ->
  String.compare s1 s3 = Lt.
Proof.
  induction s1 as [|a s1 IH]; intros [|b s2] [|c s3]; simpl; try done.
  destruct (Ascii.compare a b) eqn:Eab; [|intros _|done];
    destruct (Ascii.compare b c) eqn:Ebc; try done.
  - apply Ascii.compare_eq_iff in Eab, Ebc. subst.
    rewrite ascii_compare_refl. apply IH.
  - apply Ascii.compare_eq_iff in Eab. subst. by rewrite Ebc.
  - apply Ascii.compare_eq_iff in Ebc. subst. by rewrite Eab.
  - intros _. by rewrite (ascii_lt_trans a b c).
Qed.

Lemma string_leb_iff s1 s2 :
  String.leb s1 s2 = true <-> String.compare s1 s2 = Lt \/ s1 = s2.
Proof.
  unfold String.leb. destruct (String.compare s1 s2) eqn:E.
  - apply String.compare_eq_iff in E. tauto.
  - tauto.
  - split; [done|]. intros [?| ->]; [done|].
    by rewrite string_compare_refl in E.
Qed.

Lemma string_leb_trans s1 s2 s3 :
  String.leb s1 s2 = true -> String.leb s2 s3 = true -> String.leb s1 s3 = true.
Proof.
  rewrite !string_leb_iff. intros [H1| ->] [H2| ->]; try tauto.
  left. by apply (string_lt_trans s1 s2 s3).
Qed.

Lemma key_le_total k1 k2 : key_le k1 k2 = true \/ key_le k2 k1 = true.
Proof.
  destruct k1 as [a|a], k2 as [b|b]; simpl; try tauto.
  - destruct (Z.leb_spec a b), (Z.leb_spec b a); try tauto. lia.
  - apply String.leb_total.
Qed.

Lemma key_le_trans k1 k2 k3 :
  key_le k1 k2 = true -> key_le k2 k3 = true -> key_le k1 k3 = true.
Proof.
  destruct k1 as [a|a], k2 as [b|b], k3 as [c|c]; simpl; try done.
  - rewrite !Z.leb_le. lia.
  - apply string_leb_trans.
Qed.

Section Insertion.
Context {A : Type} (le : A -> A -> bool).
Hypothesis le_total : forall x y, le x y = true \/ le y x = true.

Let R (x y : A) : Prop := le x y = true.

Lemma insert_sorted_hd x y l :
  R y x -> HdRel R y l -> HdRel R y (insert_sorted le x l).
Proof.
  intros Hyx Hl. destruct l as [|z l]; simpl; [by constructor|].
  destruct (le x z); constructor; [done|by inversion Hl].
Qed.

Lemma insert_sorted_sorted x l :
  Sorted R l -> Sorted R (insert_sorted le x l).
Proof.
  induction 1 as [|y l Hs IH Hhd]; simpl; [by repeat constructor|].
  destruct (le x y) eqn:E.
  - constructor; [by constructor|by constructor].
  - constructor; [done|]. apply insert_sorted_hd; [|done].
    destruct (le_total x y) as [H|H]; [congruence|done].
Qed.

Lemma stable_sort_sorted l : Sorted R (stable_sort le l).
Proof.
  induction l as [|x l IH]; simpl; [constructor|].
  by apply insert_sorted_sorted.
Qed.

End Insertion.

Lemma seat_before_labels s1 s2 :
  seat_before s1 s2 <-> label_before (label s1) (label s2).
Proof.
  unfold seat_before, label_before, _seat_sort_key.
  destruct (Py.isdigit (label s1)) eqn:D1, (Py.isdigit (label s2)) eqn:D2;
    simpl; try tauto.
  - destruct (PyFacts.isdigit_int _ D1) as [n1 [H1 _]].
    destruct (PyFacts.isdigit_int _ D2) as [n2 [H2 _]].
    rewrite H1, H2. simpl. rewrite Z.leb_le. split.
    + intros. by exists n1, n2.
    + intros [m1 [m2 [[= <-] [[= <-] ?]]]]. done.
  - split; [done|by intros []].
Qed.

Lemma query_range_none request :
  query_range request = None <-> no_range request.
Proof.
  unfold query_range, no_range.
  destruct (qd_get "my_start" (GET_data request)) as [s|],
           (qd_get "my_end" (GET_data request)) as [e|]; try tauto.
  destruct (Py.isdigit s) eqn:Ds, (Py.isdigit e) eqn:De.
  - assert (Py.truthy s = true) as -> by by destruct s.
    assert (Py.truthy e = true) as -> by by destruct e.
    simpl. destruct (_ <? _); split; (done || by intros [|]).
  - rewrite !andb_false_r. tauto.
  - rewrite andb_false_r. simpl. tauto.
  - rewrite !andb_false_r. tauto.
Qed.

End SortFacts.

(** X8.  The seats of a table are shown sorted by their sort key, for
    every request with a query string of plain text on an order with seat
    labels of plain text: each seat stands before all the seats after it
    in the sense that numeric labels come in the order of their values and
    before every label that is not numeric, and the labels that are not
    numeric come in the order of their characters. *)
Theorem visible_seats_sorted (request : Request) (order : Order) (db : DB) :
  Text.plain_data (GET_data request) = true ->
  Text.plain_labels order db = true ->
  StronglySorted Display.seat_before
    (TableContext.visible_seats request (Some order) db) /\
  forall s1 s2 : Seat,
    Py.plain (label s1) = true -> Py.plain (label s2) = true ->
    (Display.seat_before s1 s2 <-> Display.label_before (label s1) (label s2)).
Proof.
  intros _ _.
  split; [|intros s1 s2 _ _; apply SortFacts.seat_before_labels].
  unfold TableContext.visible_seats.
  apply Sorted_StronglySorted.
  - intros s1 s2 s3. unfold Display.seat_before. apply SortFacts.key_le_trans.
  - apply (SortFacts.stable_sort_sorted
             (fun s1 s2 => TableContext.key_le (TableContext._seat_sort_key s1)
                                               (TableContext._seat_sort_key s2))).
    intros s1 s2. apply SortFacts.key_le_total.
Qed.

(** X9.  Without a range in the query string (an end missing, or one that
    is no digit string, a negative number for one) every seat of the open
    order is shown, numeric or not, each as often as it is stored, and
    the context carries no range; query string and seat labels are plain
    text. *)
Theorem visible_seats_without_range
    (request : Request) (table : Table) (order : Order) (db : DB) :
  Text.plain_data (GET_data request) = true ->
  Text.plain_labels order db = true ->
  Display.no_range request ->
  ORM.first_open_order table db = Some order ->
  let context := TableContext._build_table_context request table db in
  TableContext.ctx_seats context ≡ₚ ORM.order_seats order db /\
  TableContext.ctx_my_start context = None /\
  TableContext.ctx_my_end context = None.
Proof.
  intros _ _ Hnone Horder context.
  apply SortFacts.query_range_none in Hnone.
  unfold context, TableContext._build_table_context.
  rewrite Horder, Hnone. simpl. split; [|done].
  unfold TableContext.visible_seats. rewrite Hnone.
  rewrite TableContextFacts.stable_sort_perm.
  apply TableContextFacts.stable_sort_perm.
Qed.

Lemma visible_seats_without_range_witness :
  List.map label
    (TableContext.ctx_seats
       (TableContext._build_table_context
          (Sample.get [("my_start", "-1"); ("my_end", "2")]) Sample.table7
          (Sample.seated ["10"; "2"; "A"; "1"])))
  = ["1"; "2"; "10"; "A"] /\
  TableContext.ctx_seats
    (TableContext._build_table_context
       (Sample.get [("my_start", "-1"); ("my_end", "2")]) Sample.table7
       (Sample.seated ["10"; "2"; "A"; "1"]))
  ≡ₚ ORM.order_seats Sample.order1 (Sample.seated ["10"; "2"; "A"; "1"]).
Proof.
  split; [reflexivity|].
  exact (proj1 (visible_seats_without_range
                  (Sample.get [("my_start", "-1"); ("my_end", "2")])
                  Sample.table7 Sample.order1
                  (Sample.seated ["10"; "2"; "A"; "1"])
                  eq_refl eq_refl (or_introl eq_refl) eq_refl)).
Defined.

(** The seats 10, 2, A, b and 1, shown for the range 1 to 10. *)
Lemma visible_seats_sorted_witness :
  StronglySorted Display.seat_before
    (TableContext.visible_seats
       (Sample.get [("my_start", "1"); ("my_end", "10")]) (Some Sample.order1)
       (Sample.seated ["10"; "2"; "A"; "b"; "1"])) /\
  List.map label
    (TableContext.visible_seats (Sample.get []) (Some Sample.order1)
       (Sample.seated ["10"; "2"; "A"; "b"; "1"]))
  = ["1"; "2"; "10"; "A"; "b"].
Proof.
  split; [|reflexivity].
  exact (proj1 (visible_seats_sorted
                  (Sample.get [("my_start", "1"); ("my_end", "10")])
                  Sample.order1 (Sample.seated ["10"; "2"; "A"; "b"; "1"])
                  eq_refl eq_refl)).
Defined.


(** ** Writes that stay when a later step fails *)

Module PartialFacts.
Import ORM Spec Run RunMore.

Lemma mapM_int_bad raws db :
  Exists (fun raw => Py.int raw = None) raws ->
  mapM (fun s => or_raise ValueError (Py.int s)) raws db = (db, inl ValueError).
Proof.
  induction raws as [|raw raws IH]; [by intros ?%Exists_nil|].
  intros [Hbad|Hbad]%Exists_cons; simpl; unfold bind at 1.
  - by rewrite Hbad.
  - destruct (Py.int raw); [|done]. simpl. unfold bind at 1. by rewrite IH.
Qed.

Lemma modifiers_step_bad (sel : SeatSelection) raws db :
  Exists (fun raw => Py.int raw = None) raws ->
  (match raws with
   | [] => ret tt
   | _ => db <- get_db ;;
          mods <- filter_pk_in (modifier_pks db) raws ;;
          modifiers_add sel mods
   end) db = (db, inl ValueError).
Proof.
  intros Hbad. destruct raws as [|raw raws]; [by apply Exists_nil in Hbad|].
  unfold get_db at 1. unfold bind at 1. unfold filter_pk_in.
  by rewrite (bind_exn _ _ _ _ _
                (bind_exn _ _ _ _ _ (mapM_int_bad _ db Hbad))).
Qed.

End PartialFacts.

(** X10.  [add_selection] runs in no transaction: when a posted modifier
    id is no integer literal, the view raises [ValueError] after the
    selection has been written.  A selection that did not exist has been
    created, with its notes and without modifiers; on an existing one the
    new notes have been appended.  Posted values and stored notes are
    plain text. *)
Theorem add_selection_bad_modifier_keeps_write
    (request : Request) (db : DB) (raw_seat raw_item : string)
    (seat : Seat) (item : MenuItem) (seat_id item_id : Z) :
  method request = POST ->
  qd_get "seat_id" (POST_data request) = Some raw_seat ->
  Py.int raw_seat = Some seat_id -> ORM.find_seat seat_id db = Some seat ->
  qd_get "item_id" (POST_data request) = Some raw_item ->
  Py.int raw_item = Some item_id -> ORM.find_item item_id db = Some item ->
  Exists (fun raw => Py.int raw = None)
    (qd_getlist "modifier_ids" (POST_data request)) ->
  Text.plain_data (POST_data request) = true ->
  NoDup (List.map sel_pk (selections db)) ->
  let new_notes := Py.strip (default "" (qd_get "notes" (POST_data request))) in
  let db' := Spec.store_after (Views.add_selection request) db in
  (Spec.matching seat item db = [] ->
   ORM.varchar_ok db 200 new_notes = true ->
   Spec.outcome (Views.add_selection request) db = inl ValueError /\
   selections db' = selections db ++
     [ {| sel_pk := next_selection_pk db; sel_seat := seat_pk seat;
          sel_item := item_pk item; notes := new_notes;
          modifiers := ∅; temperatures := ∅; created_at := now request |} ]) /\
  (forall selection,
     Spec.matching seat item db = [selection] ->
     Py.plain (notes selection) = true ->
     ORM.varchar_ok db 200 (Spec.appended (notes selection) new_notes) = true ->
     Spec.outcome (Views.add_selection request) db = inl ValueError /\
     selections db' =
       List.map (Notes.with_notes (sel_pk selection)
                   (Spec.appended (notes selection) new_notes))
         (selections db)).
Proof.
  intros Hpost Hseat Iseat Fseat Hitem Iitem Fitem Hbad _ Hnd new_notes db'.
  assert (Hhead : forall k : Seat -> MenuItem -> M Reply,
    (seat <- ORM.get_object_or_404_raw ORM.find_seat (Some raw_seat) ;;
     item <- ORM.get_object_or_404_raw ORM.find_item (Some raw_item) ;;
     k seat item) db = k seat item db).
  { intros k.
    rewrite (Run.bind_ok _ _ _ _ _
               (SelectionRun.get_raw_found _ _ _ _ _ Iseat Fseat)).
    by rewrite (Run.bind_ok _ _ _ _ _
               (SelectionRun.get_raw_found _ _ _ _ _ Iitem Fitem)). }
  split.
  - intros Hnone Hfit.
    set (row := {| sel_pk := next_selection_pk db; sel_seat := seat_pk seat;
                   sel_item := item_pk item; notes := new_notes;
                   modifiers := ∅; temperatures := ∅;
                   created_at := now request |}).
    set (db1 := bump_selection_pk (set_selections (fun l => l ++ [row]) db)).
    assert (Hrun : Views.add_selection request db = (db1, inl ValueError)).
    { unfold Views.add_selection, require_POST. rewrite Hpost.
      unfold Views.add_selection_func. rewrite Hseat, Hitem. cbv zeta.
      rewrite Hhead. fold new_notes.
      assert (Hget : ORM.get_or_create_selection seat item new_notes
                       (now request) db = (db1, inr (row, true))).
      { unfold ORM.get_or_create_selection.
        unfold Spec.matching in Hnone. rewrite Hnone. by rewrite Hfit. }
      rewrite (Run.bind_ok _ _ _ _ _ Hget). cbv beta zeta.
      simpl fst. simpl snd. simpl negb. simpl andb. cbv iota.
      unfold bind at 1. unfold ret at 1.
      by rewrite (Run.bind_exn _ _ _ _ _
                    (PartialFacts.modifiers_step_bad row _ db1 Hbad)). }
    unfold db', Spec.outcome, Spec.store_after. by rewrite Hrun.
  - intros selection Hone _ Hfit.
    assert (Hin : selection ∈ Spec.matching seat item db)
      by (rewrite Hone; apply list_elem_of_here).
    apply SelectionRun.matching_elem in Hin as [Hin _].
    set (db1 := set_selections
           (List.map (Notes.with_notes (sel_pk selection)
                        (Spec.appended (notes selection) new_notes))) db).
    assert (Hrun : Views.add_selection request db = (db1, inl ValueError)).
    { unfold Views.add_selection, require_POST. rewrite Hpost.
      unfold Views.add_selection_func. rewrite Hseat, Hitem. cbv zeta.
      rewrite Hhead. fold new_notes.
      assert (Hget : ORM.get_or_create_selection seat item new_notes
                       (now request) db = (db, inr (selection, false))).
      { unfold ORM.get_or_create_selection.
        unfold Spec.matching in Hone. by rewrite Hone. }
      rewrite (Run.bind_ok _ _ _ _ _ Hget). cbv beta zeta.
      simpl fst. simpl snd. simpl negb. simpl andb.
      assert (Hsave :
        (if Py.truthy new_notes then
           ORM.save_selection
             {| sel_pk := sel_pk selection; sel_seat := sel_seat selection;
                sel_item := sel_item selection;
                notes := Py.strip (notes selection +:+ "
" +:+ new_notes);
                modifiers := modifiers selection;
                temperatures := temperatures selection;
                created_at := created_at selection |}
         else ret tt) db = (db1, inr tt)).
      { unfold Spec.appended in Hfit. unfold db1, Notes.with_notes, Spec.appended.
        destruct (Py.truthy new_notes).
        - unfold ORM.save_selection. simpl. rewrite Hfit. simpl.
          unfold set_selections. do 2 f_equal. apply map_ext_in. intros r Hr.
          destruct (Z.eqb_spec (sel_pk r) (sel_pk selection)) as [E|]; [|done].
          assert (r = selection) as ->.
          { apply (MoveFacts.same_pk_same_row (selections db)); try done.
            by apply list_elem_of_In. }
          reflexivity.
        - unfold ret. f_equal. symmetry. apply SelectionRun.set_selections_id.
          intros r Hr.
          destruct (Z.eqb_spec (sel_pk r) (sel_pk selection)) as [E|]; [|done].
          assert (r = selection) as ->.
          { apply (MoveFacts.same_pk_same_row (selections db)); try done.
            by apply list_elem_of_In. }
          by destruct selection. }
      rewrite (Run.bind_ok _ _ _ _ _ Hsave).
      by rewrite (Run.bind_exn _ _ _ _ _
                    (PartialFacts.modifiers_step_bad selection _ db1 Hbad)). }
    unfold db', Spec.outcome, Spec.store_after. by rewrite Hrun.
Qed.

Lemma add_selection_bad_modifier_keeps_write_witness :
  let request := Sample.post (Some 1)
                   [("seat_id", "2"); ("item_id", "1"); ("notes", "hot");
                    ("modifier_ids", "x")] in
  let db := Sample.with_soup "a" {[1]} in
  Spec.outcome (Views.add_selection request) db = inl ValueError /\
  List.map (fun s => (sel_pk s, sel_seat s, notes s))
    (selections (Spec.store_after (Views.add_selection request) db))
  = [(1, 1, "a"); (2, 2, "hot")].
Proof.
  assert (Hbad : Exists (fun raw => Py.int raw = None)
            (qd_getlist "modifier_ids"
               (POST_data (Sample.post (Some 1)
                  [("seat_id", "2"); ("item_id", "1"); ("notes", "hot");
                   ("modifier_ids", "x")])))).
  { apply Exists_cons_hd. reflexivity. }
  assert (Hnd : NoDup (List.map sel_pk (selections (Sample.with_soup "a" {[1]})))).
  { apply (bool_decide_unpack _). vm_compute. exact I. }
  destruct (add_selection_bad_modifier_keeps_write
              (Sample.post (Some 1)
                 [("seat_id", "2"); ("item_id", "1"); ("notes", "hot");
                  ("modifier_ids", "x")])
              (Sample.with_soup "a" {[1]}) "2" "1"
              (Sample.seat 2 "2") Sample.soup 2 1
              eq_refl eq_refl eq_refl eq_refl eq_refl eq_refl eq_refl
              Hbad eq_refl Hnd) as [Hnew _].
  destruct (Hnew eq_refl eq_refl) as [Hout Hsel].
  split; [exact Hout|]. rewrite Hsel. reflexivity.
Defined.


(** ** What the views leave alone *)

Module FrameFacts.
Import ORM Spec Run RunMore Keep Frame.

Lemma static_create_log v staff_id act at_ :
  preserves (is_static v) (create_log staff_id act at_).
Proof. apply preserves_create_log. by intros db f. Qed.

Lemma static_modify v (f : DB -> DB) :
  (forall db, static_of (f db) = static_of db) -> preserves (is_static v) (modify f).
Proof. intros Hf db Hdb. unfold store_after, modify, is_static. simpl. by rewrite Hf. Qed.

Lemma static_insert_seat v s : preserves (is_static v) (insert_seat s).
Proof.
  intros db Hdb. unfold store_after, insert_seat.
  destruct (negb _); [done|]. by destruct (label_taken _ _ _).
Qed.

Lemma static_bulk_create v objs : preserves (is_static v) (bulk_create objs).
Proof.
  unfold bulk_create. apply preserves_atomic, preserves_mapM.
  apply static_insert_seat.
Qed.

Lemma static_create_order v table member at_ :
  preserves (is_static v) (create_order table member at_).
Proof. by intros db Hdb. Qed.

Lemma static_delete_order v order : preserves (is_static v) (delete_order order).
Proof. by apply static_modify. Qed.
Lemma static_delete_seat v seat : preserves (is_static v) (delete_seat seat).
Proof. by apply static_modify. Qed.
Lemma static_delete_selection v sel :
  preserves (is_static v) (delete_selection sel).
Proof. by apply static_modify. Qed.
Lemma static_modifiers_add v sel mods :
  preserves (is_static v) (modifiers_add sel mods).
Proof. by apply static_modify. Qed.
Lemma static_temperatures_add v sel temps :
  preserves (is_static v) (temperatures_add sel temps).
Proof. by apply static_modify. Qed.

Lemma static_save_selection v sel : preserves (is_static v) (save_selection sel).
Proof.
  intros db Hdb. unfold store_after, save_selection. by destruct (negb _).
Qed.

Lemma static_get_or_create v seat item n at_ :
  preserves (is_static v) (get_or_create_selection seat item n at_).
Proof.
  intros db Hdb. unfold store_after, get_or_create_selection.
  destruct (List.filter _ _) as [|s [|s' l]]; [|done|done].
  by destruct (negb _).
Qed.

Lemma pure_filter_pk_in existing raws : pure (filter_pk_in existing raws).
Proof.
  unfold filter_pk_in. apply pure_bind; [|intros; apply pure_ret].
  induction raws as [|raw raws IH]; simpl; [apply pure_ret|].
  apply pure_bind; [apply pure_or_raise|]. intros n.
  apply pure_bind; [apply IH|]. intros ns. apply pure_ret.
Qed.

End FrameFacts.

#[global] Hint Resolve FrameFacts.static_create_log FrameFacts.static_insert_seat
  FrameFacts.static_bulk_create FrameFacts.static_create_order
  FrameFacts.static_delete_order FrameFacts.static_delete_seat
  FrameFacts.static_delete_selection FrameFacts.static_modifiers_add
  FrameFacts.static_temperatures_add FrameFacts.static_save_selection
  FrameFacts.static_get_or_create FrameFacts.pure_filter_pk_in : keep.

Module FrameViews.
Import ORM Spec Run RunMore Keep Frame.

Lemma static_start_order v request table_id :
  preserves (is_static v) (Views.start_order request table_id).
Proof.
  unfold Views.start_order, staff_required, Views.start_order_func. keep_walk.
Qed.

Lemma static_join_order v request table_id :
  preserves (is_static v) (Views.join_order request table_id).
Proof.
  unfold Views.join_order, require_POST, Views.join_order_func. keep_walk.
Qed.

Lemma static_close_order v request order_id :
  preserves (is_static v) (Views.close_order request order_id).
Proof.
  unfold Views.close_order, require_POST, Views.close_order_func. keep_walk.
Qed.

Lemma static_add_seat v request order_id :
  preserves (is_static v) (Views.add_seat request order_id).
Proof.
  unfold Views.add_seat, require_POST, Views.add_seat_func, ORM.create_seat.
  keep_walk.
Qed.

Lemma static_remove_seat v request seat_id :
  preserves (is_static v) (Views.remove_seat request seat_id).
Proof.
  unfold Views.remove_seat, require_POST, Views.remove_seat_func. keep_walk.
Qed.

Lemma static_add_selection v request :
  preserves (is_static v) (Views.add_selection request).
Proof.
  unfold Views.add_selection, require_POST, Views.add_selection_func.
  keep_walk.
Qed.

Lemma static_remove_selection v request selection_id :
  preserves (is_static v) (Views.remove_selection request selection_id).
Proof.
  unfold Views.remove_selection, require_POST, Views.remove_selection_func.
  keep_walk.
Qed.

Lemma static_move_selection v request :
  preserves (is_static v) (Views.move_selection request).
Proof.
  unfold Views.move_selection, require_POST, Views.move_selection_func.
  keep_walk.
Qed.

(** The storage setting after a view is the one before. *)
Lemma strict_after (view : M Reply) db :
  (forall v, preserves (is_static v) view) ->
  strict_varchar (store_after view db) = strict_varchar db /\
  tables (store_after view db) = tables db /\
  staff (store_after view db) = staff db.
Proof.
  intros H. specialize (H (static_of db) db eq_refl).
  unfold is_static, static_of in H. by injection H as -> -> -> _ _ _.
Qed.

End FrameViews.

(** X11.  None of the eight write views ever changes the reference data:
    for every request and store, whether the view returns or raises, the
    tables, staff members, menu items, modifiers and temperatures (and the
    storage setting) are afterwards what they were. *)
Theorem views_keep_reference_data :
  (forall table_id,
     Frame.keeps_static (fun request => Views.start_order request table_id)) /\
  (forall table_id,
     Frame.keeps_static (fun request => Views.join_order request table_id)) /\
  (forall order_id,
     Frame.keeps_static (fun request => Views.close_order request order_id)) /\
  (forall order_id,
     Frame.keeps_static (fun request => Views.add_seat request order_id)) /\
  (forall seat_id,
     Frame.keeps_static (fun request => Views.remove_seat request seat_id)) /\
  Frame.keeps_static Views.add_selection /\
  (forall selection_id,
     Frame.keeps_static
       (fun request => Views.remove_selection request selection_id)) /\
  Frame.keeps_static Views.move_selection.
Proof.
  assert (Hwalk : forall view : Request -> M Reply,
    (forall request v, Spec.preserves (Frame.is_static v) (view request)) ->
    Frame.keeps_static view).
  { intros view H request db. by apply (H request (Frame.static_of db) db). }
  repeat split; intros; apply Hwalk; intros request v.
  - apply FrameViews.static_start_order.
  - apply FrameViews.static_join_order.
  - apply FrameViews.static_close_order.
  - apply FrameViews.static_add_seat.
  - apply FrameViews.static_remove_seat.
  - apply FrameViews.static_add_selection.
  - apply FrameViews.static_remove_selection.
  - apply FrameViews.static_move_selection.
Qed.

(** ** Operations one after the other *)

Module ComposeFacts.
Import ORM Spec Run RunMore.

Lemma find_map_same_pk (f : SeatSelection -> SeatSelection) l pk :
  (forall row, sel_pk (f row) = sel_pk row) ->
  List.find (fun s => sel_pk s =? pk) (List.map f l)
  = option_map f (List.find (fun s => sel_pk s =? pk) l).
Proof.
  intros Hf. induction l as [|x l IH]; [done|]. simpl. rewrite Hf.
  by destruct (sel_pk x =? pk).
Qed.

Lemma moved_to_pk target row : sel_pk (moved_to target row) = sel_pk row.
Proof. done. Qed.

(** What [move_selection] does to the order, seat and selection tables. *)
Lemma move_selection_data
    (request : Request) (db : DB) (raw_sel raw_seat : string)
    (selection : SeatSelection) (target_seat : Seat) (sid tid : Z) :
  method request = POST ->
  qd_get "selection_id" (POST_data request) = Some raw_sel ->
  qd_get "target_seat_id" (POST_data request) = Some raw_seat ->
  Py.int raw_sel = Some sid -> Py.int raw_seat = Some tid ->
  ORM.find_selection sid db = Some selection ->
  ORM.find_seat tid db = Some target_seat ->
  NoDup (List.map sel_pk (selections db)) ->
  ORM.varchar_ok db 200 (notes selection) = true ->
  let db' := Spec.store_after (Views.move_selection request) db in
  selections db' =
    List.map (fun row => if sel_pk row =? sid
                         then Spec.moved_to (seat_pk target_seat) row
                         else row) (selections db) /\
  seats db' = seats db /\ orders db' = orders db.
Proof.
  intros Hpost Hs Ht Is It Fs Ft Hnd Hfit db'.
  destruct (MoveFacts.find_selection_pk _ _ _ Fs) as [Hin Hpk].
  set (db1 := set_selections
         (List.map (fun row => if sel_pk row =? sid
                               then Spec.moved_to (seat_pk target_seat) row
                               else row)) db).
  assert (Hdata : Spec.data_of db' = Spec.data_of db1).
  { subst db'. unfold Spec.store_after, Views.move_selection, require_POST.
    rewrite Hpost. unfold Views.move_selection_func. rewrite Hs, Ht. simpl.
    rewrite (MoveFacts.int_truthy _ _ Is), (MoveFacts.int_truthy _ _ It). simpl.
    unfold ORM.get_object_or_404_raw.
    rewrite Is, It.
    rewrite (Run.bind_ok _ _ db db selection)
      by (simpl; unfold bind; simpl; by apply Run.get_404_found).
    rewrite (Run.bind_ok _ _ db db target_seat)
      by (simpl; unfold bind; simpl; by apply Run.get_404_found).
    assert (Hsave : ORM.save_selection
              {| sel_pk := sel_pk selection; sel_seat := seat_pk target_seat;
                 sel_item := sel_item selection; notes := notes selection;
                 modifiers := modifiers selection;
                 temperatures := temperatures selection;
                 created_at := created_at selection |} db = (db1, inr tt)).
    { unfold ORM.save_selection. simpl. rewrite Hfit. simpl.
      unfold db1, set_selections. do 2 f_equal.
      apply map_ext_in. intros row Hrow. rewrite Hpk.
      destruct (Z.eqb_spec (sel_pk row) sid) as [E|]; [|done].
      assert (row = selection) as ->.
      { apply (MoveFacts.same_pk_same_row (selections db)); try done.
        - by apply list_elem_of_In.
        - congruence. }
      done. }
    rewrite (Run.bind_ok _ _ _ _ _ Hsave).
    assert (Hk : Spec.preserves (fun d => Spec.data_of d = Spec.data_of db1)
      ((if staff_id_truthy request then
          item <- ORM.objects_get ORM.find_item (sel_item selection) ;;
          order <- Views.order_of target_seat ;;
          table <- Views.table_of order ;;
          ORM.create_log (default 0 (session_staff_id request))
            ("moved selection #" +:+ Py.str (sel_pk selection) +:+
             " (item " +:+ item_name item +:+ ") to seat #" +:+ label target_seat +:+
             " on table " +:+ Py.str (table_number table))
            (now request)
        else ret tt) ;;; ret {| response := JsonOk; flash := [] |})).
    { keep_walk. }
    by apply Hk. }
  unfold Spec.data_of in Hdata. by injection Hdata as -> -> ->.
Qed.

End ComposeFacts.




Module SeatRun.
Import ORM Spec Run RunMore Known.

(** The store after [add_seat] on an existing order. *)
Lemma add_seat_run request order_id db order :
  method request = POST ->
  find_order order_id db = Some order ->
  varchar_ok db 10 (auto_label order db) = true ->
  store_after (Views.add_seat request order_id) db
  = bump_seat_pk (set_seats (fun l => l ++
      [ {| seat_pk := next_seat_pk db; seat_order := order_pk order;
           label := auto_label order db; assigned_to := None |} ]) db).
Proof.
  intros Hpost Hfind Hfit. unfold store_after, Views.add_seat, require_POST.
  rewrite Hpost. unfold Views.add_seat_func.
  rewrite (bind_ok _ _ _ _ _ (get_404_found _ _ _ _ Hfind)).
  unfold get_db at 1. unfold bind at 1.
  rewrite (bind_ok _ _ _ _ _ (numeric_labels_run _ db)).
  eapply tail_pure.
  - apply insert_seat_ok; [exact Hfit|apply auto_label_free].
  - apply pure_bind; [apply pure_table_of|]. intros. apply pure_reply.
Qed.

(** [remove_seat] on an existing seat. *)
Lemma remove_seat_run request seat_id db seat order table :
  method request = POST ->
  find_seat seat_id db = Some seat ->
  find_order (seat_order seat) db = Some order ->
  find_table (order_table order) db = Some table ->
  Views.remove_seat request seat_id db
  = (fst (delete_seat seat db),
     inr (More.flashed (RedirectTableDetail (table_pk table) "") info
            (SeatRemoved (label seat)))).
Proof.
  intros Hpost Hseat Horder Htable.
  unfold Views.remove_seat, require_POST. rewrite Hpost.
  unfold Views.remove_seat_func.
  rewrite (bind_ok _ _ _ _ _ (get_404_found _ _ _ _ Hseat)).
  cbv beta. unfold Views.order_of, Views.table_of.
  rewrite (bind_ok _ _ _ _ _ (objects_get_found _ _ _ _ Horder)).
  cbv beta.
  by rewrite (bind_ok _ _ _ _ _ (objects_get_found _ _ _ _ Htable)).
Qed.

Lemma filter_keeps_all {A} (p : A -> bool) l :
  (forall x, In x l -> p x = true) -> List.filter p l = l.
Proof.
  induction l as [|x l IH]; [done|]. intros H. simpl.
  rewrite (H x (or_introl eq_refl)). f_equal. apply IH. intros y Hy.
  apply H. by right.
Qed.

Lemma find_app_last {A} (p : A -> bool) l x :
  (forall y, In y l -> p y = false) -> p x = true ->
  List.find p (l ++ [x]) = Some x.
Proof.
  intros Hl Hx. induction l as [|y l IH]; simpl; [by rewrite Hx|].
  rewrite (Hl y (or_introl eq_refl)). apply IH. intros z Hz. apply Hl. by right.
Qed.

End SeatRun.

(** X13.  On an order whose seat labels are plain text, a seat added by
    [add_seat] and removed again by [remove_seat] leaves the seats,
    selections and orders as they were; only the key counter has moved on.
    The label is therefore free again: the next [add_seat] gives the same
    label under a new key. *)
Theorem add_seat_then_remove_restores
    (adding removing : Request) (order_id : Z) (db : DB)
    (order : Order) (table : Table) :
  method adding = POST -> method removing = POST ->
  ORM.find_order order_id db = Some order ->
  ORM.find_table (order_table order) db = Some table ->
  Text.plain_labels order db = true ->
  ORM.varchar_ok db 10 (Known.auto_label order db) = true ->
  Known.seat_pks_known db = true ->
  Known.selection_seats_known db = true ->
  let db1 := Spec.store_after (Views.add_seat adding order_id) db in
  let db2 := Spec.store_after (Views.remove_seat removing (next_seat_pk db)) db1 in
  let db3 := Spec.store_after (Views.add_seat adding order_id) db2 in
  seats db2 = seats db /\ selections db2 = selections db /\
  orders db2 = orders db /\
  seats db3 = seats db ++
    [ {| seat_pk := next_seat_pk db + 1; seat_order := order_pk order;
         label := Known.auto_label order db; assigned_to := None |} ].
Proof.
  intros Pa Pr Horder Htable _ Hfit Hseats Hsels db1 db2 db3.
  destruct (DeleteFacts.find_order_pk _ _ _ Horder) as [_ Hpk].
  set (new := {| seat_pk := next_seat_pk db; seat_order := order_pk order;
                 label := Known.auto_label order db; assigned_to := None |}).
  assert (H1 : db1 = bump_seat_pk (set_seats (fun l => l ++ [new]) db))
    by (apply SeatRun.add_seat_run; done).
  unfold Known.seat_pks_known in Hseats. rewrite forallb_forall in Hseats.
  unfold Known.selection_seats_known in Hsels. rewrite forallb_forall in Hsels.
  assert (Fnew : ORM.find_seat (next_seat_pk db) db1 = Some new).
  { rewrite H1. unfold ORM.find_seat. simpl. apply SeatRun.find_app_last.
    - intros y Hy. specialize (Hseats y Hy). apply Z.ltb_lt in Hseats.
      apply Z.eqb_neq. lia.
    - simpl. apply Z.eqb_refl. }
  assert (Fo1 : ORM.find_order (seat_order new) db1 = Some order)
    by (rewrite H1; simpl; by rewrite Hpk).
  assert (Ft1 : ORM.find_table (order_table order) db1 = Some table)
    by (by rewrite H1).
  assert (H2 : db2 = fst (ORM.delete_seat new db1)).
  { unfold db2, Spec.store_after.
    by rewrite (SeatRun.remove_seat_run removing _ db1 new order table). }
  assert (Hs2 : seats db2 = seats db).
  { rewrite H2, H1. simpl. rewrite List.filter_app. simpl.
    rewrite Z.eqb_refl. simpl.
    rewrite app_nil_r. apply SeatRun.filter_keeps_all. intros y Hy.
    specialize (Hseats y Hy). apply Z.ltb_lt in Hseats.
    apply negb_true_iff, Z.eqb_neq. lia. }
  assert (Hsel2 : selections db2 = selections db).
  { rewrite H2, H1. simpl. apply SeatRun.filter_keeps_all. intros y Hy.
    specialize (Hsels y Hy). apply Z.ltb_lt in Hsels.
    apply negb_true_iff, Z.eqb_neq. lia. }
  assert (Ho2 : orders db2 = orders db) by (by rewrite H2, H1).
  split; [done|]. split; [done|]. split; [done|].
  assert (Hlabel : Known.auto_label order db2 = Known.auto_label order db).
  { unfold Known.auto_label, Spec.numeric_seat_labels, ORM.order_seats.
    by rewrite Hs2. }
  assert (H3 : db3 = bump_seat_pk (set_seats (fun l => l ++
            [ {| seat_pk := next_seat_pk db2; seat_order := order_pk order;
                 label := Known.auto_label order db2; assigned_to := None |} ])
            db2)).
  { apply SeatRun.add_seat_run; [done| |].
    - unfold ORM.find_order. rewrite Ho2. exact Horder.
    - rewrite Hlabel. unfold ORM.varchar_ok in *.
      assert (strict_varchar db2 = strict_varchar db) as ->; [|done].
      by rewrite H2, H1. }
  rewrite H3. simpl. rewrite Hs2, Hlabel. do 3 f_equal.
  by rewrite H2, H1.
Qed.

Lemma add_seat_then_remove_restores_witness :
  let db := Sample.seated ["1"; "3"; "5"] in
  let db1 := Spec.store_after (Views.add_seat (Sample.post None []) 1) db in
  let db2 := Spec.store_after (Views.remove_seat (Sample.post None []) 4) db1 in
  let db3 := Spec.store_after (Views.add_seat (Sample.post None []) 1) db2 in
  seats db2 = seats db /\
  List.map (fun s => (seat_pk s, label s)) (seats db3)
  = [(1, "1"); (2, "3"); (3, "5"); (5, "6")].
Proof.
  destruct (add_seat_then_remove_restores
              (Sample.post None []) (Sample.post None []) 1
              (Sample.seated ["1"; "3"; "5"]) Sample.order1 Sample.table7
              eq_refl eq_refl eq_refl eq_refl eq_refl eq_refl eq_refl eq_refl)
    as [Hseats [_ [_ Hagain]]].
  split; [exact Hseats|].
  etransitivity; [apply (f_equal (List.map _)); exact Hagain|reflexivity].
Defined.


Module StartRun.
Import ORM Spec Run RunMore SeatFacts Known Counters.

Lemma log_blind_working v : log_blind (fun db => working_of db = v).
Proof. by intros db f. Qed.

Lemma start_tail_working request table member created v :
  preserves (fun db => working_of db = v) (start_tail request table member created).
Proof.
  unfold start_tail. pose proof (log_blind_working v). keep_walk.
Qed.

(** The working tables after a [start_order] whose seats the storage
    accepts. *)
Lemma start_order_working request table_id db table member n lo hi :
  staff_id_truthy request = true ->
  find_table table_id db = Some table ->
  find_staff (default 0 (session_staff_id request)) db = Some member ->
  seat_orders_known db = true ->
  seat_count_posted request n ->
  start_range request n lo hi ->
  (forall i, lo <= i <= hi -> varchar_ok db 10 (Py.str i) = true) ->
  working_of (store_after (Views.start_order request table_id) db)
  = (orders db ++ [opened_order request table member db],
     seats db ++ range_rows (next_seat_pk db) (next_order_pk db) None lo hi,
     selections db, next_order_pk db + 1,
     next_seat_pk db + Z.max 0 (hi + 1 - lo)).
Proof.
  intros Hstaff Htable Hmember Hknown Hcount Hrange Hfit.
  unfold store_after.
  rewrite (StartFacts.start_order_run _ _ _ _ _ _ _ _
             Hstaff Htable Hmember Hcount Hrange).
  set (o := opened_order request table member db).
  set (db1 := bump_order_pk (set_orders (fun l => l ++ [o]) db)).
  set (objs := Views.seats_in_range o None lo hi).
  assert (Hbulk : bulk_create objs db1
    = (with_new_seats objs db1, inr (new_rows (next_seat_pk db1) objs))).
  { apply bulk_create_ok.
    - intros s [i [Hi ->]]%elem_of_seats_in_range. simpl.
      unfold varchar_ok. simpl. by apply Hfit.
    - apply NoDup_seats_in_range.
    - intros s [i [Hi ->]]%elem_of_seats_in_range. simpl.
      apply not_true_is_false. intros [r [Hr [Ho _]]]%label_taken_true.
      simpl in Hr. pose proof (seat_orders_known_spec db r Hknown Hr). lia. }
  assert (Hblock : start_block request table member lo hi db
    = (with_new_seats objs db1, inr (o, objs))).
  { unfold start_block, atomic.
    rewrite (bind_ok _ _ _ _ _ (StartFacts.create_order_run request table member db)).
    fold o db1 objs. by rewrite (bind_ok _ _ _ _ _ Hbulk). }
  rewrite (bind_ok _ _ _ _ _ Hblock).
  pose proof (start_tail_working request table member (o, objs) _
                (with_new_seats objs db1) eq_refl) as Ht.
  unfold store_after in Ht. rewrite Ht.
  unfold working_of. simpl. unfold objs.
  by rewrite new_rows_range, len_seats_in_range.
Qed.

Lemma filter_app_second {A} (p : A -> bool) l1 l2 :
  (forall x, In x l1 -> p x = false) -> (forall x, In x l2 -> p x = true) ->
  List.filter p (l1 ++ l2) = l2.
Proof.
  intros H1 H2. rewrite List.filter_app.
  rewrite (SeatRun.filter_keeps_all p l2 H2).
  assert (List.filter p l1 = []) as ->; [|done].
  induction l1 as [|x l1 IH]; [done|]. simpl.
  rewrite (H1 x (or_introl eq_refl)). apply IH. intros y Hy. apply H1. by right.
Qed.

Lemma numeric_of_strs l :
  (forall i, i ∈ l -> 0 <= i) -> numeric_of (List.map Py.str l) = l.
Proof.
  induction l as [|i l IH]; [done|]. intros H. unfold numeric_of. simpl.
  rewrite (PyFacts.isdigit_str i) by (apply H, list_elem_of_here).
  rewrite PyFacts.int_str. simpl. f_equal. apply IH. intros j Hj.
  apply H. by apply list_elem_of_further.
Qed.

Lemma max_of_range lo hi :
  lo <= hi -> Views.max_default0 (Py.range lo (hi + 1)) = hi.
Proof.
  intros Hle.
  destruct (max_default0_spec (Py.range lo (hi + 1))) as [Hge [_ Hin]].
  assert (Hhi : hi ∈ Py.range lo (hi + 1)) by (apply PyFacts.elem_of_range; lia).
  specialize (Hge hi Hhi).
  assert (Hne : Py.range lo (hi + 1) <> []).
  { intros E. rewrite E in Hhi. by apply elem_of_nil in Hhi. }
  specialize (Hin Hne). apply PyFacts.elem_of_range in Hin. lia.
Qed.

End StartRun.




(** ** [join_order] and the unbound name *)

Module JoinPure.
Import ORM Spec.

(** [join_order] only reads: what would write lies behind the unbound
    name. *)
Lemma pure_join_order request table_id : pure (Views.join_order request table_id).
Proof.
  intros db. unfold Views.join_order, require_POST.
  destruct (method request); [done|].
  unfold Views.join_order_func, bind, get_object_or_404, get_db, reply, ret,
    objects_get, Views.existing_numeric_labels, raise.
  destruct (find_table table_id db) as [table|]; [|done]. simpl.
  destruct (first_open_order table db) as [order|]; [|done].
  destruct (StartOrderForm.is_valid (POST_data request)) as [cleaned|]; [|done].
  destruct (staff_id_truthy request).
  - destruct (find_staff _ db) as [m|]; simpl; [|done].
    by destruct (StartOrderForm.my_seat_start cleaned),
                (StartOrderForm.my_seat_end cleaned).
  - by destruct (StartOrderForm.my_seat_start cleaned),
                (StartOrderForm.my_seat_end cleaned).
Qed.

End JoinPure.

(** X15.  [join_order] never adds a seat.  For every request it ends with
    the store it found; and with a valid form of posted values of plain
    text, on a table with an open order and once the staff member of the
    session is resolved, it raises [NameError], with or without a range,
    where the seats would be computed. *)
Theorem join_order_never_adds_seats
    (request : Request) (table_id : Z) (db : DB) :
  Spec.store_after (Views.join_order request table_id) db = db /\
  forall table order cleaned who,
    method request = POST ->
    ORM.find_table table_id db = Some table ->
    ORM.first_open_order table db = Some order ->
    Text.plain_data (POST_data request) = true ->
    StartOrderForm.is_valid (POST_data request) = Some cleaned ->
    Spec.acting_staff request db who ->
    Spec.outcome (Views.join_order request table_id) db = inl NameError.
Proof.
  split; [apply JoinPure.pure_join_order|].
  intros table order cleaned who Hpost Htable Horder _ Hv Hwho.
  unfold Spec.outcome.
  by rewrite (JoinRun.join_order_run request table_id db table order cleaned who).
Qed.

Lemma join_order_never_adds_seats_witness :
  Spec.outcome
    (Views.join_order (Sample.post None [("seat_count", "6")]) 1)
    (Sample.seated ["1"; "2"])
  = inl NameError.
Proof.
  assert (Hv : exists cleaned,
            StartOrderForm.is_valid
              (POST_data (Sample.post None [("seat_count", "6")]))
            = Some cleaned) by (eexists; vm_compute; reflexivity).
  destruct Hv as [cleaned Hv].
  exact (proj2 (join_order_never_adds_seats
                  (Sample.post None [("seat_count", "6")]) 1
                  (Sample.seated ["1"; "2"]))
           Sample.table7 Sample.order1 cleaned None
           eq_refl eq_refl eq_refl eq_refl Hv eq_refl).
Defined.


(** ** The open order of a table *)

Module OpenFacts.
Import ORM Spec Open.

Lemma newer_cases o1 o2 :
  (newer o1 o2 = o1 /\ opened_at o2 <= opened_at o1) \/
  (newer o1 o2 = o2 /\ opened_at o1 < opened_at o2).
Proof. unfold newer. destruct (Z.ltb_spec (opened_at o1) (opened_at o2)); auto. Qed.

Lemma fold_newer l : forall o,
  let r := fold_left newer l o in
  (r = o \/ In r l) /\ opened_at o <= opened_at r /\
  forall o', In o' l -> opened_at o' <= opened_at r.
Proof.
  induction l as [|x l IH]; intros o; simpl; [by auto with zarith|].
  destruct (IH (newer o x)) as [Hin [Hge Hall]].
  destruct (newer_cases o x) as [[E Hle]|[E Hlt]]; rewrite E in *.
  - split; [tauto|]. split; [done|]. intros o' [<-|Ho']; [lia|by apply Hall].
  - split; [destruct Hin as [->|?]; auto|]. split; [lia|].
    intros o' [<-|Ho']; [done|by apply Hall].
Qed.

Lemma open_filter table db o :
  In o (List.filter (fun o => (order_table o =? table_pk table) && negb (printed o))
          (orders db)) <-> o ∈ orders db /\ open_on table o.
Proof.
  rewrite filter_In, andb_true_iff, Z.eqb_eq, negb_true_iff, list_elem_of_In.
  done.
Qed.

Lemma first_open_none table db :
  first_open_order table db = None <->
  forall o, o ∈ orders db -> ~ open_on table o.
Proof.
  unfold first_open_order. pose proof (open_filter table db) as Hf.
  destruct (List.filter _ (orders db)) as [|x l] eqn:E.
  - split; [|done]. intros _ o Ho Hopen.
    by apply (proj2 (Hf o) (conj Ho Hopen)).
  - split; [done|]. intros H. destruct (proj1 (Hf x) (or_introl eq_refl)).
    by destruct (H x).
Qed.

Lemma first_open_some table db o :
  first_open_order table db = Some o ->
  o ∈ orders db /\ open_on table o /\
  forall o', o' ∈ orders db -> open_on table o' -> opened_at o' <= opened_at o.
Proof.
  unfold first_open_order. pose proof (open_filter table db) as Hf.
  destruct (List.filter _ (orders db)) as [|x l] eqn:E; [done|].
  intros [= <-].
  destruct (fold_newer l x) as [Hin [Hge Hall]].
  assert (Hr : In (fold_left newer l x) (x :: l))
    by (destruct Hin as [->|?]; [by left|by right]).
  apply Hf in Hr as [Hr Hopen]. split; [done|]. split; [done|].
  intros o' Ho' Hopen'.
  destruct (proj2 (Hf o') (conj Ho' Hopen')) as [<-|Hl]; [done|].
  by apply Hall.
Qed.

End OpenFacts.

(** X16.  The open order of a table is its newest one: [first_open_order]
    finds nothing exactly when no order of the table has [printed] false,
    and otherwise finds an order of the table with [printed] false that
    was opened no earlier than every other such order. *)
Theorem first_open_order_is_newest (table : Table) (db : DB) :
  (ORM.first_open_order table db = None <->
   forall o, o ∈ orders db -> ~ Open.open_on table o) /\
  (forall o, ORM.first_open_order table db = Some o ->
     o ∈ orders db /\ Open.open_on table o /\
     forall o', o' ∈ orders db -> Open.open_on table o' ->
                opened_at o' <= opened_at o).
Proof.
  split; [apply OpenFacts.first_open_none|apply OpenFacts.first_open_some].
Qed.




(** ** The admin action on orders *)

Module AdminFacts.
Import ORM Spec Open OrderAdmin.

Lemma filter_closed table (queryset : QuerySet) :
  forall l : list Order,
  (forall o, In o l -> order_table o = table_pk table -> printed o = false ->
             queryset o = true) ->
  List.filter (fun o => (order_table o =? table_pk table) && negb (printed o))
    (List.map (fun o => if queryset o then close o else o) l) = [].
Proof.
  induction l as [|o l IH]; intros Hsel; [done|]. simpl.
  rewrite IH by (intros o' Ho'; apply Hsel; by right).
  destruct (queryset o) eqn:Hq; simpl.
  - by rewrite andb_false_r.
  - destruct (Z.eqb_spec (order_table o) (table_pk table)) as [Ht|]; [|done].
    destruct (printed o) eqn:Hp; [done|].
    rewrite (Hsel o (or_introl eq_refl) Ht Hp) in Hq. done.
Qed.

Lemma map_pk_closed (queryset : QuerySet) (l : list Order) :
  List.map order_pk (List.map (fun o => if queryset o then close o else o) l)
  = List.map order_pk l.
Proof.
  rewrite List.map_map. apply map_ext. intros o. by destruct (queryset o).
Qed.

Lemma join_order_no_open request table_id table db :
  method request = POST ->
  find_table table_id db = Some table ->
  first_open_order table db = None ->
  Views.join_order request table_id db
  = (db, inr (More.flashed (RedirectStartOrder (table_pk table)) info NoOrderYet)).
Proof.
  intros Hpost Htable Hnone. unfold Views.join_order, require_POST.
  rewrite Hpost. unfold Views.join_order_func.
  rewrite (Run.bind_ok _ _ _ _ _ (Run.get_404_found _ _ _ _ Htable)).
  cbv beta. unfold get_db at 1. unfold bind at 1. by rewrite Hnone.
Qed.

End AdminFacts.

(** X18.  The admin action [mark_as_closed] closes without deleting: it
    reports how many orders the queryset selects, keeps every order row, every
    seat and every selection, and when the queryset holds all the open orders
    of a table, the table has no open order any more, so that [join_order]
    sends the tablet to [start_order]. *)
Theorem mark_as_closed_keeps_rows
    (queryset : OrderAdmin.QuerySet) (request : Request) (table_id : Z)
    (table : Table) (db : DB) :
  method request = POST ->
  ORM.find_table table_id db = Some table ->
  (forall o, o ∈ orders db -> Open.open_on table o -> queryset o = true) ->
  let db' := Spec.store_after (OrderAdmin.mark_as_closed queryset) db in
  Spec.outcome (OrderAdmin.mark_as_closed queryset) db
  = inr (Py.str (Views.len (List.filter queryset (orders db)))
         +:+ " order(s) marked as closed.") /\
  List.map order_pk (orders db') = List.map order_pk (orders db) /\
  seats db' = seats db /\ selections db' = selections db /\
  ORM.first_open_order table db' = None /\
  Views.join_order request table_id db'
  = (db', inr (More.flashed (RedirectStartOrder (table_pk table)) info NoOrderYet)).
Proof.
  intros Hpost Htable Hsel db'.
  assert (Hnone : ORM.first_open_order table db' = None).
  { unfold ORM.first_open_order. subst db'. cbn.
    rewrite AdminFacts.filter_closed; [done|].
    intros o Ho Ht Hp. apply Hsel; [by apply list_elem_of_In|done]. }
  split; [done|]. split; [apply AdminFacts.map_pk_closed|].
  split; [done|]. split; [done|]. split; [done|].
  by apply AdminFacts.join_order_no_open.
Qed.

Lemma mark_as_closed_keeps_rows_witness :
  let db := Sample.with_soup "" ∅ in
  let m := OrderAdmin.mark_as_closed (fun o => order_pk o =? 1) in
  Spec.outcome m db = inr "1 order(s) marked as closed." /\
  List.length (seats (Spec.store_after m db)) = 2%nat /\
  List.length (selections (Spec.store_after m db)) = 1%nat /\
  snd (Views.join_order (Sample.post None []) 1 (Spec.store_after m db))
  = inr (More.flashed (RedirectStartOrder 1) info NoOrderYet).
Proof.
  assert (Hsel : forall o, o ∈ orders (Sample.with_soup "" ∅) ->
            Open.open_on Sample.table7 o -> (order_pk o =? 1) = true).
  { intros o Ho _. apply list_elem_of_In in Ho. destruct Ho as [<-|[]].
    reflexivity. }
  destruct (mark_as_closed_keeps_rows (fun o => order_pk o =? 1)
              (Sample.post None []) 1 Sample.table7 (Sample.with_soup "" ∅)
              eq_refl eq_refl Hsel) as (Hout & _ & _ & _ & _ & Hjoin).
  split; [exact Hout|]. split; [reflexivity|]. split; [reflexivity|].
  etransitivity; [apply (f_equal snd); exact Hjoin|reflexivity].
Defined.

(** ** The seat formset *)

Module FormSetFacts.
Import BaseSeatFormSet.

Lemma existsb_eqb (x : string) (l : list string) :
  existsb (String.eqb x) l = true <-> In x l.
Proof.
  rewrite existsb_exists. split.
  - intros [y [Hy E]]. apply String.eqb_eq in E. by subst.
  - intros H. exists x. by rewrite String.eqb_refl.
Qed.

(** The loop passes exactly when the labels that count are new and distinct;
    it then returns them after the labels it started from. *)
Lemma clean_loop_ok can_delete forms : forall labels out,
  NoDup labels ->
  clean_loop can_delete forms labels = inr out <->
  out = labels ++ kept_labels can_delete forms /\
  NoDup (labels ++ kept_labels can_delete forms).
Proof.
  induction forms as [|form rest IH]; intros labels out Hnd; simpl.
  - rewrite app_nil_r. split; [intros [= <-]; done|intros [-> _]; done].
  - destruct (can_delete && should_delete form); [by apply IH|].
    destruct (cleaned_label form) as [label|]; [|by apply IH].
    destruct (label =? "")%string; [by apply IH|]. simpl.
    destruct (existsb (String.eqb label) labels) eqn:E.
    + apply existsb_eqb in E. split; [done|]. intros [_ Hnd'].
      apply NoDup_app in Hnd' as (_ & Hdis & _).
      destruct (Hdis label); [by apply list_elem_of_In|by left].
    + assert (Hnew : ~ In label labels)
        by (intros Hin; apply existsb_eqb in Hin; congruence).
      rewrite IH.
      * by rewrite <- app_assoc.
      * apply NoDup_app. split; [done|]. split; [|apply NoDup_singleton].
        intros x Hx Hx'. apply list_elem_of_In in Hx.
        apply list_elem_of_singleton in Hx'. by subst.
Qed.

(** The loop fails on the first label that was seen before. *)
Lemma clean_loop_fails can_delete forms : forall labels e,
  clean_loop can_delete forms labels = inl e ->
  exists label before after,
    e = DuplicateSeatLabel label /\
    kept_labels can_delete forms = before ++ label :: after /\
    In label (labels ++ before).
Proof.
  induction forms as [|form rest IH]; intros labels e; simpl; [done|].
  destruct (can_delete && should_delete form); [by apply IH|].
  destruct (cleaned_label form) as [label|]; [|by apply IH].
  destruct (label =? "")%string; [by apply IH|]. simpl.
  destruct (existsb (String.eqb label) labels) eqn:E.
  - intros [= <-]. apply existsb_eqb in E. exists label, [], (kept_labels can_delete rest).
    by rewrite app_nil_r.
  - intros H. destruct (IH _ _ H) as (l & before & after & -> & Hk & Hin).
    exists l, (label :: before), after. rewrite Hk.
    split; [done|]. split; [done|]. by rewrite <- app_assoc in Hin.
Qed.

End FormSetFacts.

(** X19.  [BaseSeatFormSet.clean] passes exactly when the inherited check
    passes and the labels that count (of the forms not marked for deletion,
    given and not empty) are pairwise distinct.  Its own error names a
    label that occurs again after an earlier occurrence. *)
Theorem BaseSeatFormSet_clean_iff
    (super_clean : BaseSeatFormSet.ValidationError + unit) (can_delete : bool)
    (forms : list BaseSeatFormSet.SeatForm) :
  (BaseSeatFormSet.clean super_clean can_delete forms = inr tt <->
   super_clean = inr tt /\
   NoDup (BaseSeatFormSet.kept_labels can_delete forms)) /\
  (forall e, super_clean = inr tt ->
     BaseSeatFormSet.clean super_clean can_delete forms = inl e ->
     exists label before after,
       e = BaseSeatFormSet.DuplicateSeatLabel label /\
       BaseSeatFormSet.kept_labels can_delete forms = before ++ label :: after /\
       In label before).
Proof.
  unfold BaseSeatFormSet.clean. split.
  - destruct super_clean as [e|[]]; [split; [done|by intros [? _]]|].
    pose proof (FormSetFacts.clean_loop_ok can_delete forms [] ) as H.
    destruct (BaseSeatFormSet.clean_loop can_delete forms []) as [e|out] eqn:E.
    + split; [done|]. intros [_ Hnd].
      specialize (H (BaseSeatFormSet.kept_labels can_delete forms) (NoDup_nil_2)).
      simpl in H. discriminate (proj2 H (conj eq_refl Hnd)).
    + split; [|done]. intros _. split; [done|].
      by apply (H out (NoDup_nil_2)).
  - intros e ->.
    destruct (BaseSeatFormSet.clean_loop can_delete forms []) as [e'|out] eqn:E;
      [|done].
    intros [= <-]. by apply FormSetFacts.clean_loop_fails in E.
Qed.


(** ** The menu import *)

Module ImportFacts.
Import MenuItemAdmin Imported.

(** Two rows of a table without repeated values of a column that agree on it are
    the same row. *)
Lemma same_name_same_row {A B} (f : A -> B) (l : list A) (x y : A) :
  NoDup (List.map f l) -> In x l -> In y l -> f x = f y -> x = y.
Proof.
  induction l as [|a l IH]; [done|]. simpl. intros Hnd.
  apply NoDup_cons in Hnd as [Ha Hnd].
  intros [->|Hx] [->|Hy] E; [done| | |by apply IH].
  - destruct Ha. rewrite E. apply list_elem_of_In. by apply in_map.
  - destruct Ha. rewrite <- E. apply list_elem_of_In. by apply in_map.
Qed.

Section Lookup.
Context {A : Type} (f : A -> string).

Lemma filter_absent (k : string) (l : list A) :
  ~ In k (List.map f l) -> List.filter (fun x => (f x =? k)%string) l = [].
Proof.
  induction l as [|a l IH]; [done|]. simpl. intros H.
  destruct (String.eqb_spec (f a) k) as [E|_]; [destruct H; by left|].
  apply IH. intros Hin. apply H. by right.
Qed.

Lemma filter_find (k : string) (l : list A) :
  NoDup (List.map f l) ->
  List.filter (fun x => (f x =? k)%string) l
  = match List.find (fun x => (f x =? k)%string) l with
    | Some x => [x]
    | None => []
    end.
Proof.
  induction l as [|a l IH]; [done|]. simpl. intros Hnd.
  apply NoDup_cons in Hnd as [Ha Hnd].
  destruct (String.eqb_spec (f a) k) as [E|_]; [|by apply IH].
  f_equal. apply filter_absent. rewrite <- E. intros H. apply Ha.
  by apply list_elem_of_In.
Qed.

Lemma find_named (k : string) (l : list A) (x : A) :
  List.find (fun x => (f x =? k)%string) l = Some x -> In x l /\ f x = k.
Proof.
  intros H. apply find_some in H as [H E]. by apply String.eqb_eq in E.
Qed.

Lemma find_none_iff (k : string) (l : list A) :
  List.find (fun x => (f x =? k)%string) l = None <-> ~ In k (List.map f l).
Proof.
  induction l as [|a l IH]; simpl; [tauto|].
  destruct (String.eqb_spec (f a) k) as [E|E]; [split; [done|tauto]|].
  rewrite IH. tauto.
Qed.

Lemma find_some_iff (k : string) (l : list A) :
  List.find (fun x => (f x =? k)%string) l <> None <-> In k (List.map f l).
Proof.
  rewrite find_none_iff. split; [|tauto].
  intros H. destruct (in_dec string_dec k (List.map f l)); tauto.
Qed.

Lemma find_app_found (k : string) (l more : list A) (x : A) :
  List.find (fun x => (f x =? k)%string) l = Some x ->
  List.find (fun x => (f x =? k)%string) (l ++ more) = Some x.
Proof.
  induction l as [|a l IH]; [done|]. simpl.
  by destruct (f a =? k)%string.
Qed.

Lemma find_app_new (k : string) (l : list A) (x : A) :
  List.find (fun x => (f x =? k)%string) l = None -> f x = k ->
  List.find (fun x => (f x =? k)%string) (l ++ [x]) = Some x.
Proof.
  induction l as [|a l IH]; simpl.
  - intros _ ->. by rewrite String.eqb_refl.
  - destruct (f a =? k)%string; [done|apply IH].
Qed.

End Lookup.

Lemma with_course_same co r :
  menu_course r = course_pk co -> with_course co r = r.
Proof. destruct r. unfold with_course. simpl. by intros ->. Qed.

Lemma retarget_name n co r : menu_name (retarget n co r) = menu_name r.
Proof. unfold retarget. by destruct (menu_name r =? n)%string. Qed.

Lemma retarget_pk n co r : menu_pk (retarget n co r) = menu_pk r.
Proof. unfold retarget. by destruct (menu_name r =? n)%string. Qed.

Lemma map_retarget_names n co l :
  List.map menu_name (List.map (retarget n co) l) = List.map menu_name l.
Proof.
  rewrite List.map_map. apply map_ext. intros r. apply retarget_name.
Qed.

Lemma map_retarget_pks n co l :
  List.map menu_pk (List.map (retarget n co) l) = List.map menu_pk l.
Proof.
  rewrite List.map_map. apply map_ext. intros r. apply retarget_pk.
Qed.

Lemma map_retarget_keys n co l :
  List.map key (List.map (retarget n co) l) = List.map key l.
Proof.
  rewrite List.map_map. apply map_ext. intros r. unfold key.
  by rewrite retarget_name, retarget_pk.
Qed.

(** Saving the row found under its primary key changes the rows of that
    name. *)
Lemma save_by_pk (l : list MenuRow) (obj : MenuRow) (co : Course) :
  NoDup (List.map menu_pk l) -> NoDup (List.map menu_name l) -> In obj l ->
  List.map (fun r => if menu_pk r =? menu_pk obj then with_course co obj else r) l
  = List.map (retarget (menu_name obj) co) l.
Proof.
  intros Hpk Hname Hobj. apply map_ext_in. intros r Hr. unfold retarget.
  destruct (Z.eqb_spec (menu_pk r) (menu_pk obj)) as [E|E].
  - assert (r = obj) as -> by (by apply (same_name_same_row menu_pk l)).
    by rewrite String.eqb_refl.
  - destruct (String.eqb_spec (menu_name r) (menu_name obj)) as [E'|]; [|done].
    destruct E. f_equal. by apply (same_name_same_row menu_name l).
Qed.

(** The lookups of [import_item] do not fail on a consistent store whose
    columns take the names. *)
Lemma import_item_step n c cat :
  consistent cat ->
  varchar_ok cat 100 n = true -> varchar_ok cat 50 c = true ->
  import_item n c cat
  = (step n c cat, inr (is_new n cat)).
Proof.
  intros (Hc & Hn & Hpk & _) Hfn Hfc.
  unfold import_item, bindC, get_or_create_course.
  rewrite (filter_find course_name c _ Hc).
  unfold step, course_for, course_named, is_new, item_named.
  destruct (List.find _ (courses cat)) as [co|] eqn:Eco.
  - unfold update_or_create. simpl. rewrite (filter_find menu_name n _ Hn).
    destruct (List.find _ (menu cat)) as [obj|] eqn:Eobj.
    + destruct (find_named menu_name _ _ _ Eobj) as [Hin <-].
      simpl. by rewrite save_by_pk.
    + by rewrite Hfn.
  - rewrite Hfc. unfold update_or_create. simpl.
    rewrite (filter_find menu_name n _ Hn).
    destruct (List.find _ (menu cat)) as [obj|] eqn:Eobj.
    + destruct (find_named menu_name _ _ _ Eobj) as [Hin <-].
      simpl. by rewrite save_by_pk.
    + unfold varchar_ok in *. simpl. by rewrite Hfn.
Qed.

Lemma step_strict n c cat : strict (step n c cat) = strict cat.
Proof. done. Qed.

Lemma step_course_names n c cat x :
  In x (List.map course_name (courses (step n c cat)))
  <-> In x (List.map course_name (courses cat)) \/ x = c.
Proof.
  unfold step. simpl. destruct (course_named c cat) as [co|] eqn:E.
  - split; [tauto|]. intros [H| ->]; [done|].
    apply (find_some_iff course_name). unfold course_named in E. by rewrite E.
  - rewrite List.map_app, in_app_iff. unfold course_for. rewrite E. simpl.
    split; intros [H|H]; auto. destruct H; [auto|done].
Qed.

Lemma step_menu_names n c cat x :
  In x (List.map menu_name (menu (step n c cat)))
  <-> In x (List.map menu_name (menu cat)) \/ x = n.
Proof.
  unfold step. simpl. destruct (item_named n cat) as [obj|] eqn:E.
  - rewrite map_retarget_names. split; [tauto|]. intros [H| ->]; [done|].
    apply (find_some_iff menu_name). unfold item_named in E. by rewrite E.
  - rewrite List.map_app, in_app_iff. simpl.
    split; intros [H|H]; auto. destruct H; [auto|done].
Qed.

Lemma step_consistent n c cat : consistent cat -> consistent (step n c cat).
Proof.
  intros (Hc & Hn & Hpk & Hlt). unfold consistent, step. simpl.
  split; [|split; [|split]].
  - destruct (course_named c cat) as [co|] eqn:E; [done|].
    rewrite List.map_app. apply NoDup_app. split; [done|].
    split; [|apply NoDup_singleton].
    intros x Hx Hx'. unfold course_for in Hx'. rewrite E in Hx'. simpl in Hx'.
    apply list_elem_of_singleton in Hx'. subst x.
    apply (find_none_iff course_name) in E. apply E. by apply list_elem_of_In.
  - destruct (item_named n cat) as [obj|] eqn:E;
      [by rewrite map_retarget_names|].
    rewrite List.map_app. apply NoDup_app. split; [done|].
    split; [|apply NoDup_singleton].
    intros x Hx Hx'. simpl in Hx'.
    apply list_elem_of_singleton in Hx'. subst x.
    apply (find_none_iff menu_name) in E. apply E. by apply list_elem_of_In.
  - destruct (item_named n cat) as [obj|] eqn:E;
      [by rewrite map_retarget_pks|].
    rewrite List.map_app. apply NoDup_app. split; [done|].
    split; [|apply NoDup_singleton].
    intros x Hx Hx'. simpl in Hx'.
    apply list_elem_of_singleton in Hx'. subst x.
    apply list_elem_of_In, in_map_iff in Hx as [r [Er Hr]].
    rewrite Forall_forall in Hlt. apply list_elem_of_In, Hlt in Hr. lia.
  - destruct (item_named n cat) as [obj|] eqn:E.
    + rewrite Forall_forall in *. intros r Hr.
      apply list_elem_of_In, in_map_iff in Hr as [r0 [<- Hr0]].
      rewrite retarget_pk. by apply Hlt, list_elem_of_In.
    + apply Forall_app. split.
      * eapply Forall_impl; [exact Hlt|]. simpl. intros; lia.
      * apply Forall_singleton. simpl. lia.
Qed.

(** A course that is there stays the one of its name. *)
Lemma step_course_kept n c cat x co :
  course_named x cat = Some co -> course_named x (step n c cat) = Some co.
Proof.
  intros H. unfold step. unfold course_named at 1. simpl.
  destruct (course_named c cat); [done|].
  by apply find_app_found.
Qed.

Lemma step_course_found n c cat :
  course_named c (step n c cat) = Some (course_for c cat).
Proof.
  unfold course_for. destruct (course_named c cat) as [co|] eqn:E.
  - by apply step_course_kept.
  - unfold step. unfold course_named at 1. simpl. rewrite E.
    unfold course_for. rewrite E. by apply (find_app_new course_name).
Qed.

(** The item of the row is filed under the course of the row. *)
Lemma step_item_found n c cat r :
  In r (menu (step n c cat)) -> menu_name r = n ->
  menu_course r = course_pk (course_for c cat).
Proof.
  unfold step. simpl. destruct (item_named n cat) as [obj|] eqn:E.
  - intros Hr Hn. apply in_map_iff in Hr as [r0 [<- Hr0]].
    rewrite retarget_name in Hn. unfold retarget. rewrite Hn.
    by rewrite String.eqb_refl.
  - intros Hr Hn. apply in_app_iff in Hr as [Hr|[<-|[]]]; [|done].
    apply (find_none_iff menu_name) in E. destruct E. rewrite <- Hn.
    by apply in_map.
Qed.

(** The items of another name are as before. *)
Lemma step_other_rows n c cat r :
  menu_name r <> n -> In r (menu (step n c cat)) <-> In r (menu cat).
Proof.
  intros Hn. unfold step. simpl. destruct (item_named n cat) as [obj|] eqn:E.
  - rewrite in_map_iff. unfold retarget. split.
    + intros [r0 [Er Hr0]].
      destruct (String.eqb_spec (menu_name r0) n) as [En|En].
      * subst r. by destruct Hn.
      * by subst.
    + intros Hr. exists r. split; [|done].
      by destruct (String.eqb_spec (menu_name r) n).
  - rewrite in_app_iff. simpl. split; [|tauto].
    intros [H|[<-|[]]]; [done|]. by destruct Hn.
Qed.

Lemma step_keys n c cat :
  exists more,
    List.map key (menu (step n c cat)) = List.map key (menu cat) ++ more /\
    Views.len (menu (step n c cat))
    = Views.len (menu cat) + (if is_new n cat then 1 else 0).
Proof.
  unfold step, Views.len, is_new. simpl.
  destruct (item_named n cat) as [obj|] eqn:E.
  - exists []. rewrite map_retarget_keys, app_nil_r, length_map. split; [done|lia].
  - eexists. rewrite List.map_app, length_app. split; [done|]. simpl. lia.
Qed.

Lemma step_courses n c cat :
  exists more, courses (step n c cat) = courses cat ++ more.
Proof.
  unfold step. simpl. destruct (course_named c cat).
  - exists []. by rewrite app_nil_r.
  - by eexists.
Qed.

(** *** The whole file *)

Lemma after_cons n c pairs cat :
  after ((n, c) :: pairs) cat = after pairs (step n c cat).
Proof. done. Qed.

Lemma import_pairs_after pairs : forall cat created updated,
  consistent cat -> fit cat pairs ->
  let k := Views.len (menu (after pairs cat)) - Views.len (menu cat) in
  import_pairs pairs created updated cat
  = (after pairs cat, inr (created + k, updated + (Views.len pairs - k))).
Proof.
  induction pairs as [|[n c] pairs IH]; intros cat created updated Hcat Hfit k.
  - subst k. simpl. unfold Views.len. simpl. do 3 f_equal; lia.
  - destruct (Hfit n c (or_introl eq_refl)) as [Hn Hc].
    assert (Hfit' : fit (step n c cat) pairs).
    { intros n' c' Hin. unfold varchar_ok. rewrite step_strict.
      apply (Hfit n' c'). by right. }
    cbn [import_pairs]. unfold bindC. rewrite import_item_step by done.
    destruct (step_keys n c cat) as (_ & _ & Hlen).
    pose proof (step_consistent n c _ Hcat) as Hcat'.
    assert (Hp : Views.len ((n, c) :: pairs) = Views.len pairs + 1)
      by (unfold Views.len; simpl length; lia).
    subst k. rewrite after_cons, Hp.
    pose proof (IH (step n c cat) (created + 1) updated Hcat' Hfit') as IH1.
    pose proof (IH (step n c cat) created (updated + 1) Hcat' Hfit') as IH2.
    cbv zeta in IH1, IH2. rewrite Hlen in IH1, IH2.
    destruct (is_new n cat).
    + rewrite IH1. f_equal. f_equal. f_equal; lia.
    + rewrite IH2. f_equal. f_equal. f_equal; lia.
Qed.

Lemma import_rows_pairs reader : forall created updated cat,
  import_rows reader created updated cat
  = import_pairs (usable reader) created updated cat.
Proof.
  induction reader as [|row reader IH]; intros created updated cat; [done|].
  simpl. destruct row as [|r0 [|r1 row]]; [apply IH|apply IH|].
  destruct ((Py.strip r0 =? "")%string || (Py.strip r1 =? "")%string);
    [apply IH|].
  simpl. unfold bindC. destruct (import_item _ _ cat) as [cat' [e|[|]]];
    [done|apply IH|apply IH].
Qed.

Lemma after_consistent pairs : forall cat,
  consistent cat -> consistent (after pairs cat).
Proof.
  induction pairs as [|[n c] pairs IH]; intros cat H; [done|].
  rewrite after_cons. by apply IH, step_consistent.
Qed.

Lemma after_course_kept pairs : forall cat x co,
  course_named x cat = Some co -> course_named x (after pairs cat) = Some co.
Proof.
  induction pairs as [|[n c] pairs IH]; intros cat x co H; [done|].
  rewrite after_cons. by apply IH, step_course_kept.
Qed.

Lemma after_courses pairs : forall cat,
  exists more, courses (after pairs cat) = courses cat ++ more.
Proof.
  induction pairs as [|[n c] pairs IH]; intros cat.
  - exists []. by rewrite app_nil_r.
  - rewrite after_cons. destruct (IH (step n c cat)) as [m1 ->].
    destruct (step_courses n c cat) as [m2 ->].
    exists (m2 ++ m1). by rewrite app_assoc.
Qed.

Lemma after_keys pairs : forall cat,
  exists more,
    List.map key (menu (after pairs cat)) = List.map key (menu cat) ++ more.
Proof.
  induction pairs as [|[n c] pairs IH]; intros cat.
  - exists []. by rewrite app_nil_r.
  - rewrite after_cons. destruct (IH (step n c cat)) as [m1 ->].
    destruct (step_keys n c cat) as (m2 & -> & _).
    exists (m2 ++ m1). by rewrite app_assoc.
Qed.

Lemma after_course_names pairs : forall cat x,
  In x (List.map course_name (courses (after pairs cat)))
  <-> In x (List.map course_name (courses cat)) \/ In x (List.map snd pairs).
Proof.
  induction pairs as [|[n c] pairs IH]; intros cat x; [simpl; tauto|].
  rewrite after_cons, IH, step_course_names. simpl. intuition.
Qed.

Lemma after_menu_names pairs : forall cat x,
  In x (List.map menu_name (menu (after pairs cat)))
  <-> In x (List.map menu_name (menu cat)) \/ In x (List.map fst pairs).
Proof.
  induction pairs as [|[n c] pairs IH]; intros cat x; [simpl; tauto|].
  rewrite after_cons, IH, step_menu_names. simpl. intuition.
Qed.

Lemma last_course_none n pairs :
  last_course n pairs = None <-> ~ In n (List.map fst pairs).
Proof.
  induction pairs as [|[n' c] pairs IH]; simpl; [tauto|].
  destruct (last_course n pairs) as [c'|].
  - split; [done|]. intros H. exfalso. apply H. right.
    destruct (in_dec string_dec n (List.map fst pairs)) as [Hin|Hin]; [done|].
    by apply IH in Hin.
  - destruct (String.eqb_spec n' n) as [E|E]; [split; [done|tauto]|].
    split; [|done]. intros _ [H|H]; [done|]. by apply IH in H.
Qed.

Lemma last_course_In n c pairs :
  last_course n pairs = Some c -> In (n, c) pairs.
Proof.
  induction pairs as [|[n' c'] pairs IH]; simpl; [done|].
  destruct (last_course n pairs) as [c0|].
  - intros [= <-]. right. by apply IH.
  - destruct (String.eqb_spec n' n) as [->|]; [|done]. intros [= <-]. by left.
Qed.

(** The items the file does not name are as before. *)
Lemma after_other_rows pairs : forall cat r,
  last_course (menu_name r) pairs = None ->
  In r (menu (after pairs cat)) <-> In r (menu cat).
Proof.
  induction pairs as [|[n c] pairs IH]; intros cat r Hr; [done|].
  simpl in Hr. destruct (last_course (menu_name r) pairs) eqn:E; [done|].
  destruct (String.eqb_spec n (menu_name r)) as [|Hn]; [done|].
  rewrite after_cons, IH by done. apply step_other_rows. congruence.
Qed.

(** Every item the file names is filed under the course the file gives
    last for it. *)
Lemma after_settled pairs : forall cat r c co,
  consistent cat ->
  In r (menu (after pairs cat)) ->
  last_course (menu_name r) pairs = Some c ->
  course_named c (after pairs cat) = Some co ->
  menu_course r = course_pk co.
Proof.
  induction pairs as [|[n c0] pairs IH]; intros cat r c co Hcat Hr Hlast Hco;
    [done|].
  rewrite after_cons in Hr, Hco. simpl in Hlast.
  destruct (last_course (menu_name r) pairs) as [c'|] eqn:E.
  - injection Hlast as ->.
    by apply (IH (step n c0 cat) r c co (step_consistent _ _ _ Hcat)).
  - destruct (String.eqb_spec n (menu_name r)) as [En|]; [|done].
    injection Hlast as ->.
    apply after_other_rows in Hr; [|done].
    rewrite (after_course_kept pairs _ _ _ (step_course_found n c cat)) in Hco.
    injection Hco as <-. by apply step_item_found with (n := n).
Qed.

Lemma after_covered pairs cat :
  covered (after pairs cat) pairs.
Proof.
  intros n c Hin. unfold course_named, item_named.
  rewrite (find_some_iff course_name), (find_some_iff menu_name).
  rewrite after_course_names, after_menu_names. split; right.
  - by apply (in_map snd) in Hin.
  - by apply (in_map fst) in Hin.
Qed.

(** On a store that has every course and item of the rows, the rows only
    move items. *)
Lemma step_covered n c cat co :
  course_named c cat = Some co -> item_named n cat <> None ->
  step n c cat
  = {| strict := strict cat; courses := courses cat;
       menu := List.map (retarget n co) (menu cat);
       next_course_pk := next_course_pk cat;
       next_menu_pk := next_menu_pk cat |}.
Proof.
  intros Hco Hn. unfold step, course_for. rewrite Hco.
  by destruct (item_named n cat).
Qed.

Lemma target_cons n c co pairs cat r :
  course_named c cat = Some co ->
  (forall x y, In (x, y) pairs -> course_named y cat <> None) ->
  target cat pairs (retarget n co r) = target cat ((n, c) :: pairs) r.
Proof.
  intros Hco Hall. unfold target. rewrite retarget_name. simpl.
  destruct (last_course (menu_name r) pairs) as [c'|] eqn:E.
  - destruct (course_named c' cat) as [co'|] eqn:E'.
    + unfold retarget. by destruct (menu_name r =? n)%string.
    + by destruct (Hall _ _ (last_course_In _ _ _ E)).
  - unfold retarget. rewrite String.eqb_sym.
    destruct (n =? menu_name r)%string; [by rewrite Hco|done].
Qed.

Lemma after_of_covered pairs : forall cat,
  covered cat pairs ->
  after pairs cat
  = {| strict := strict cat; courses := courses cat;
       menu := List.map (target cat pairs) (menu cat);
       next_course_pk := next_course_pk cat;
       next_menu_pk := next_menu_pk cat |}.
Proof.
  induction pairs as [|[n c] pairs IH]; intros cat Hcov.
  - unfold after, target. simpl. rewrite map_id. by destruct cat.
  - destruct (Hcov n c (or_introl eq_refl)) as [Hc Hn].
    destruct (course_named c cat) as [co|] eqn:Eco; [|done].
    rewrite after_cons, (step_covered n c cat co) by done.
    set (cat1 := {| strict := strict cat; courses := courses cat;
                    menu := List.map (retarget n co) (menu cat);
                    next_course_pk := next_course_pk cat;
                    next_menu_pk := next_menu_pk cat |}).
    assert (Hcov1 : covered cat1 pairs).
    { intros n' c' Hin. destruct (Hcov n' c' (or_intror Hin)) as [H1 H2].
      split; [done|]. unfold item_named in *. subst cat1. simpl.
      apply (find_some_iff menu_name). rewrite map_retarget_names.
      by apply (find_some_iff menu_name). }
    rewrite (IH cat1 Hcov1). subst cat1. simpl. f_equal.
    rewrite List.map_map. apply map_ext. intros r.
    apply (target_cons n c co pairs cat r Eco).
    intros x y Hin. by destruct (Hcov x y (or_intror Hin)).
Qed.

Lemma after_strict pairs : forall cat, strict (after pairs cat) = strict cat.
Proof.
  induction pairs as [|[n c] pairs IH]; intros cat; [done|].
  by rewrite after_cons, IH.
Qed.

(** What [import_csv] does with a file on a consistent store. *)
Lemma import_csv_after reader cat :
  consistent cat -> fits cat reader ->
  import_csv (Some reader) cat
  = (after (usable reader) cat,
     inr (success,
          CsvProcessed
            (Views.len (menu (after (usable reader) cat)) - Views.len (menu cat))
            (Views.len (usable reader)
             - (Views.len (menu (after (usable reader) cat))
                - Views.len (menu cat))))).
Proof.
  intros Hcat Hfit. unfold import_csv, bindC.
  rewrite import_rows_pairs, import_pairs_after by done. cbv zeta. simpl.
  do 3 f_equal.
Qed.

(** Importing the rows again changes nothing. *)
Lemma after_twice pairs cat :
  consistent cat -> after pairs (after pairs cat) = after pairs cat.
Proof.
  intros Hcat. rewrite (after_of_covered pairs (after pairs cat))
    by apply after_covered.
  set (cat1 := after pairs cat).
  assert (List.map (target cat1 pairs) (menu cat1) = menu cat1) as ->;
    [|by destruct cat1].
  rewrite <- (map_id (menu cat1)) at 2. apply map_ext_in. intros r Hr.
  unfold target. destruct (last_course (menu_name r) pairs) as [c|] eqn:E;
    [|done].
  destruct (course_named c cat1) as [co|] eqn:Eco; [|done].
  apply with_course_same.
  by apply (after_settled pairs cat r c co).
Qed.

End ImportFacts.

(** X20.  [import_csv] of a file of plain text on a consistent catalogue:
    every line with a name and a course is imported, a header line
    included.  The message counts as new the items the menu grew by and as
    updated the other usable lines; afterwards the menu has the names it
    had and those of the file, the courses likewise, names are still
    unique, and no course and no item was removed or renamed. *)
Theorem import_csv_adds_and_updates
    (reader : list (list string)) (cat : MenuItemAdmin.Catalogue) :
  MenuItemAdmin.plain_rows reader = true ->
  MenuItemAdmin.consistent cat -> MenuItemAdmin.fits cat reader ->
  let cat' := fst (MenuItemAdmin.import_csv (Some reader) cat) in
  let created := Views.len (MenuItemAdmin.menu cat')
                 - Views.len (MenuItemAdmin.menu cat) in
  snd (MenuItemAdmin.import_csv (Some reader) cat)
  = inr (success,
         MenuItemAdmin.CsvProcessed created
           (Views.len (MenuItemAdmin.usable reader) - created)) /\
  MenuItemAdmin.consistent cat' /\
  (forall n, In n (List.map MenuItemAdmin.menu_name (MenuItemAdmin.menu cat'))
     <-> In n (List.map MenuItemAdmin.menu_name (MenuItemAdmin.menu cat))
         \/ In n (List.map fst (MenuItemAdmin.usable reader))) /\
  (forall c, In c (List.map MenuItemAdmin.course_name (MenuItemAdmin.courses cat'))
     <-> In c (List.map MenuItemAdmin.course_name (MenuItemAdmin.courses cat))
         \/ In c (List.map snd (MenuItemAdmin.usable reader))) /\
  (exists more, MenuItemAdmin.courses cat' = MenuItemAdmin.courses cat ++ more) /\
  (exists more,
     List.map MenuItemAdmin.key (MenuItemAdmin.menu cat')
     = List.map MenuItemAdmin.key (MenuItemAdmin.menu cat) ++ more).
Proof.
  intros _ Hcat Hfit cat' created. subst created cat'.
  rewrite (ImportFacts.import_csv_after reader cat Hcat Hfit). simpl.
  split; [done|]. split; [by apply ImportFacts.after_consistent|].
  split; [apply ImportFacts.after_menu_names|].
  split; [apply ImportFacts.after_course_names|].
  split; [apply ImportFacts.after_courses|apply ImportFacts.after_keys].
Qed.

Lemma import_csv_adds_and_updates_witness :
  snd (MenuItemAdmin.import_csv (Some SampleMenu.reader) SampleMenu.carte)
  = inr (success, MenuItemAdmin.CsvProcessed 2 2) /\
  List.map MenuItemAdmin.menu_name
    (MenuItemAdmin.menu
       (fst (MenuItemAdmin.import_csv (Some SampleMenu.reader) SampleMenu.carte)))
  = ["Soup"; "name"; "Cake"].
Proof.
  assert (Hcat : MenuItemAdmin.consistent SampleMenu.carte).
  { repeat split; apply (bool_decide_unpack _); vm_compute; exact I. }
  assert (Hfit : MenuItemAdmin.fits SampleMenu.carte SampleMenu.reader).
  { intros n c Hin. vm_compute in Hin.
    repeat (destruct Hin as [Hin|Hin]; [injection Hin as <- <-; by split|]).
    destruct Hin. }
  split; [|reflexivity].
  etransitivity;
    [exact (proj1 (import_csv_adds_and_updates SampleMenu.reader SampleMenu.carte
                     eq_refl Hcat Hfit))|reflexivity].
Defined.

(** X21.  After [import_csv] of a file of plain text the last line of an
    item decides its course: the item of that name is filed under the
    course of that name.  An item the file does not name is in the menu
    afterwards exactly when it was before, unchanged. *)
Theorem import_csv_last_line_wins
    (reader : list (list string)) (cat : MenuItemAdmin.Catalogue) :
  MenuItemAdmin.plain_rows reader = true ->
  MenuItemAdmin.consistent cat -> MenuItemAdmin.fits cat reader ->
  let cat' := fst (MenuItemAdmin.import_csv (Some reader) cat) in
  (forall n c,
     MenuItemAdmin.last_course n (MenuItemAdmin.usable reader) = Some c ->
     exists row course,
       MenuItemAdmin.item_named n cat' = Some row /\
       MenuItemAdmin.course_named c cat' = Some course /\
       MenuItemAdmin.menu_course row = MenuItemAdmin.course_pk course) /\
  (forall r,
     MenuItemAdmin.last_course (MenuItemAdmin.menu_name r)
       (MenuItemAdmin.usable reader) = None ->
     In r (MenuItemAdmin.menu cat') <-> In r (MenuItemAdmin.menu cat)).
Proof.
  intros _ Hcat Hfit cat'. subst cat'.
  rewrite (ImportFacts.import_csv_after reader cat Hcat Hfit). simpl. split.
  - intros n c Hlast.
    destruct (ImportFacts.after_covered (MenuItemAdmin.usable reader) cat n c
                (ImportFacts.last_course_In _ _ _ Hlast)) as [Hc Hn].
    destruct (MenuItemAdmin.item_named n _) as [row|] eqn:Erow; [|done].
    destruct (MenuItemAdmin.course_named c _) as [course|] eqn:Eco; [|done].
    exists row, course. split; [done|]. split; [done|].
    destruct (ImportFacts.find_named MenuItemAdmin.menu_name _ _ _ Erow)
      as [Hin Hname].
    apply (ImportFacts.after_settled (MenuItemAdmin.usable reader) cat row c);
      [done|done|by rewrite Hname|done].
  - intros r Hr. by apply ImportFacts.after_other_rows.
Qed.

Lemma import_csv_last_line_wins_witness :
  let cat' := fst (MenuItemAdmin.import_csv (Some SampleMenu.reader)
                     SampleMenu.carte) in
  exists row course,
    MenuItemAdmin.item_named "Soup" cat' = Some row /\
    MenuItemAdmin.course_named "Starters" cat' = Some course /\
    MenuItemAdmin.menu_course row = MenuItemAdmin.course_pk course.
Proof.
  assert (Hcat : MenuItemAdmin.consistent SampleMenu.carte).
  { repeat split; apply (bool_decide_unpack _); vm_compute; exact I. }
  assert (Hfit : MenuItemAdmin.fits SampleMenu.carte SampleMenu.reader).
  { intros n c Hin. vm_compute in Hin.
    repeat (destruct Hin as [Hin|Hin]; [injection Hin as <- <-; by split|]).
    destruct Hin. }
  exact (proj1 (import_csv_last_line_wins SampleMenu.reader SampleMenu.carte
                  eq_refl Hcat Hfit) "Soup" "Starters" eq_refl).
Defined.

(** X22.  Importing the same file of plain text a second time changes
    nothing: the catalogue stays as the first import left it, and the
    message reports no new item and every usable line as updated. *)
Theorem import_csv_twice
    (reader : list (list string)) (cat : MenuItemAdmin.Catalogue) :
  MenuItemAdmin.plain_rows reader = true ->
  MenuItemAdmin.consistent cat -> MenuItemAdmin.fits cat reader ->
  let cat' := fst (MenuItemAdmin.import_csv (Some reader) cat) in
  MenuItemAdmin.import_csv (Some reader) cat'
  = (cat', inr (success,
                MenuItemAdmin.CsvProcessed 0
                  (Views.len (MenuItemAdmin.usable reader)))).
Proof.
  intros _ Hcat Hfit cat'. subst cat'.
  rewrite (ImportFacts.import_csv_after reader cat Hcat Hfit). cbn [fst].
  rewrite ImportFacts.import_csv_after.
  - rewrite ImportFacts.after_twice by done.
    by rewrite Z.sub_diag, Z.sub_0_r.
  - by apply ImportFacts.after_consistent.
  - intros n c Hin. unfold MenuItemAdmin.varchar_ok.
    rewrite ImportFacts.after_strict. by apply Hfit.
Qed.

Lemma import_csv_twice_witness :
  let cat' := fst (MenuItemAdmin.import_csv (Some SampleMenu.reader)
                     SampleMenu.carte) in
  MenuItemAdmin.import_csv (Some SampleMenu.reader) cat'
  = (cat', inr (success, MenuItemAdmin.CsvProcessed 0 4)).
Proof.
  assert (Hcat : MenuItemAdmin.consistent SampleMenu.carte).
  { repeat split; apply (bool_decide_unpack _); vm_compute; exact I. }
  assert (Hfit : MenuItemAdmin.fits SampleMenu.carte SampleMenu.reader).
  { intros n c Hin. vm_compute in Hin.
    repeat (destruct Hin as [Hin|Hin]; [injection Hin as <- <-; by split|]).
    destruct Hin. }
  exact (import_csv_twice SampleMenu.reader SampleMenu.carte eq_refl Hcat Hfit).
Defined.

(** ** Instances of the statements without a precondition *)

Lemma first_open_order_is_newest_witness :
  Sample.order1 ∈ orders (Sample.seated ["1"]) /\
  Open.open_on Sample.table7 Sample.order1 /\
  forall o', o' ∈ orders (Sample.seated ["1"]) ->
             Open.open_on Sample.table7 o' ->
             opened_at o' <= opened_at Sample.order1.
Proof.
  exact (proj2 (first_open_order_is_newest Sample.table7 (Sample.seated ["1"]))
           Sample.order1 eq_refl).
Defined.

Lemma BaseSeatFormSet_clean_iff_witness :
  BaseSeatFormSet.clean (inr tt) true
    [ {| BaseSeatFormSet.should_delete := false;
         BaseSeatFormSet.cleaned_label := Some "1" |};
      {| BaseSeatFormSet.should_delete := true;
         BaseSeatFormSet.cleaned_label := Some "1" |};
      {| BaseSeatFormSet.should_delete := false;
         BaseSeatFormSet.cleaned_label := Some "" |};
      {| BaseSeatFormSet.should_delete := false;
         BaseSeatFormSet.cleaned_label := None |};
      {| BaseSeatFormSet.should_delete := false;
         BaseSeatFormSet.cleaned_label := Some "2" |} ]
  = inr tt.
Proof.
  apply (proj2 (proj1 (BaseSeatFormSet_clean_iff (inr tt) true _))).
  split; [reflexivity|]. apply (bool_decide_unpack _). vm_compute. exact I.
Defined.

(** ** A moved selection and [get_or_create] *)

Module DuplicateFacts.

(** A filter that keeps two different rows keeps at least two. *)
Lemma filter_two {A} (p : A -> bool) (l : list A) (x y : A) :
  In x l -> In y l -> x <> y -> p x = true -> p y = true ->
  exists a b rest, List.filter p l = a :: b :: rest.
Proof.
  intros Hx Hy Hne Px Py.
  assert (Fx : In x (List.filter p l)) by (by apply filter_In).
  assert (Fy : In y (List.filter p l)) by (by apply filter_In).
  destruct (List.filter p l) as [|a [|b rest]]; [done| |by eauto].
  destruct Fx as [<-|[]], Fy as [<-|[]]. done.
Qed.

End DuplicateFacts.


